(** * Sistema de Gestión de Documentos Seguros: permisos, OTP y bloqueo

    Shallow embedding of the authorisation and step-up authentication
    code of the document management backend:

    - [models/usuario.py]    the [Usuario] model: role predicates, document
                             permissions, OTP methods, failed-login counter;
    - [models/otp.py]        [GestorOTP]: the OTP policy matrix and the
                             time-window verification;
    - [utils/decoradores.py] the decorators guarding the routes;
    - [routes/auth.py]       login and the OTP management routes;
    - [routes/documentos.py] the view, delete and download routes.

    Python strings are [string]; integers and timestamps are [Z]; nullable
    columns are [option]; a dict literal is an association list read with
    [dict_get].  Mutable model objects are threaded explicitly: a method is
    a function from the object to its result, the updated object and the
    calls it made. *)

From Stdlib Require Import ZArith List String Ascii Bool Lia.
Import ListNotations.

Open Scope string_scope.
Open Scope Z_scope.

(** ** Python helpers *)

(** [d.get(k, defecto)] on a dict written as an association list. *)
Fixpoint dict_get {V : Type} (d : list (string * V)) (k : string) (defecto : V) : V :=
  match d with
  | [] => defecto
  | (k', v) :: resto => if String.eqb k' k then v else dict_get resto k defecto
  end.

(** [range(a, b)]. *)
Definition rango (a b : Z) : list Z :=
  map (fun k => a + Z.of_nat k) (seq 0 (Z.to_nat (b - a))).

(** Truthiness of a nullable string column: [None] and [''] are falsy. *)
Definition verdadero (o : option string) : bool :=
  match o with
  | Some s => negb (String.eqb s "")
  | None => false
  end.

(** [c.isdigit()] for one character.  The strings of the model are
    sequences of characters below U+0100 (header values reach the
    application as Latin-1 text, one character per byte); on that range
    Python's [str.isdigit] holds for [0-9] and for the superscript digits
    U+00B2, U+00B3 and U+00B9. *)
Definition es_digito_ascii (c : ascii) : bool :=
  let n := nat_of_ascii c in (48 <=? n)%nat && (n <=? 57)%nat.

Definition isdigit_car (c : ascii) : bool :=
  let n := nat_of_ascii c in
  es_digito_ascii c || (n =? 178)%nat || (n =? 179)%nat || (n =? 185)%nat.

Fixpoint todos (p : ascii -> bool) (s : string) : bool :=
  match s with
  | EmptyString => true
  | String c resto => p c && todos p resto
  end.

(** [s.isdigit()]: every character is a digit and there is at least one. *)
Definition isdigit (s : string) : bool :=
  negb (String.eqb s "") && todos isdigit_car s.

Definition len (s : string) : Z := Z.of_nat (String.length s).

(** Exactly six characters, each one of [0-9]. *)
Definition seis_digitos_ascii (s : string) : bool :=
  (len s =? 6) && todos es_digito_ascii s.

(** [unicodedata.normalize("NFKC", c)] for one character below U+0100,
    as code points.  Fourteen characters of that range have a
    compatibility decomposition: the no-break space, the spacing accents
    (a space and a combining mark), the ordinal indicators, the micro
    sign, the superscript digits and the three vulgar fractions; every
    other one is its own normal form (an accented letter decomposes and
    recomposes to itself).  No mark produced here follows a letter, so
    the normal form of a string is the concatenation of those of its
    characters. *)
Definition nfkc_car (c : ascii) : list Z :=
  let n := Z.of_nat (nat_of_ascii c) in
  if n =? 160 then [32]
  else if n =? 168 then [32; 776]
  else if n =? 170 then [97]
  else if n =? 175 then [32; 772]
  else if n =? 178 then [50]
  else if n =? 179 then [51]
  else if n =? 180 then [32; 769]
  else if n =? 181 then [956]
  else if n =? 184 then [32; 807]
  else if n =? 185 then [49]
  else if n =? 186 then [111]
  else if n =? 188 then [49; 8260; 52]
  else if n =? 189 then [49; 8260; 50]
  else if n =? 190 then [51; 8260; 52]
  else [n].

Fixpoint nfkc (s : string) : list Z :=
  match s with
  | EmptyString => []
  | String c resto => (nfkc_car c ++ nfkc resto)%list
  end.

Fixpoint codigos_iguales (l1 l2 : list Z) : bool :=
  match l1, l2 with
  | [], [] => true
  | x :: r1, y :: r2 => (x =? y) && codigos_iguales r1 r2
  | _, _ => false
  end.

(** [pyotp.utils.strings_equal]: both strings are normalised to NFKC and
    their UTF-8 encodings compared with [compare_digest]. *)
Definition strings_equal (s1 s2 : string) : bool :=
  codigos_iguales (nfkc s1) (nfkc s2).


(** ** Data model *)

(** The columns of [Usuario] that the permission, OTP and lockout code
    reads or writes. *)
Record Usuario := mkUsuario {
  id : Z;
  email : string;
  password_hash : option string;
  rol : string;
  activo : bool;
  fecha_ultimo_acceso : option Z;
  intentos_login_fallidos : Z;
  clave_otp_base32 : option string;
  otp_habilitado : bool;
  fecha_ultimo_otp : option Z
}.

(** The columns of [Documento] used by the guarded routes. *)
Record Documento := mkDocumento {
  doc_id : Z;
  nivel_seguridad : string;
  propietario_id : Z;
  estado : string;
  ruta_archivo : option string;
  contador_descargas : Z;
  contador_visualizaciones : Z;
  fecha_ultimo_acceso_doc : option Z
}.

Definition con_rol (u : Usuario) (r : string) : Usuario :=
  mkUsuario (id u) (email u) (password_hash u) r (activo u)
            (fecha_ultimo_acceso u) (intentos_login_fallidos u)
            (clave_otp_base32 u) (otp_habilitado u) (fecha_ultimo_otp u).

Definition con_intentos (u : Usuario) (n : Z) : Usuario :=
  mkUsuario (id u) (email u) (password_hash u) (rol u) (activo u)
            (fecha_ultimo_acceso u) n
            (clave_otp_base32 u) (otp_habilitado u) (fecha_ultimo_otp u).

Definition con_ultimo_acceso (u : Usuario) (t : option Z) : Usuario :=
  mkUsuario (id u) (email u) (password_hash u) (rol u) (activo u)
            t (intentos_login_fallidos u)
            (clave_otp_base32 u) (otp_habilitado u) (fecha_ultimo_otp u).

Definition con_clave_otp (u : Usuario) (k : option string) : Usuario :=
  mkUsuario (id u) (email u) (password_hash u) (rol u) (activo u)
            (fecha_ultimo_acceso u) (intentos_login_fallidos u)
            k (otp_habilitado u) (fecha_ultimo_otp u).

Definition con_otp_habilitado (u : Usuario) (b : bool) : Usuario :=
  mkUsuario (id u) (email u) (password_hash u) (rol u) (activo u)
            (fecha_ultimo_acceso u) (intentos_login_fallidos u)
            (clave_otp_base32 u) b (fecha_ultimo_otp u).

Definition con_fecha_otp (u : Usuario) (t : option Z) : Usuario :=
  mkUsuario (id u) (email u) (password_hash u) (rol u) (activo u)
            (fecha_ultimo_acceso u) (intentos_login_fallidos u)
            (clave_otp_base32 u) (otp_habilitado u) t.

Definition con_estado (d : Documento) (e : string) : Documento :=
  mkDocumento (doc_id d) (nivel_seguridad d) (propietario_id d) e
              (ruta_archivo d) (contador_descargas d)
              (contador_visualizaciones d) (fecha_ultimo_acceso_doc d).

(** ** Roles and permissions ([models/usuario.py]) *)

Definition es_admin (u : Usuario) : bool := String.eqb (rol u) "admin".

Definition es_supervisor (u : Usuario) : bool :=
  String.eqb (rol u) "supervisor" || String.eqb (rol u) "admin".

Definition puede_acceder_documento (u : Usuario) (documento : Documento) : bool :=
  if es_admin u then true
  else if propietario_id documento =? id u then true
  else if String.eqb (nivel_seguridad documento) "publico" then true
  else if es_supervisor u && String.eqb (nivel_seguridad documento) "confidencial" then true
  else false.

Definition puede_modificar_documento (u : Usuario) (documento : Documento) : bool :=
  if es_admin u then true
  else if propietario_id documento =? id u then true
  else if es_supervisor u && negb (String.eqb (nivel_seguridad documento) "secreto") then true
  else false.

Definition puede_eliminar_documento (u : Usuario) (documento : Documento) : bool :=
  es_admin u || (propietario_id documento =? id u).

(** The dispatch of [validar_acceso_documento]: the permission method
    chosen by the action name, [False] for any other action. *)
Definition puede_realizar_accion (accion : string) (u : Usuario) (documento : Documento) : bool :=
  if String.eqb accion "ver" then puede_acceder_documento u documento
  else if String.eqb accion "editar" then puede_modificar_documento u documento
  else if String.eqb accion "eliminar" then puede_eliminar_documento u documento
  else if String.eqb accion "descargar" then puede_acceder_documento u documento
  else false.

(** Rank of the three roles in the privilege order
    usuario <= supervisor <= admin. *)
Definition privilegio (r : string) : option nat :=
  if String.eqb r "usuario" then Some 0%nat
  else if String.eqb r "supervisor" then Some 1%nat
  else if String.eqb r "admin" then Some 2%nat
  else None.

(** ** OTP policy matrix ([GestorOTP.requiere_otp_para_accion]) *)

Definition reglas_otp (rol_usuario : string) : list (string * list (string * bool)) :=
  [ ("secreto",
      [ ("ver", true); ("eliminar", true); ("descargar", true) ]);
    ("confidencial",
      [ ("ver", false); ("eliminar", true);
        ("descargar", String.eqb rol_usuario "usuario") ]);
    ("publico",
      [ ("ver", false);
        ("eliminar", negb (String.eqb rol_usuario "admin"));
        ("descargar", false) ]) ].

Definition requiere_otp_para_accion (accion nivel rol_usuario : string) : bool :=
  dict_get (dict_get (reglas_otp rol_usuario) nivel []) accion false.

(** ** Calls observed during a request *)

Inductive Evento : Type :=
| EvVerificarPassword (password_plano : string)
    (** [Usuario.verificar_password] was called *)
| EvBcrypt (hash password_plano : string)
    (** [bcrypt.check_password_hash] was called *)
| EvValidarOtp (codigo : string)
    (** [Usuario.validar_otp] was called *)
| EvValidarOtpDebug (codigo : string)
    (** [Usuario.validar_otp_con_debug] was called *)
| EvTotp (codigo clave : string)
    (** [GestorOTP.validar_otp_codigo] was called on this code and key *).

(** A method of [Usuario]: from the object to the returned value, the
    object after the call and the calls made. *)
Definition Metodo (A : Type) : Type := Usuario -> A * Usuario * list Evento.

(** A deterministic stand-in for the HOTP derivation, used to run the
    model on concrete inputs: the code of counter [c] is the six-digit
    rendering of [c mod 10], and the empty key is rejected. *)
Definition digito (n : Z) : ascii := ascii_of_nat (48 + Z.to_nat (n mod 10)).

Definition hotp_de_prueba (clave : string) (contador : Z) : option string :=
  if String.eqb clave "" then None
  else if contador <? 0 then None
  else let d := digito contador in
       Some (String d (String d (String d (String d (String d (String d EmptyString)))))).

Definition bcrypt_de_prueba (hash password_plano : string) : bool :=
  String.eqb hash password_plano.

Section Sistema.

(** External collaborators.

    [generate_otp clave c] is pyotp's HOTP derivation for the base32 key
    [clave] and counter [c]; [None] stands for the exception it raises
    (a key that does not decode, a negative counter).

    [check_password_hash] is bcrypt's comparison.

    [normalizar_email s] is [s.strip().lower()]. *)
Variable generate_otp : string -> Z -> option string.
Variable check_password_hash : string -> string -> bool.
Variable normalizar_email : string -> string.

(** *** pyotp.TOTP with the default 30 second interval *)

(** [TOTP.timecode]: [int(seconds / 30)], a division that truncates
    toward zero.  The clock is in whole seconds, and the local time pyotp
    goes through converts back to the same second. *)
Definition timecode (for_time : Z) : Z := Z.quot for_time 30.

(** [TOTP.at(for_time, counter_offset)]. *)
Definition totp_at (clave : string) (for_time counter_offset : Z) : option string :=
  generate_otp clave (timecode for_time + counter_offset).

(** [TOTP.now()]. *)
Definition totp_now (clave : string) (ahora : Z) : option string :=
  totp_at clave ahora 0.

(** The loop of [TOTP.verify]: the offsets are tried in order and the
    first code that [strings_equal] matches returns [True]. *)
Fixpoint verify_bucle (clave otp : string) (for_time : Z) (offsets : list Z) : option bool :=
  match offsets with
  | [] => Some false
  | i :: resto =>
      match totp_at clave for_time i with
      | None => None
      | Some c => if strings_equal otp c then Some true
                  else verify_bucle clave otp for_time resto
      end
  end.

(** [TOTP.verify(otp, valid_window=w)] at the current time.  The clock
    is read once per call, and the submitted text is compared with a
    derived code through [strings_equal]. *)
Definition totp_verify (clave otp : string) (for_time valid_window : Z) : option bool :=
  if valid_window =? 0 then
    match totp_at clave for_time 0 with
    | None => None
    | Some c => Some (strings_equal otp c)
    end
  else verify_bucle clave otp for_time (rango (- valid_window) (valid_window + 1)).

(** The five derivations of the diagnostic loop of [validar_otp_codigo]
    ([for i in range(-2, 3)]); its comparisons are discarded, so only
    whether it raises matters. *)
Fixpoint bucle_diagnostico (clave : string) (timestamp_actual : Z) (desfases : list Z) : bool :=
  match desfases with
  | [] => true
  | i :: resto =>
      match totp_at clave (timestamp_actual + i * 30) 0 with
      | None => false
      | Some _ => bucle_diagnostico clave timestamp_actual resto
      end
  end.

(** [GestorOTP.validar_otp_codigo]: the [es_valido] entry of the returned
    dict.  Any exception inside the [try] gives [es_valido = False]. *)
Definition validar_otp_codigo (codigo_otp clave_base32_generada : string) (ahora : Z) : bool :=
  match totp_now clave_base32_generada ahora with
  | None => false
  | Some codigo_actual =>
      match totp_verify clave_base32_generada codigo_otp ahora 1 with
      | None => false
      | Some es_valido =>
          if bucle_diagnostico clave_base32_generada ahora (rango (-2) 3)
          then es_valido else false
      end
  end.

(** The code pyotp derives for the time [t]. *)
Definition codigo_totp (clave : string) (t : Z) : option string :=
  generate_otp clave (timecode t).


(** *** OTP methods of [Usuario] *)

(** [Usuario.configurar_otp]; [datos_otp] is what
    [GestorOTP.generar_otp_para_usuario] returned: the freshly drawn
    base32 key, or [None] when generation failed. *)
Definition configurar_otp (datos_otp : option string) : Metodo (option string) :=
  fun self =>
    match datos_otp with
    | Some clave_base32 =>
        (Some clave_base32,
         con_otp_habilitado (con_clave_otp self (Some clave_base32)) false, [])
    | None => (None, self, [])
    end.

(** [Usuario.validar_otp]. *)
Definition validar_otp (codigo_otp : string) (ahora : Z) : Metodo bool :=
  fun self =>
    if negb (otp_habilitado self) || negb (verdadero (clave_otp_base32 self)) then
      (false, self, [EvValidarOtp codigo_otp])
    else
      match clave_otp_base32 self with
      | None => (false, self, [EvValidarOtp codigo_otp])
      | Some clave =>
          if validar_otp_codigo codigo_otp clave ahora then
            (true, con_fecha_otp self (Some ahora),
             [EvValidarOtp codigo_otp; EvTotp codigo_otp clave])
          else
            (false, self, [EvValidarOtp codigo_otp; EvTotp codigo_otp clave])
      end.

(** [Usuario.validar_otp_con_debug]: no [otp_habilitado] test. *)
Definition validar_otp_con_debug (codigo_otp : string) (ahora : Z) : Metodo bool :=
  fun self =>
    if negb (verdadero (clave_otp_base32 self)) then
      (false, self, [EvValidarOtpDebug codigo_otp])
    else
      match clave_otp_base32 self with
      | None => (false, self, [EvValidarOtpDebug codigo_otp])
      | Some clave =>
          if validar_otp_codigo codigo_otp clave ahora then
            (true, con_fecha_otp self (Some ahora),
             [EvValidarOtpDebug codigo_otp; EvTotp codigo_otp clave])
          else
            (false, self, [EvValidarOtpDebug codigo_otp; EvTotp codigo_otp clave])
      end.

(** [Usuario.activar_otp_con_validacion]. *)
Definition activar_otp_con_validacion (codigo_validacion : string) (ahora : Z) : Metodo bool :=
  fun self =>
    if negb (verdadero (clave_otp_base32 self)) then (false, self, [])
    else
      let '(valido, self1, evs) := validar_otp codigo_validacion ahora self in
      if valido then
        (true, con_fecha_otp (con_otp_habilitado self1 true) (Some ahora), evs)
      else (false, self1, evs).

(** *** Authentication and lockout methods of [Usuario] *)

(** [Usuario.verificar_password]. *)
Definition verificar_password (password_plano : string) : Metodo bool :=
  fun self =>
    match password_hash self with
    | Some h =>
        if String.eqb password_plano "" || String.eqb h "" then
          (false, self, [EvVerificarPassword password_plano])
        else
          (check_password_hash h password_plano, self,
           [EvVerificarPassword password_plano; EvBcrypt h password_plano])
    | None => (false, self, [EvVerificarPassword password_plano])
    end.

(** [Usuario.registrar_intento_fallido]. *)
Definition registrar_intento_fallido : Metodo unit :=
  fun self => (tt, con_intentos self (intentos_login_fallidos self + 1), []).

(** [Usuario.esta_bloqueado]. *)
Definition esta_bloqueado (self : Usuario) : bool :=
  5 <=? intentos_login_fallidos self.

(** [Usuario.desbloquear_cuenta]. *)
Definition desbloquear_cuenta : Metodo unit :=
  fun self => (tt, con_intentos self 0, []).

(** [Usuario.generar_tokens_jwt]: the writes to the object; the tokens
    themselves are opaque. *)
Definition generar_tokens_jwt (ahora : Z) : Metodo unit :=
  fun self => (tt, con_intentos (con_ultimo_acceso self (Some ahora)) 0, []).

(** ** Requests, responses and the state a request runs against *)

(** What a view function reads from [flask.request].  [jwt_error] is the
    [codigo] answered by the JWT callbacks of [app.py] when the token is
    refused, [None] when it is accepted; [json] is the request body as a
    dict of strings. *)
Record Peticion := mkPeticion {
  jwt_error : option string;
  metodo : string;
  endpoint : string;
  path : string;
  documento_id : Z;
  x_otp_code : option string;
  es_json : bool;
  json : list (string * string);
  ip_cliente : string
}.

(** A response: the HTTP status and the [codigo] entry of the JSON body
    (the [error] or [mensaje] entry when the body has no [codigo]). *)
Record Respuesta := mkRespuesta {
  http : Z;
  codigo : string
}.

(** The state shared by the requests of one account on one document:
    the [Usuario] row the request resolves (from the token identity, or
    from the email of a login), the [Documento] row of [documento_id],
    whether its file is on disk, the rate limiter's cache
    ([current_app._rate_limit_cache]: key to attempts and expiry), and
    the calls observed so far. *)
Record Mundo := mkMundo {
  usuario_bd : option Usuario;
  documento_bd : option Documento;
  archivo_en_disco : bool;
  cache_limite : list (string * (Z * Z));
  traza : list Evento
}.

Definition Op (A : Type) : Type := Mundo -> A * Mundo.

Definition ret {A : Type} (a : A) : Op A := fun m => (a, m).

Definition bind {A B : Type} (c : Op A) (k : A -> Op B) : Op B :=
  fun m => let (a, m') := c m in k a m'.

Notation "x <- c ;; k" := (bind c (fun x => k))
  (at level 61, c at next level, right associativity).
Notation "c ;;; k" := (bind c (fun _ => k))
  (at level 61, right associativity).

Definition responder (estado_http : Z) (cod : string) : Op Respuesta :=
  ret (mkRespuesta estado_http cod).

(** Attribute writes on the session's [Usuario] and [Documento] objects. *)
Definition asignar_usuario (u : Usuario) : Op unit :=
  fun m => (tt, mkMundo (Some u) (documento_bd m) (archivo_en_disco m)
                        (cache_limite m) (traza m)).

Definition asignar_documento (d : Documento) : Op unit :=
  fun m => (tt, mkMundo (usuario_bd m) (Some d) (archivo_en_disco m)
                        (cache_limite m) (traza m)).

Definition asignar_cache (c : list (string * (Z * Z))) : Op unit :=
  fun m => (tt, mkMundo (usuario_bd m) (documento_bd m) (archivo_en_disco m)
                        c (traza m)).

Definition asignar_archivo (b : bool) : Op unit :=
  fun m => (tt, mkMundo (usuario_bd m) (documento_bd m) b
                        (cache_limite m) (traza m)).

(** A method call on the [Usuario] object [self] whose writes reach the
    row, because the method or the view commits after them: the object
    is updated in place and the calls it made are recorded. *)
Definition llamar {A : Type} (met : Metodo A) (self : Usuario) : Op (A * Usuario) :=
  fun m =>
    let '(r, self', evs) := met self in
    ((r, self'), mkMundo (Some self') (documento_bd m) (archivo_en_disco m)
                         (cache_limite m) (traza m ++ evs)).

(** A method call after which the request ends without
    [db.session.commit()]: the view goes on with the updated object, the
    session is discarded with the request and the row keeps its
    columns.  The calls made are recorded. *)
Definition llamar_sin_commit {A : Type} (met : Metodo A) (self : Usuario)
    : Op (A * Usuario) :=
  fun m =>
    let '(r, self', evs) := met self in
    ((r, self'), mkMundo (usuario_bd m) (documento_bd m) (archivo_en_disco m)
                         (cache_limite m) (traza m ++ evs)).

(** ** Decorators ([utils/decoradores.py]) *)

(** [@jwt_required()]. *)
Definition jwt_required (p : Peticion) (f : Op Respuesta) : Op Respuesta :=
  match jwt_error p with
  | Some cod => responder 401 cod
  | None => f
  end.

(** [@requiere_autenticacion]: injects [usuario_actual]. *)
Definition requiere_autenticacion (p : Peticion) (f : Usuario -> Op Respuesta) : Op Respuesta :=
  jwt_required p (fun m =>
    match usuario_bd m with
    | None => responder 401 "USUARIO_NO_ENCONTRADO" m
    | Some usuario_actual =>
        if negb (activo usuario_actual) then responder 401 "CUENTA_DESACTIVADA" m
        else f usuario_actual m
    end).

(** [@validar_acceso_documento(accion)]: injects [documento]. *)
Definition validar_acceso_documento (accion : string) (p : Peticion)
    (f : Usuario -> Documento -> Op Respuesta) : Op Respuesta :=
  requiere_autenticacion p (fun usuario_actual m =>
    if documento_id p =? 0 then responder 400 "DOCUMENTO_ID_FALTANTE" m
    else
      match documento_bd m with
      | None => responder 404 "DOCUMENTO_NO_ENCONTRADO" m
      | Some documento =>
          if negb (String.eqb (estado documento) "activo") then
            responder 410 "DOCUMENTO_NO_DISPONIBLE" m
          else if negb (puede_realizar_accion accion usuario_actual documento) then
            responder 403 "PERMISOS_INSUFICIENTES" m
          else f usuario_actual documento m
      end).

(** [@registrar_auditoria(accion)]: runs the view and writes a log line;
    the response and the state are those of the view. *)
Definition registrar_auditoria (accion : string) (f : Op Respuesta) : Op Respuesta := f.

(** [sub in s]. *)
Fixpoint contiene (sub s : string) : bool :=
  String.prefix sub s ||
  match s with
  | EmptyString => false
  | String _ resto => contiene sub resto
  end.

Definition accion_map : list (string * string) :=
  [ ("GET", "ver"); ("PUT", "editar"); ("PATCH", "editar");
    ("DELETE", "eliminar"); ("POST", "crear") ].

(** The action [requiere_otp_para_documento] infers from the request. *)
Definition accion_de_peticion (p : Peticion) : string :=
  let accion := dict_get accion_map (metodo p) "ver" in
  if contiene "descargar" (endpoint p) || contiene "/descargar" (path p) then "descargar"
  else if contiene "actualizar" (endpoint p) then "editar"
  else accion.

(** [@requiere_otp_para_documento].  No route of [routes/documentos.py]
    carries this decorator. *)
Definition requiere_otp_para_documento (p : Peticion) (ahora : Z)
    (f : Op Respuesta) : Op Respuesta :=
  fun m =>
    match usuario_bd m with
    | None => responder 401 "USUARIO_INVALIDO" m
    | Some usuario =>
        if negb (activo usuario) then responder 401 "USUARIO_INVALIDO" m
        else if documento_id p =? 0 then responder 400 "DOCUMENTO_ID_FALTANTE" m
        else
          match documento_bd m with
          | None => responder 404 "DOCUMENTO_NO_ENCONTRADO" m
          | Some documento =>
              if negb (String.eqb (estado documento) "activo") then
                responder 404 "DOCUMENTO_NO_ENCONTRADO" m
              else
                let accion := accion_de_peticion p in
                let requiere_otp :=
                  requiere_otp_para_accion accion (nivel_seguridad documento) (rol usuario) in
                if negb requiere_otp then f m
                else if negb (otp_habilitado usuario) then
                  responder 428 "OTP no configurado" m
                else if negb (verdadero (x_otp_code p)) then
                  responder 428 "Codigo OTP requerido" m
                else
                  match x_otp_code p with
                  | None => responder 428 "Codigo OTP requerido" m
                  | Some codigo_otp =>
                      if negb (isdigit codigo_otp) || negb (len codigo_otp =? 6) then
                        responder 400 "Formato de codigo OTP invalido" m
                      else
                        (r <- llamar (validar_otp codigo_otp ahora) usuario ;;
                         if negb (fst r) then responder 401 "Codigo OTP invalido"
                         else f) m
                  end
          end
    end.

Definition buscar_cache (c : list (string * (Z * Z))) (k : string) : option (Z * Z) :=
  match find (fun kv => String.eqb (fst kv) k) c with
  | Some kv => Some (snd kv)
  | None => None
  end.

Fixpoint poner_cache (c : list (string * (Z * Z))) (k : string) (v : Z * Z)
    : list (string * (Z * Z)) :=
  match c with
  | [] => [(k, v)]
  | (k', v') :: resto =>
      if String.eqb k' k then (k, v) :: resto else (k', v') :: poner_cache resto k v
  end.

(** [@limitar_frecuencia(maximo_intentos, ventana_tiempo)] around the view
    named [nombre]: expired entries are dropped, then the caller's entry
    is tested and counted. *)
Definition limitar_frecuencia (maximo_intentos ventana_tiempo : Z) (nombre : string)
    (p : Peticion) (ahora : Z) (f : Op Respuesta) : Op Respuesta :=
  let clave_intento := "rate_limit_" ++ nombre ++ "_" ++ ip_cliente p in
  fun m =>
    let cache :=
      filter (fun kv => negb (String.prefix "rate_limit_" (fst kv)
                              && (snd (snd kv) <? ahora)))
             (cache_limite m) in
    match buscar_cache cache clave_intento with
    | Some (intentos, expira) =>
        if maximo_intentos <=? intentos then
          (asignar_cache cache ;;;
           responder 429 "LIMITE_FRECUENCIA_EXCEDIDO") m
        else
          (asignar_cache (poner_cache cache clave_intento (intentos + 1, expira)) ;;;
           f) m
    | None =>
        (asignar_cache (poner_cache cache clave_intento (1, ahora + ventana_tiempo)) ;;;
         f) m
    end.

(** [@validar_contenido_json(campos_requeridos)]. *)
Definition validar_contenido_json (campos_requeridos : list string) (p : Peticion)
    (f : Op Respuesta) : Op Respuesta :=
  if negb (es_json p) then responder 400 "CONTENT_TYPE_INVALIDO"
  else
    match json p with
    | [] => responder 400 "JSON_VACIO"
    | _ =>
        match filter (fun campo => String.eqb (dict_get (json p) campo "") "")
                     campos_requeridos with
        | [] => f
        | _ => responder 400 "CAMPOS_FALTANTES"
        end
    end.

(** ** Authentication routes ([routes/auth.py]) *)

(** The body of [login].  A refused password is counted and committed
    by [registrar_intento_fallido]; after an accepted one nothing is
    committed. *)
Definition login (p : Peticion) (ahora : Z) : Op Respuesta :=
  let email := normalizar_email (dict_get (json p) "email" "") in
  let password := dict_get (json p) "password" "" in
  if String.eqb email "" || String.eqb password "" then
    responder 400 "DATOS_FALTANTES"
  else fun m =>
    match usuario_bd m with
    | None => responder 401 "CREDENCIALES_INVALIDAS" m
    | Some usuario =>
        if negb (activo usuario) then responder 401 "CUENTA_DESACTIVADA" m
        else if esta_bloqueado usuario then responder 423 "CUENTA_BLOQUEADA" m
        else
          (r <- llamar (verificar_password password) usuario ;;
           if negb (fst r) then
             llamar registrar_intento_fallido (snd r) ;;;
             responder 401 "CREDENCIALES_INVALIDAS"
           else
             llamar_sin_commit (generar_tokens_jwt ahora) (snd r) ;;;
             responder 200 "Login exitoso") m
    end.

(** [POST /api/auth/login] with its decorators. *)
Definition ruta_login (p : Peticion) (ahora : Z) : Op Respuesta :=
  validar_contenido_json ["email"; "password"] p
    (limitar_frecuencia 5 900 "login" p ahora
       (registrar_auditoria "intento_login" (login p ahora))).

(** [POST /api/auth/refresh]; nothing is committed. *)
Definition refrescar_token (p : Peticion) (ahora : Z) : Op Respuesta :=
  jwt_required p (registrar_auditoria "refresh_token" (fun m =>
    match usuario_bd m with
    | None => responder 401 "USUARIO_INVALIDO" m
    | Some usuario =>
        if negb (activo usuario) then responder 401 "USUARIO_INVALIDO" m
        else (llamar_sin_commit (generar_tokens_jwt ahora) usuario ;;;
              responder 200 "access_token") m
    end)).

(** [/api/auth/otp/generar]; [clave_generada] is the key drawn by
    [GestorOTP.generar_otp_para_usuario], [None] when it failed.  The
    key is answered to the caller and nothing is committed. *)
Definition generar_otp_route (p : Peticion) (clave_generada : option string) : Op Respuesta :=
  requiere_autenticacion p (fun usuario_actual =>
    registrar_auditoria "generar_otp" (fun m =>
      match usuario_bd m with
      | None => responder 401 "USUARIO_INVALIDO" m
      | Some usuario =>
          if negb (activo usuario) then responder 401 "USUARIO_INVALIDO" m
          else
            (r <- llamar_sin_commit (configurar_otp clave_generada) usuario ;;
             match fst r with
             | None => responder 500 "ERROR_CONFIGURAR_OTP"
             | Some _ => responder 200 "OTP configurado exitosamente"
             end) m
      end)).

(** [dict.get(k)]: [None] when the key is absent. *)
Definition dict_find (d : list (string * string)) (k : string) : option string :=
  match find (fun kv => String.eqb (fst kv) k) d with
  | Some kv => Some (snd kv)
  | None => None
  end.

(** [POST /api/auth/otp/configurar-inicial]: without [codigo_validacion]
    a new key is drawn (step 1); with it the pending key is confirmed
    (step 2). *)
Definition configurar_otp_inicial (p : Peticion) (clave_generada : option string)
    (ahora : Z) : Op Respuesta :=
  jwt_required p (registrar_auditoria "configurar_otp_inicial" (fun m =>
    match usuario_bd m with
    | None => responder 401 "Usuario invalido" m
    | Some usuario =>
        if negb (activo usuario) then responder 401 "Usuario invalido" m
        else
          let codigo_validacion := dict_find (json p) "codigo_validacion" in
          if negb (verdadero codigo_validacion) then
            (r <- llamar (configurar_otp clave_generada) usuario ;;
             match fst r with
             | None => responder 500 "Error generando configuracion OTP"
             | Some _ =>
                 asignar_usuario (con_otp_habilitado (snd r) false) ;;;
                 responder 200 "configuracion_iniciada"
             end) m
          else
            match codigo_validacion with
            | None => responder 500 "Error interno del servidor" m
            | Some cod =>
                if negb (verdadero (clave_otp_base32 usuario)) then
                  responder 400 "NO_HAY_CONFIGURACION_PENDIENTE" m
                else if negb (isdigit cod) || negb (len cod =? 6) then
                  responder 400 "Codigo debe ser de 6 digitos numericos" m
                else
                  (r <- llamar (validar_otp_con_debug cod ahora) usuario ;;
                   if fst r then
                     asignar_usuario
                       (con_fecha_otp (con_otp_habilitado (snd r) true) (Some ahora)) ;;;
                     responder 200 "otp_activo"
                   else responder 400 "Codigo de validacion incorrecto") m
            end
    end)).

(** [POST /api/auth/otp/resetear]. *)
Definition resetear_configuracion_otp (p : Peticion) : Op Respuesta :=
  jwt_required p (registrar_auditoria "resetear_otp" (fun m =>
    match usuario_bd m with
    | None => responder 401 "USUARIO_INVALIDO" m
    | Some usuario =>
        if negb (activo usuario) then responder 401 "USUARIO_INVALIDO" m
        else
          (asignar_usuario
             (con_fecha_otp (con_clave_otp (con_otp_habilitado usuario false) None) None) ;;;
           responder 200 "reseteado") m
    end)).

(** [ValidadorDatos.validar_codigo_otp] ([utils/validaciones.py]): the
    code is stripped, its spaces removed, and matched against six
    decimal digits. *)
Definition es_espacio (c : ascii) : bool :=
  let n := nat_of_ascii c in
  ((9 <=? n)%nat && (n <=? 13)%nat) || ((28 <=? n)%nat && (n <=? 32)%nat)
  || (n =? 133)%nat || (n =? 160)%nat.

Fixpoint lstrip (s : string) : string :=
  match s with
  | EmptyString => EmptyString
  | String c resto => if es_espacio c then lstrip resto else s
  end.

Fixpoint rstrip (s : string) : string :=
  match s with
  | EmptyString => EmptyString
  | String c resto =>
      match rstrip resto with
      | EmptyString => if es_espacio c then EmptyString else String c EmptyString
      | r => String c r
      end
  end.

Definition strip (s : string) : string := rstrip (lstrip s).

Fixpoint sin_espacios (s : string) : string :=
  match s with
  | EmptyString => EmptyString
  | String c resto =>
      if (nat_of_ascii c =? 32)%nat then sin_espacios resto
      else String c (sin_espacios resto)
  end.

Definition validar_codigo_otp (cod : string) : bool :=
  if String.eqb cod "" then false
  else seis_digitos_ascii (sin_espacios (strip cod)).

(** [POST /api/auth/otp/validar].  [request.get_json()] raises on a
    request that is not JSON, and the [except] of the view answers
    500. *)
Definition validar_otp_route (p : Peticion) (ahora : Z) : Op Respuesta :=
  jwt_required p
    (limitar_frecuencia 10 300 "validar_otp_route" p ahora
       (registrar_auditoria "validar_otp" (fun m =>
          match usuario_bd m with
          | None => responder 401 "Usuario invalido" m
          | Some usuario =>
              if negb (activo usuario) then responder 401 "Usuario invalido" m
              else if negb (es_json p) then responder 500 "ERROR_INTERNO" m
              else
                match json p with
                | [] => responder 400 "JSON_REQUERIDO" m
                | _ =>
                    if negb (verdadero (clave_otp_base32 usuario)) then
                      responder 400 "NO_HAY_CONFIGURACION_PENDIENTE" m
                    else
                      let codigo_otp := dict_get (json p) "codigo" "" in
                      if String.eqb codigo_otp "" then
                        responder 400 "CODIGO_OTP_REQUERIDO" m
                      else if negb (validar_codigo_otp codigo_otp) then
                        responder 400 "OTP_FORMATO_INVALIDO" m
                      else if negb (String.eqb (email usuario) "") then
                        (r <- llamar (validar_otp codigo_otp ahora) usuario ;;
                         responder 200 (if fst r then "OTP valido" else "OTP invalido")) m
                      else responder 400 "USUARIO_REQUERIDO" m
                end
          end))).

(** ** Document routes ([routes/documentos.py]) *)

(** [Documento.registrar_visualizacion]. *)
Definition registrar_visualizacion (ahora : Z) (d : Documento) : Documento :=
  mkDocumento (doc_id d) (nivel_seguridad d) (propietario_id d) (estado d)
              (ruta_archivo d) (contador_descargas d)
              (contador_visualizaciones d + 1) (Some ahora).

(** [Documento.registrar_descarga]. *)
Definition registrar_descarga (ahora : Z) (d : Documento) : Documento :=
  mkDocumento (doc_id d) (nivel_seguridad d) (propietario_id d) (estado d)
              (ruta_archivo d) (contador_descargas d + 1)
              (contador_visualizaciones d) (Some ahora).

(** [Documento.obtener_ruta_completa]. *)
Definition obtener_ruta_completa (d : Documento) (en_disco : bool) : option string :=
  if verdadero (ruta_archivo d) && en_disco then ruta_archivo d else None.

(** [GET /api/documentos/<id>]. *)
Definition obtener_documento (p : Peticion) (ahora : Z) : Op Respuesta :=
  validar_acceso_documento "ver" p (fun usuario_actual documento =>
    let requiere_otp :=
      requiere_otp_para_accion "ver" (nivel_seguridad documento) (rol usuario_actual) in
    let continuar : Op Respuesta :=
      asignar_documento (registrar_visualizacion ahora documento) ;;;
      responder 200 "documento" in
    if requiere_otp then
      if negb (verdadero (x_otp_code p)) then responder 428 "OTP_REQUERIDO_VER"
      else
        match x_otp_code p with
        | None => responder 428 "OTP_REQUERIDO_VER"
        | Some codigo_otp =>
            r <- llamar (validar_otp codigo_otp ahora) usuario_actual ;;
            if negb (fst r) then responder 401 "OTP_INVALIDO"
            else continuar
        end
    else continuar).

(** [DELETE /api/documentos/<id>]. *)
Definition eliminar_documento (p : Peticion) (ahora : Z) : Op Respuesta :=
  validar_acceso_documento "eliminar" p (fun usuario_actual documento =>
    registrar_auditoria "eliminar_documento" (fun m =>
      let archivo_eliminado := verdadero (ruta_archivo documento) && archivo_en_disco m in
      ((if archivo_eliminado then asignar_archivo false else ret tt) ;;;
       asignar_documento (con_estado documento "eliminado") ;;;
       responder 200 "Documento eliminado exitosamente") m)).

(** [GET /api/documentos/<id>/descargar]. *)
Definition descargar_documento (p : Peticion) (ahora : Z) : Op Respuesta :=
  validar_acceso_documento "descargar" p (fun usuario_actual documento =>
    registrar_auditoria "descargar_documento" (fun m =>
      match obtener_ruta_completa documento (archivo_en_disco m) with
      | None => responder 404 "ARCHIVO_NO_ENCONTRADO" m
      | Some ruta =>
          (asignar_documento (registrar_descarga ahora documento) ;;;
           responder 200 "send_file") m
      end)).

(** ** The operations exposed on an account *)

(** The routes that read or write the [Usuario] row, and the two model
    methods that write its OTP or lockout columns without a route of
    their own.  No other route or method writes [clave_otp_base32] or
    [otp_habilitado]. *)
Inductive Operacion : Type :=
| OpLogin (p : Peticion) (ahora : Z)
| OpRefrescarToken (p : Peticion) (ahora : Z)
| OpGenerarOtp (p : Peticion) (clave_generada : option string)
| OpValidarOtp (p : Peticion) (ahora : Z)
| OpConfigurarOtpInicial (p : Peticion) (clave_generada : option string) (ahora : Z)
| OpResetearOtp (p : Peticion)
| OpObtenerDocumento (p : Peticion) (ahora : Z)
| OpEliminarDocumento (p : Peticion) (ahora : Z)
| OpDescargarDocumento (p : Peticion) (ahora : Z)
| OpActivarOtpConValidacion (codigo_validacion : string) (ahora : Z)
| OpDesbloquearCuenta.

Definition sobre_usuario {A : Type} (met : Metodo A) (m : Mundo) : Mundo :=
  match usuario_bd m with
  | Some u => snd (llamar met u m)
  | None => m
  end.

Definition ejecutar (op : Operacion) (m : Mundo) : Mundo :=
  match op with
  | OpLogin p ahora => snd (ruta_login p ahora m)
  | OpRefrescarToken p ahora => snd (refrescar_token p ahora m)
  | OpGenerarOtp p k => snd (generar_otp_route p k m)
  | OpValidarOtp p ahora => snd (validar_otp_route p ahora m)
  | OpConfigurarOtpInicial p k ahora => snd (configurar_otp_inicial p k ahora m)
  | OpResetearOtp p => snd (resetear_configuracion_otp p m)
  | OpObtenerDocumento p ahora => snd (obtener_documento p ahora m)
  | OpEliminarDocumento p ahora => snd (eliminar_documento p ahora m)
  | OpDescargarDocumento p ahora => snd (descargar_documento p ahora m)
  | OpActivarOtpConValidacion c ahora => sobre_usuario (activar_otp_con_validacion c ahora) m
  | OpDesbloquearCuenta => sobre_usuario desbloquear_cuenta m
  end.

Definition ejecutar_todas (ops : list Operacion) (m : Mundo) : Mundo :=
  fold_left (fun m' op => ejecutar op m') ops m.

(** The invariant of the second-factor columns: an enabled second factor
    has a key stored (and not the empty one). *)
Definition invariante_otp (u : Usuario) : bool :=
  implb (otp_habilitado u) (verdadero (clave_otp_base32 u)).

Definition invariante_mundo (m : Mundo) : bool :=
  match usuario_bd m with
  | Some u => invariante_otp u
  | None => true
  end.

(** A method keeps the invariant of the second-factor columns. *)
Definition preserva_invariante {A : Type} (met : Metodo A) : Prop :=
  forall self, invariante_otp self = true ->
               invariante_otp (snd (fst (met self))) = true.

(** A step of a request keeps the invariant on the state. *)
Definition conserva {A : Type} (c : Op A) : Prop :=
  forall m, invariante_mundo m = true -> invariante_mundo (snd (c m)) = true.

(** A step of a request that is refused and leaves the account and the
    record of calls as they were. *)
Definition rechaza_sin_efecto (c : Op Respuesta) (m : Mundo) : Prop :=
  http (fst (c m)) <> 200
  /\ usuario_bd (snd (c m)) = usuario_bd m
  /\ traza (snd (c m)) = traza m.

(** The second-factor state of an account, read off its columns. *)
Inductive EstadoOtp : Type :=
| NoConfigurado
| PendienteActivacion
| Activo.

Definition estado_otp (u : Usuario) : EstadoOtp :=
  if otp_habilitado u then Activo
  else if verdadero (clave_otp_base32 u) then PendienteActivacion
  else NoConfigurado.

(** [n] consecutive runs of the body of [login] on the same request. *)
Fixpoint intentos_de_login (n : nat) (p : Peticion) (ahora : Z) (m : Mundo) : Mundo :=
  match n with
  | O => m
  | S n' => intentos_de_login n' p ahora (snd (login p ahora m))
  end.

(** ** Document listings ([models/documento.py], [routes/documentos.py]) *)



(** The [WHERE] clause of [obtener_documentos_por_nivel_seguridad]. *)
Definition filtro_por_nivel (nivel : string) (usuario : Usuario) (d : Documento) : bool :=
  String.eqb (nivel_seguridad d) nivel
  && String.eqb (estado d) "activo"
  && (if negb (es_admin usuario) then
        if String.eqb nivel "secreto" then propietario_id d =? id usuario
        else if String.eqb nivel "confidencial" && negb (es_supervisor usuario) then
          propietario_id d =? id usuario
        else true
      else true).

(** [obtener_documentos_por_nivel_seguridad]. *)
Definition obtener_documentos_por_nivel_seguridad (nivel : string) (usuario : Usuario)
    (tabla : list Documento) : list Documento :=
  filter (filtro_por_nivel nivel usuario) tabla.

(** [NIVELES_SEGURIDAD] of [config.py]. *)
Definition NIVELES_SEGURIDAD : list string := ["publico"; "confidencial"; "secreto"].

(** [ValidadorDatos.validar_nivel_seguridad]: the verdict. *)
Definition validar_nivel_seguridad (nivel : string) : bool :=
  if String.eqb nivel "" then false
  else existsb (String.eqb nivel) NIVELES_SEGURIDAD.

(** ** Properties of the account kept along a request *)

(** [I] holds of the account the state resolves, if there is one. *)
Definition sobre_cuenta (I : Usuario -> Prop) (o : option Usuario) : Prop :=
  forall u, o = Some u -> I u.

(** A step of a request keeps the property [I] of the account. *)
Definition respeta {A : Type} (I : Usuario -> Prop) (c : Op A) : Prop :=
  forall m, sobre_cuenta I (usuario_bd m) -> sobre_cuenta I (usuario_bd (snd (c m))).

(** A method keeps the property [I] of its object. *)
Definition metodo_respeta {A : Type} (I : Usuario -> Prop) (met : Metodo A) : Prop :=
  forall self, I self -> I (snd (fst (met self))).

(** The second factor is not enabled. *)
Definition sin_habilitar (u : Usuario) : Prop := otp_habilitado u = false.

(** ** Input validators ([utils/validaciones.py]) *)

(** [re.search] of a one-character class: some character is in it. *)
Fixpoint alguno (p : ascii -> bool) (s : string) : bool :=
  match s with
  | EmptyString => false
  | String c resto => p c || alguno p resto
  end.

Definition es_minuscula (c : ascii) : bool :=
  let n := nat_of_ascii c in (97 <=? n)%nat && (n <=? 122)%nat.

Definition es_mayuscula (c : ascii) : bool :=
  let n := nat_of_ascii c in (65 <=? n)%nat && (n <=? 90)%nat.

(** The class of the last test of [validar_password], by character code:
    ! @ # $ % ^ & * ( ) , . ? double quote : { } | < > *)
Definition codigos_especiales : list nat :=
  [33; 64; 35; 36; 37; 94; 38; 42; 40; 41; 44; 46; 63; 34; 58; 123; 125; 124; 60; 62]%nat.

Definition es_especial (c : ascii) : bool :=
  existsb (Nat.eqb (nat_of_ascii c)) codigos_especiales.

Definition uno_si (b : bool) : Z := if b then 1 else 0.

Definition puntuacion_seguridad (password : string) : Z :=
  uno_si (alguno es_minuscula password)
  + uno_si (alguno es_mayuscula password)
  + uno_si (alguno es_digito_ascii password)
  + uno_si (8 <=? len password)
  + uno_si (alguno es_especial password).

(** [ValidadorDatos.validar_password]: the verdict. *)
Definition validar_password (password : string) : bool :=
  if String.eqb password "" then false
  else if len password <? 6 then false
  else if 128 <? len password then false
  else if puntuacion_seguridad password <? 2 then false
  else true.

(** A page parameter as [validar_paginacion] receives it: a falsy value
    ([None], [''], [0]), a value [int()] converts, one on which [int()]
    raises [ValueError] or [TypeError] (a text that is no number, a NaN),
    or one on which it raises [OverflowError] (a float infinity). *)
Inductive ValorPagina : Type :=
| PaginaVacia
| PaginaNumero (n : Z)
| PaginaInvalida
| PaginaDesbordada.

(** [ValidadorDatos.validar_paginacion]: the validated page and page
    size (the verdict is always [True]).  Each [try] catches
    [ValueError] and [TypeError] only: an [OverflowError] leaves the
    function, which is [None] here. *)
Definition validar_paginacion (pagina por_pagina : ValorPagina) (maximo_por_pagina : Z)
    : option (Z * Z) :=
  match pagina with
  | PaginaDesbordada => None
  | _ =>
      let pagina' :=
        match pagina with
        | PaginaNumero n => if n <? 1 then 1 else n
        | _ => 1
        end in
      match por_pagina with
      | PaginaDesbordada => None
      | PaginaInvalida => Some (pagina', 10)
      | _ =>
          let n := match por_pagina with PaginaNumero n => n | _ => 10 end in
          let n1 := if n <? 1 then 10 else n in
          Some (pagina', if maximo_por_pagina <? n1 then maximo_por_pagina else n1)
      end
  end.

Definition es_punto (c : ascii) : bool := (nat_of_ascii c =? 46)%nat.

(** The text after the last dot, [None] when there is no dot. *)
Fixpoint tras_ultimo_punto (s : string) : option string :=
  match s with
  | EmptyString => None
  | String c resto =>
      match tras_ultimo_punto resto with
      | Some e => Some e
      | None => if es_punto c then Some resto else None
      end
  end.

(** [_obtener_extension]:
    [nombre.rsplit('.', 1)[1] if '.' in nombre else '']. *)
Definition obtener_extension (nombre_archivo : string) : string :=
  match tras_ultimo_punto nombre_archivo with
  | Some e => e
  | None => ""
  end.

(** [s.replace(c, '')] for the characters of a class. *)
Fixpoint quitar (p : ascii -> bool) (s : string) : string :=
  match s with
  | EmptyString => EmptyString
  | String c resto => if p c then quitar p resto else String c (quitar p resto)
  end.

(** The characters [validar_busqueda] removes: percent, underscore and
    backslash. *)
Definition es_comodin (c : ascii) : bool :=
  let n := nat_of_ascii c in (n =? 37)%nat || (n =? 95)%nat || (n =? 92)%nat.

(** [ValidadorDatos.validar_busqueda]: the verdict and the cleaned
    term. *)
Definition validar_busqueda (termino_busqueda : string) : bool * string :=
  if String.eqb termino_busqueda "" then (true, "")
  else
    let termino_limpio := strip termino_busqueda in
    if len termino_limpio <? 2 then (false, termino_limpio)
    else if 100 <? len termino_limpio then (false, termino_limpio)
    else (true,
          quitar (fun c => (nat_of_ascii c =? 92)%nat)
            (quitar (fun c => (nat_of_ascii c =? 95)%nat)
               (quitar (fun c => (nat_of_ascii c =? 37)%nat) termino_limpio))).

(** ** In-memory cache ([utils/cache_simple.py]) *)

Fixpoint dict_buscar {V : Type} (d : list (string * V)) (k : string) : option V :=
  match d with
  | [] => None
  | (k', v) :: resto => if String.eqb k' k then Some v else dict_buscar resto k
  end.

(** [d[k] = v]: an existing key keeps its place. *)
Fixpoint dict_poner {V : Type} (d : list (string * V)) (k : string) (v : V)
    : list (string * V) :=
  match d with
  | [] => [(k, v)]
  | (k', v') :: resto =>
      if String.eqb k' k then (k, v) :: resto else (k', v') :: dict_poner resto k v
  end.

(** [del d[k]] when present. *)
Definition dict_quitar {V : Type} (d : list (string * V)) (k : string)
    : list (string * V) :=
  filter (fun kv => negb (String.eqb (fst kv) k)) d.

(** [CacheSimple]: the values and, apart, their deadlines. *)
Record CacheSimple (V : Type) := mkCache {
  store : list (string * V);
  expiration : list (string * Z)
}.
Arguments mkCache {V} _ _.
Arguments store {V} _.
Arguments expiration {V} _.

(** [CacheSimple.get] at the time [ahora]. *)
Definition cache_get {V : Type} (key : string) (ahora : Z) (c : CacheSimple V)
    : option V * CacheSimple V :=
  match dict_buscar (store c) key with
  | Some v =>
      match dict_buscar (expiration c) key with
      | Some limite =>
          if limite <? ahora then
            (None, mkCache (dict_quitar (store c) key) (dict_quitar (expiration c) key))
          else (Some v, c)
      | None => (Some v, c)
      end
  | None => (None, c)
  end.

(** [CacheSimple.set]; a [timeout] of [0] (or [None]) is falsy. *)
Definition cache_set {V : Type} (key : string) (value : V) (timeout ahora : Z)
    (c : CacheSimple V) : CacheSimple V :=
  mkCache (dict_poner (store c) key value)
          (if timeout =? 0 then expiration c
           else dict_poner (expiration c) key (ahora + timeout)).

(** [CacheSimple.delete]. *)
Definition cache_delete {V : Type} (key : string) (c : CacheSimple V) : CacheSimple V :=
  mkCache (dict_quitar (store c) key) (dict_quitar (expiration c) key).

(** [CacheSimple.keys()]. *)
Definition cache_keys {V : Type} (c : CacheSimple V) : list string :=
  map fst (store c).

(** ** Per-minute rate limiter ([utils/middleware_optimizacion.py]) *)

Fixpoint minuto_buscar (d : list (Z * Z)) (minuto : Z) (defecto : Z) : Z :=
  match d with
  | [] => defecto
  | (m', n) :: resto => if m' =? minuto then n else minuto_buscar resto minuto defecto
  end.

Fixpoint minuto_poner (d : list (Z * Z)) (minuto n : Z) : list (Z * Z) :=
  match d with
  | [] => [(minuto, n)]
  | (m', n') :: resto =>
      if m' =? minuto then (minuto, n) :: resto else (m', n') :: minuto_poner resto minuto n
  end.

(** [GestorRateLimitingSimple.verificar_limite] at the time [ahora], in
    seconds: the verdict and the store after the call. *)
Definition verificar_limite (clave : string) (limite_por_minuto ahora : Z)
    (requests_store : list (string * list (Z * Z)))
    : bool * list (string * list (Z * Z)) :=
  let minuto_actual := ahora / 60 in
  let de_clave :=
    match dict_buscar requests_store clave with
    | Some d => d
    | None => []
    end in
  let recientes := filter (fun mn => negb (fst mn <? minuto_actual - 1)) de_clave in
  let count_actual := minuto_buscar recientes minuto_actual 0 in
  if limite_por_minuto <=? count_actual then
    (false, dict_poner requests_store clave recientes)
  else
    (true, dict_poner requests_store clave
             (minuto_poner recientes minuto_actual (count_actual + 1))).

(** The count [verificar_limite] holds for a key and a minute. *)
Definition conteo (requests_store : list (string * list (Z * Z))) (clave : string)
    (minuto : Z) : Z :=
  match dict_buscar requests_store clave with
  | Some d => minuto_buscar d minuto 0
  | None => 0
  end.

(** [n] calls of [verificar_limite], one at each of the given times: the
    verdicts in order and the store at the end. *)
Fixpoint verificar_en_serie (clave : string) (limite_por_minuto : Z) (tiempos : list Z)
    (requests_store : list (string * list (Z * Z)))
    : list bool * list (string * list (Z * Z)) :=
  match tiempos with
  | [] => ([], requests_store)
  | t :: resto =>
      let '(b, s1) := verificar_limite clave limite_por_minuto t requests_store in
      let '(bs, s2) := verificar_en_serie clave limite_por_minuto resto s1 in
      (b :: bs, s2)
  end.

(** ** Role decorators ([utils/decoradores.py]) *)

(** An argument of [requiere_rol], which is variadic: a role name, or a
    list of names passed as one argument, as [routes/monitoreo.py] does. *)
Inductive ArgumentoRol : Type :=
| RolNombre (r : string)
| RolLista (l : list string).

(** [usuario_actual.rol in roles_permitidos]: a string equals no list. *)
Definition rol_en (r : string) (roles_permitidos : list ArgumentoRol) : bool :=
  existsb (fun a => match a with
                    | RolNombre s => String.eqb r s
                    | RolLista _ => false
                    end) roles_permitidos.

(** [", ".join(roles_permitidos)] is defined on strings only: on a list
    it raises [TypeError]. *)
Definition join_definido (roles_permitidos : list ArgumentoRol) : bool :=
  forallb (fun a => match a with
                    | RolNombre _ => true
                    | RolLista _ => false
                    end) roles_permitidos.

(** [@requiere_rol] with the arguments [roles_permitidos].  The body of
    the 403 answer joins the arguments; when that raises, the exception
    reaches the [except] of the [requiere_autenticacion] that wraps the
    test, which answers 401 [ERROR_AUTENTICACION]. *)
Definition requiere_rol (roles_permitidos : list ArgumentoRol) (p : Peticion)
    (f : Usuario -> Op Respuesta) : Op Respuesta :=
  requiere_autenticacion p (fun usuario_actual =>
    if negb (rol_en (rol usuario_actual) roles_permitidos) then
      if join_definido roles_permitidos then responder 403 "ROL_INSUFICIENTE"
      else responder 401 "ERROR_AUTENTICACION"
    else f usuario_actual).

(** [@requiere_admin]. *)
Definition requiere_admin (p : Peticion) (f : Usuario -> Op Respuesta) : Op Respuesta :=
  requiere_rol [RolNombre "admin"] p f.

(** [@requiere_supervisor_o_admin]. *)
Definition requiere_supervisor_o_admin (p : Peticion) (f : Usuario -> Op Respuesta)
    : Op Respuesta :=
  requiere_rol [RolNombre "supervisor"; RolNombre "admin"] p f.

(** The guard of the monitoring routes:
    [@requiere_autenticacion] over [@requiere_rol([...])], the roles
    passed as one list. *)
Definition guardia_monitoreo (roles : list string) (p : Peticion)
    (f : Usuario -> Op Respuesta) : Op Respuesta :=
  requiere_autenticacion p (fun _ => requiere_rol [RolLista roles] p f).

(** ** Requests in a row through [limitar_frecuencia] *)

(** The key [limitar_frecuencia] counts a request under. *)
Definition clave_intento (nombre : string) (p : Peticion) : string :=
  "rate_limit_" ++ nombre ++ "_" ++ ip_cliente p.

(** The same request sent once at each of the given times to a view
    behind [limitar_frecuencia]: the answers in order. *)
Fixpoint limitar_en_serie (maximo_intentos ventana_tiempo : Z) (nombre : string)
    (p : Peticion) (tiempos : list Z) (f : Op Respuesta) : Op (list Respuesta) :=
  match tiempos with
  | [] => ret []
  | t :: resto =>
      r <- limitar_frecuencia maximo_intentos ventana_tiempo nombre p t f ;;
      rs <- limitar_en_serie maximo_intentos ventana_tiempo nombre p resto f ;;
      ret (r :: rs)
  end.

(** ** Sample accounts, documents and requests *)

Definition usuario_estandar : Usuario :=
  mkUsuario 7 "usuario@test.com" (Some "hash-usuario") "usuario" true None 0 None false None.

Definition supervisor_ajeno : Usuario :=
  mkUsuario 2 "supervisor@test.com" (Some "hash-supervisor") "supervisor" true None 0
            None false None.

(** The standard account with a second factor provisioned but not yet
    confirmed, and with it confirmed. *)
Definition usuario_pendiente : Usuario :=
  con_clave_otp usuario_estandar (Some "JBSWY3DPEHPK3PXP").

Definition usuario_con_otp : Usuario :=
  con_otp_habilitado usuario_pendiente true.

Definition documento_publico : Documento :=
  mkDocumento 10 "publico" 1 "activo" (Some "uploads/publico/a.pdf") 0 0 None.

Definition documento_confidencial : Documento :=
  mkDocumento 11 "confidencial" 7 "activo" (Some "uploads/confidencial/b.pdf") 0 0 None.

(** A secret document owned by the standard account. *)
Definition documento_secreto : Documento :=
  mkDocumento 12 "secreto" 7 "activo" (Some "uploads/secreto/c.pdf") 0 0 None.

Definition mundo_de (u : Usuario) (d : Documento) : Mundo :=
  mkMundo (Some u) (Some d) true [] [].

Definition peticion_ver (cabecera_otp : option string) : Peticion :=
  mkPeticion None "GET" "documentos.obtener_documento" "/api/documentos/12" 12
             cabecera_otp false [] "10.0.0.1".

Definition peticion_eliminar (cabecera_otp : option string) : Peticion :=
  mkPeticion None "DELETE" "documentos.eliminar_documento" "/api/documentos/12" 12
             cabecera_otp false [] "10.0.0.1".

Definition peticion_descargar (cabecera_otp : option string) : Peticion :=
  mkPeticion None "GET" "documentos.descargar_documento" "/api/documentos/12/descargar" 12
             cabecera_otp false [] "10.0.0.1".

Definition peticion_login (password : string) : Peticion :=
  mkPeticion None "POST" "auth.login" "/api/auth/login" 0 None true
             [("email", "usuario@test.com"); ("password", password)] "10.0.0.1".

Definition peticion_confirmar (cod : string) : Peticion :=
  mkPeticion None "POST" "auth.configurar_otp_inicial" "/api/auth/otp/configurar-inicial" 0
             None true [("codigo_validacion", cod)] "10.0.0.1".

(** The first step of [configurar_otp_inicial]: no [codigo_validacion]. *)
Definition peticion_provisionar : Peticion :=
  mkPeticion None "POST" "auth.configurar_otp_inicial" "/api/auth/otp/configurar-inicial" 0
             None true [] "10.0.0.1".


(** The standard account after provisioning and confirming at time
    1700000000. *)
Definition usuario_activado : Usuario :=
  mkUsuario 7 "usuario@test.com" (Some "hash-usuario") "usuario" true None 0
            (Some "JBSWY3DPEHPK3PXP") true (Some 1700000000).

(** ** Permission evaluator *)

Lemma rol_con_rol (u : Usuario) (r : string) : rol (con_rol u r) = r.
Proof. reflexivity. Qed.

Lemma id_con_rol (u : Usuario) (r : string) : id (con_rol u r) = id u.
Proof. reflexivity. Qed.

Lemma privilegio_casos (r : string) (n : nat) :
  privilegio r = Some n ->
  (r = "usuario" /\ n = 0%nat) \/ (r = "supervisor" /\ n = 1%nat)
  \/ (r = "admin" /\ n = 2%nat).
Proof.
  unfold privilegio.
  destruct (String.eqb_spec r "usuario") as [-> | _]; [intros [= <-]; auto |].
  destruct (String.eqb_spec r "supervisor") as [-> | _]; [intros [= <-]; auto |].
  destruct (String.eqb_spec r "admin") as [-> | _]; [intros [= <-]; auto |].
  discriminate.
Qed.

Lemma admin_puede_todo (u : Usuario) (d : Documento) (accion : string) :
  rol u = "admin" ->
  (String.eqb accion "ver" || String.eqb accion "editar"
   || String.eqb accion "eliminar" || String.eqb accion "descargar") = true ->
  puede_realizar_accion accion u d = true.
Proof.
  intros Hr Ha.
  unfold puede_realizar_accion, puede_acceder_documento, puede_modificar_documento,
    puede_eliminar_documento, es_admin.
  rewrite Hr. simpl.
  destruct (String.eqb accion "ver"); [reflexivity |].
  destruct (String.eqb accion "editar"); [reflexivity |].
  destruct (String.eqb accion "eliminar"); [reflexivity |].
  destruct (String.eqb accion "descargar"); [reflexivity | discriminate].
Qed.

Ltac abrir_permisos :=
  unfold puede_realizar_accion, puede_acceder_documento, puede_modificar_documento,
    puede_eliminar_documento, es_admin, es_supervisor;
  rewrite ?rol_con_rol, ?id_con_rol; simpl.

(** C3, as stated, fails: a supervisor who does not own a public
    document is allowed to edit it. *)
Lemma supervisor_edita_publico_ajeno :
  rol supervisor_ajeno = "supervisor"
  /\ propietario_id documento_publico <> id supervisor_ajeno
  /\ nivel_seguridad documento_publico = "publico"
  /\ puede_realizar_accion "editar" supervisor_ajeno documento_publico = true.
Proof.
  repeat split; try reflexivity.
  simpl. discriminate.
Qed.

(** C3 (amended): for every supervisor and every public document the
    edit permission is granted, because the supervisor rule of
    [puede_modificar_documento] covers every classification other than
    [secreto]; a supervisor who is not the owner is refused edit exactly
    on secret documents. *)
Theorem supervisor_edita_no_secretos (u : Usuario) (d : Documento) :
  rol u = "supervisor" ->
  (nivel_seguridad d = "publico" -> puede_realizar_accion "editar" u d = true)
  /\ (propietario_id d <> id u ->
      puede_realizar_accion "editar" u d
      = negb (String.eqb (nivel_seguridad d) "secreto")).
Proof.
  intros Hr. split.
  - intros Hn. abrir_permisos. rewrite Hr, Hn. simpl.
    destruct (propietario_id d =? id u); reflexivity.
  - intros Hp. abrir_permisos. rewrite Hr. simpl.
    destruct (Z.eqb_spec (propietario_id d) (id u)) as [E | _]; [contradiction |].
    destruct (String.eqb (nivel_seguridad d) "secreto"); reflexivity.
Qed.

Lemma supervisor_edita_no_secretos_witness :
  (rol supervisor_ajeno = "supervisor"
   /\ nivel_seguridad documento_publico = "publico"
   /\ puede_realizar_accion "editar" supervisor_ajeno documento_publico = true)
  /\ (propietario_id documento_secreto <> id supervisor_ajeno
      /\ puede_realizar_accion "editar" supervisor_ajeno documento_secreto
         = negb (String.eqb (nivel_seguridad documento_secreto) "secreto")).
Proof.
  split.
  - split; [reflexivity |]. split; [reflexivity |].
    apply (proj1 (supervisor_edita_no_secretos supervisor_ajeno documento_publico
                    eq_refl)).
    reflexivity.
  - assert (H : propietario_id documento_secreto <> id supervisor_ajeno)
      by (simpl; discriminate).
    split; [exact H |].
    apply (proj2 (supervisor_edita_no_secretos supervisor_ajeno documento_secreto
                    eq_refl)).
    exact H.
Defined.

(** C9: the permission check is monotone in the privilege order
    usuario <= supervisor <= admin.  With the account's identity (and so
    its ownership of the document) fixed, whatever a role may do on a
    document, every role of equal or higher rank may do as well. *)
Theorem permisos_monotonos (u : Usuario) (d : Documento) (accion r1 r2 : string)
    (n1 n2 : nat) :
  privilegio r1 = Some n1 ->
  privilegio r2 = Some n2 ->
  (n1 <= n2)%nat ->
  puede_realizar_accion accion (con_rol u r1) d = true ->
  puede_realizar_accion accion (con_rol u r2) d = true.
Proof.
  intros H1 H2 Hle.
  apply privilegio_casos in H1. apply privilegio_casos in H2.
  destruct H1 as [[-> ->] | [[-> ->] | [-> ->]]];
  destruct H2 as [[-> ->] | [[-> ->] | [-> ->]]];
  try lia; try (intros H; exact H);
  abrir_permisos;
  destruct (String.eqb accion "ver"); try (intros _; reflexivity);
  try (destruct (propietario_id d =? id u);
       destruct (String.eqb (nivel_seguridad d) "publico");
       destruct (String.eqb (nivel_seguridad d) "confidencial");
       simpl; congruence);
  destruct (String.eqb accion "editar"); try (intros _; reflexivity);
  try (destruct (propietario_id d =? id u);
       destruct (String.eqb (nivel_seguridad d) "secreto");
       simpl; congruence);
  destruct (String.eqb accion "eliminar"); try (intros _; reflexivity);
  try (destruct (propietario_id d =? id u); simpl; congruence);
  destruct (String.eqb accion "descargar"); try (intros _; reflexivity);
  try (destruct (propietario_id d =? id u);
       destruct (String.eqb (nivel_seguridad d) "publico");
       destruct (String.eqb (nivel_seguridad d) "confidencial");
       simpl; congruence);
  congruence.
Qed.

Lemma permisos_monotonos_witness :
  puede_realizar_accion "descargar" (con_rol usuario_estandar "usuario") documento_publico = true
  /\ puede_realizar_accion "descargar" (con_rol usuario_estandar "supervisor") documento_publico
     = true.
Proof.
  split; [reflexivity |].
  apply (permisos_monotonos usuario_estandar documento_publico "descargar"
           "usuario" "supervisor" 0%nat 1%nat);
    [reflexivity | reflexivity | lia | reflexivity].
Defined.

(** ** OTP policy matrix *)

Lemma dict_get_cons {V : Type} (k' k : string) (v defecto : V)
    (resto : list (string * V)) :
  dict_get ((k', v) :: resto) k defecto
  = if String.eqb k' k then v else dict_get resto k defecto.
Proof. reflexivity. Qed.

Lemma matriz_secreto (accion rol_usuario : string) :
  (String.eqb accion "ver" || String.eqb accion "eliminar"
   || String.eqb accion "descargar") = true ->
  requiere_otp_para_accion accion "secreto" rol_usuario = true.
Proof.
  unfold requiere_otp_para_accion, reglas_otp.
  rewrite dict_get_cons, String.eqb_refl, !dict_get_cons.
  rewrite (String.eqb_sym "ver"), (String.eqb_sym "eliminar"),
    (String.eqb_sym "descargar").
  destruct (String.eqb accion "ver"); [reflexivity |].
  destruct (String.eqb accion "eliminar"); [reflexivity |].
  destruct (String.eqb accion "descargar"); [reflexivity | discriminate].
Qed.

Lemma matriz_eliminar_confidencial (rol_usuario : string) :
  requiere_otp_para_accion "eliminar" "confidencial" rol_usuario = true.
Proof. reflexivity. Qed.

Lemma matriz_descargar_confidencial (rol_usuario : string) :
  requiere_otp_para_accion "descargar" "confidencial" rol_usuario
  = String.eqb rol_usuario "usuario".
Proof. reflexivity. Qed.

Lemma matriz_ver_confidencial (rol_usuario : string) :
  requiere_otp_para_accion "ver" "confidencial" rol_usuario = false.
Proof. reflexivity. Qed.

(** ** Time-window verification *)

Lemma codigos_iguales_eq (l1 l2 : list Z) :
  codigos_iguales l1 l2 = true <-> l1 = l2.
Proof.
  revert l2. induction l1 as [| x r1 IH]; intros [| y r2]; cbn [codigos_iguales];
    try (split; [discriminate | discriminate]); [split; reflexivity |].
  rewrite andb_true_iff, Z.eqb_eq, IH. split.
  - intros [-> ->]. reflexivity.
  - intros [= -> ->]. split; reflexivity.
Qed.

Lemma strings_equal_refl (s : string) : strings_equal s s = true.
Proof. unfold strings_equal. apply codigos_iguales_eq. reflexivity. Qed.















(** ** OTP lifecycle: the methods of [Usuario] *)

Lemma estado_otp_activo (u : Usuario) :
  estado_otp u = Activo <-> otp_habilitado u = true.
Proof.
  unfold estado_otp. destruct (otp_habilitado u).
  - split; reflexivity.
  - destruct (verdadero (clave_otp_base32 u)); split; discriminate.
Qed.

Lemma estado_otp_pendiente (u : Usuario) :
  estado_otp u = PendienteActivacion <->
  otp_habilitado u = false /\ verdadero (clave_otp_base32 u) = true.
Proof.
  unfold estado_otp.
  destruct (otp_habilitado u), (verdadero (clave_otp_base32 u)); split;
    try discriminate; try (intros [? ?]; discriminate); auto.
Qed.

Lemma usuario_eta (u : Usuario) :
  mkUsuario (id u) (email u) (password_hash u) (rol u) (activo u)
            (fecha_ultimo_acceso u) (intentos_login_fallidos u)
            (clave_otp_base32 u) (otp_habilitado u) (fecha_ultimo_otp u) = u.
Proof. destruct u; reflexivity. Qed.

(** What [validar_otp] returns and writes, case by case. *)
Lemma validar_otp_inactivo (u : Usuario) (codigo_otp : string) (ahora : Z) :
  otp_habilitado u = false ->
  validar_otp codigo_otp ahora u = (false, u, [EvValidarOtp codigo_otp]).
Proof. intros H. unfold validar_otp. rewrite H. reflexivity. Qed.

Lemma validar_otp_activo (u : Usuario) (codigo_otp clave : string) (ahora : Z) :
  otp_habilitado u = true ->
  clave_otp_base32 u = Some clave ->
  clave <> "" ->
  validar_otp codigo_otp ahora u
  = if validar_otp_codigo codigo_otp clave ahora
    then (true, con_fecha_otp u (Some ahora),
          [EvValidarOtp codigo_otp; EvTotp codigo_otp clave])
    else (false, u, [EvValidarOtp codigo_otp; EvTotp codigo_otp clave]).
Proof.
  intros He Hk Hne. unfold validar_otp. rewrite He, Hk. simpl.
  destruct (String.eqb_spec clave "") as [E | _]; [contradiction | reflexivity].
Qed.

Lemma validar_otp_exito (u : Usuario) (codigo_otp : string) (ahora : Z) :
  fst (fst (validar_otp codigo_otp ahora u)) = true ->
  snd (fst (validar_otp codigo_otp ahora u)) = con_fecha_otp u (Some ahora).
Proof.
  unfold validar_otp.
  destruct (negb (otp_habilitado u) || negb (verdadero (clave_otp_base32 u)));
    [discriminate |].
  destruct (clave_otp_base32 u) as [clave |]; [| discriminate].
  destruct (validar_otp_codigo codigo_otp clave ahora); [reflexivity | discriminate].
Qed.

(** C10: when [validar_otp] returns [False] the [Usuario] object is left
    as it was, field for field; it returns [False] whenever the second
    factor is not active; [fecha_ultimo_otp] is the only column it ever
    writes, and only when it returns [True]; the failed-login counter is
    the same after the call, whatever the verdict. *)
Theorem validar_otp_fallido_no_modifica (u : Usuario) (codigo_otp : string) (ahora : Z) :
  (fst (fst (validar_otp codigo_otp ahora u)) = false ->
   snd (fst (validar_otp codigo_otp ahora u)) = u)
  /\ (estado_otp u <> Activo -> fst (fst (validar_otp codigo_otp ahora u)) = false)
  /\ (fst (fst (validar_otp codigo_otp ahora u)) = true ->
      snd (fst (validar_otp codigo_otp ahora u)) = con_fecha_otp u (Some ahora))
  /\ intentos_login_fallidos (snd (fst (validar_otp codigo_otp ahora u)))
     = intentos_login_fallidos u.
Proof.
  unfold validar_otp.
  destruct (otp_habilitado u) eqn:He; simpl.
  - destruct (clave_otp_base32 u) as [clave |] eqn:Hk; simpl.
    + destruct (String.eqb clave ""); simpl.
      * repeat split; auto; discriminate.
      * destruct (validar_otp_codigo codigo_otp clave ahora); simpl;
          repeat split; auto; try discriminate.
        intros H. exfalso. apply H. apply estado_otp_activo. exact He.
    + repeat split; auto; discriminate.
  - repeat split; auto; discriminate.
Qed.

(** In the pending state [activar_otp_con_validacion] refuses every code:
    it delegates to [validar_otp], which answers [False] while
    [otp_habilitado] is unset. *)
Lemma activar_otp_con_validacion_pendiente (u : Usuario) (cod : string) (ahora : Z) :
  estado_otp u = PendienteActivacion ->
  activar_otp_con_validacion cod ahora u = (false, u, [EvValidarOtp cod]).
Proof.
  intros H. apply estado_otp_pendiente in H. destruct H as [He Hk].
  unfold activar_otp_con_validacion. rewrite Hk. simpl.
  rewrite (validar_otp_inactivo u cod ahora He). reflexivity.
Qed.

(** [validar_otp_con_debug], used by the confirmation route, does reach
    the comparison in the pending state. *)
Lemma validar_otp_con_debug_pendiente (u : Usuario) (cod clave : string) (ahora : Z) :
  clave_otp_base32 u = Some clave ->
  clave <> "" ->
  validar_otp_con_debug cod ahora u
  = if validar_otp_codigo cod clave ahora
    then (true, con_fecha_otp u (Some ahora), [EvValidarOtpDebug cod; EvTotp cod clave])
    else (false, u, [EvValidarOtpDebug cod; EvTotp cod clave]).
Proof.
  intros Hk Hne. unfold validar_otp_con_debug. rewrite Hk. simpl.
  destruct (String.eqb_spec clave "") as [E | _]; [contradiction | reflexivity].
Qed.

Lemma configurar_otp_preserva (datos_otp : option string) :
  preserva_invariante (configurar_otp datos_otp).
Proof. intros self H. destruct datos_otp; simpl; auto. Qed.

Lemma validar_otp_preserva (cod : string) (ahora : Z) :
  preserva_invariante (validar_otp cod ahora).
Proof.
  intros self H. unfold validar_otp.
  destruct (negb (otp_habilitado self) || negb (verdadero (clave_otp_base32 self)));
    simpl; auto.
  destruct (clave_otp_base32 self) as [clave |] eqn:Hk; simpl; auto.
  destruct (validar_otp_codigo cod clave ahora); simpl; auto.
Qed.

Lemma validar_otp_con_debug_preserva (cod : string) (ahora : Z) :
  preserva_invariante (validar_otp_con_debug cod ahora).
Proof.
  intros self H. unfold validar_otp_con_debug.
  destruct (negb (verdadero (clave_otp_base32 self))); simpl; auto.
  destruct (clave_otp_base32 self) as [clave |] eqn:Hk; simpl; auto.
  destruct (validar_otp_codigo cod clave ahora); simpl; auto.
Qed.

Lemma validar_otp_con_debug_clave (cod : string) (ahora : Z) (self : Usuario) :
  clave_otp_base32 (snd (fst (validar_otp_con_debug cod ahora self)))
  = clave_otp_base32 self.
Proof.
  unfold validar_otp_con_debug.
  destruct (negb (verdadero (clave_otp_base32 self))); simpl; auto.
  destruct (clave_otp_base32 self) as [clave |] eqn:Hk; simpl; auto.
  destruct (validar_otp_codigo cod clave ahora); simpl; auto.
Qed.

Lemma activar_otp_con_validacion_preserva (cod : string) (ahora : Z) :
  preserva_invariante (activar_otp_con_validacion cod ahora).
Proof.
  intros self H. unfold activar_otp_con_validacion.
  destruct (verdadero (clave_otp_base32 self)) eqn:Hv; simpl; auto.
  pose proof (validar_otp_preserva cod ahora self H) as Hp.
  pose proof (validar_otp_exito self cod ahora) as Ht.
  destruct (validar_otp cod ahora self) as [[valido self1] evs]. simpl in *.
  destruct valido; simpl; auto.
  rewrite (Ht eq_refl). unfold invariante_otp. simpl. exact Hv.
Qed.

Lemma verificar_password_preserva (password_plano : string) :
  preserva_invariante (verificar_password password_plano).
Proof.
  intros self H. unfold verificar_password.
  destruct (password_hash self) as [h |]; simpl; auto.
  destruct (String.eqb password_plano "" || String.eqb h ""); simpl; auto.
Qed.

Lemma verificar_password_no_modifica (password_plano : string) (self : Usuario) :
  snd (fst (verificar_password password_plano self)) = self.
Proof.
  unfold verificar_password.
  destruct (password_hash self) as [h |]; simpl; auto.
  destruct (String.eqb password_plano "" || String.eqb h ""); simpl; auto.
Qed.

Lemma registrar_intento_fallido_preserva : preserva_invariante registrar_intento_fallido.
Proof. intros self H. exact H. Qed.

Lemma desbloquear_cuenta_preserva : preserva_invariante desbloquear_cuenta.
Proof. intros self H. exact H. Qed.

Lemma generar_tokens_jwt_preserva (ahora : Z) :
  preserva_invariante (generar_tokens_jwt ahora).
Proof. intros self H. exact H. Qed.

(** ** The invariant across the routes *)

Lemma llamar_resultado {A : Type} (met : Metodo A) (u : Usuario) (m : Mundo) :
  fst (llamar met u m) = fst (met u)
  /\ usuario_bd (snd (llamar met u m)) = Some (snd (fst (met u)))
  /\ documento_bd (snd (llamar met u m)) = documento_bd m
  /\ archivo_en_disco (snd (llamar met u m)) = archivo_en_disco m
  /\ cache_limite (snd (llamar met u m)) = cache_limite m
  /\ traza (snd (llamar met u m)) = (traza m ++ snd (met u))%list.
Proof.
  unfold llamar. destruct (met u) as [[r self'] evs]. simpl. repeat split.
Qed.

Lemma llamar_sin_commit_resultado {A : Type} (met : Metodo A) (u : Usuario) (m : Mundo) :
  fst (llamar_sin_commit met u m) = fst (met u)
  /\ usuario_bd (snd (llamar_sin_commit met u m)) = usuario_bd m
  /\ documento_bd (snd (llamar_sin_commit met u m)) = documento_bd m
  /\ archivo_en_disco (snd (llamar_sin_commit met u m)) = archivo_en_disco m
  /\ cache_limite (snd (llamar_sin_commit met u m)) = cache_limite m
  /\ traza (snd (llamar_sin_commit met u m)) = (traza m ++ snd (met u))%list.
Proof.
  unfold llamar_sin_commit. destruct (met u) as [[r self'] evs]. simpl. repeat split.
Qed.

Lemma conserva_ret {A : Type} (a : A) : conserva (ret a).
Proof. intros m H. exact H. Qed.

Lemma conserva_responder (estado_http : Z) (cod : string) :
  conserva (responder estado_http cod).
Proof. intros m H. exact H. Qed.

Lemma conserva_bind {A B : Type} (c : Op A) (k : A -> Op B) :
  conserva c -> (forall a, conserva (k a)) -> conserva (bind c k).
Proof.
  intros Hc Hk m H. unfold bind.
  specialize (Hc m H). destruct (c m) as [a m']. simpl in Hc.
  apply Hk. exact Hc.
Qed.

Lemma conserva_asignar_usuario (u : Usuario) :
  invariante_otp u = true -> conserva (asignar_usuario u).
Proof. intros Hu m _. exact Hu. Qed.

Lemma conserva_asignar_documento (d : Documento) : conserva (asignar_documento d).
Proof. intros m H. exact H. Qed.

Lemma conserva_asignar_cache (c : list (string * (Z * Z))) : conserva (asignar_cache c).
Proof. intros m H. exact H. Qed.

Lemma conserva_asignar_archivo (b : bool) : conserva (asignar_archivo b).
Proof. intros m H. exact H. Qed.

Lemma conserva_llamar {A B : Type} (met : Metodo A) (u : Usuario)
    (k : A * Usuario -> Op B) :
  preserva_invariante met ->
  invariante_otp u = true ->
  (forall r, r = fst (met u) -> invariante_otp (snd r) = true -> conserva (k r)) ->
  conserva (bind (llamar met u) k).
Proof.
  intros Hmet Hu Hk m _. unfold bind.
  destruct (llamar_resultado met u m) as [Hr [Hus _]].
  destruct (llamar met u m) as [r m'] eqn:E. simpl in *.
  apply Hk.
  - exact Hr.
  - rewrite Hr. apply Hmet. exact Hu.
  - unfold invariante_mundo. rewrite Hus. apply Hmet. exact Hu.
Qed.

Lemma conserva_llamar_sin_commit {A B : Type} (met : Metodo A) (u : Usuario)
    (k : A * Usuario -> Op B) :
  (forall r, conserva (k r)) ->
  conserva (bind (llamar_sin_commit met u) k).
Proof.
  intros Hk m Hm. unfold bind.
  destruct (llamar_sin_commit_resultado met u m) as [_ [Hus _]].
  destruct (llamar_sin_commit met u m) as [r m']. simpl in *.
  apply Hk. unfold invariante_mundo. rewrite Hus. exact Hm.
Qed.

(** A view that starts by reading the account of the request. *)
Lemma conserva_con_usuario {A : Type} (f : Mundo -> A * Mundo) :
  (forall m, usuario_bd m = None -> invariante_mundo (snd (f m)) = true) ->
  (forall m u, usuario_bd m = Some u -> invariante_otp u = true ->
               invariante_mundo (snd (f m)) = true) ->
  conserva f.
Proof.
  intros Hn Hs m H. unfold invariante_mundo in H.
  destruct (usuario_bd m) as [u |] eqn:E.
  - apply (Hs m u E H).
  - apply (Hn m E).
Qed.

Lemma conserva_jwt_required (p : Peticion) (f : Op Respuesta) :
  conserva f -> conserva (jwt_required p f).
Proof.
  intros Hf. unfold jwt_required.
  destruct (jwt_error p); [apply conserva_responder | exact Hf].
Qed.

Lemma conserva_requiere_autenticacion (p : Peticion) (f : Usuario -> Op Respuesta) :
  (forall u, invariante_otp u = true -> conserva (f u)) ->
  conserva (requiere_autenticacion p f).
Proof.
  intros Hf. unfold requiere_autenticacion.
  apply conserva_jwt_required. intros m H.
  pose proof H as Hm. unfold invariante_mundo in H.
  destruct (usuario_bd m) as [u |]; [| exact Hm].
  destruct (activo u); simpl; [| exact Hm].
  apply Hf; assumption.
Qed.

Lemma conserva_validar_acceso_documento (accion : string) (p : Peticion)
    (f : Usuario -> Documento -> Op Respuesta) :
  (forall u d, invariante_otp u = true -> conserva (f u d)) ->
  conserva (validar_acceso_documento accion p f).
Proof.
  intros Hf. unfold validar_acceso_documento.
  apply conserva_requiere_autenticacion. intros u Hu m Hm.
  destruct (documento_id p =? 0); [exact Hm |].
  destruct (documento_bd m) as [d |]; [| exact Hm].
  destruct (String.eqb (estado d) "activo"); simpl; [| exact Hm].
  destruct (puede_realizar_accion accion u d); simpl; [| exact Hm].
  apply Hf; assumption.
Qed.

Lemma conserva_limitar_frecuencia (maximo ventana : Z) (nombre : string)
    (p : Peticion) (ahora : Z) (f : Op Respuesta) :
  conserva f -> conserva (limitar_frecuencia maximo ventana nombre p ahora f).
Proof.
  intros Hf m Hm. unfold limitar_frecuencia.
  destruct (buscar_cache _ _) as [[intentos expira] |].
  - destruct (maximo <=? intentos).
    + exact Hm.
    + apply (conserva_bind _ (fun _ => f)); auto using conserva_asignar_cache.
  - apply (conserva_bind _ (fun _ => f)); auto using conserva_asignar_cache.
Qed.

Lemma conserva_validar_contenido_json (campos : list string) (p : Peticion)
    (f : Op Respuesta) :
  conserva f -> conserva (validar_contenido_json campos p f).
Proof.
  intros Hf. unfold validar_contenido_json.
  destruct (es_json p); simpl; [| apply conserva_responder].
  destruct (json p); [apply conserva_responder |].
  destruct (filter _ campos); [exact Hf | apply conserva_responder].
Qed.

Lemma conserva_login (p : Peticion) (ahora : Z) : conserva (login p ahora).
Proof.
  unfold login.
  destruct (String.eqb _ "" || String.eqb _ ""); [apply conserva_responder |].
  apply conserva_con_usuario.
  - intros m E. rewrite E. unfold invariante_mundo. simpl. rewrite E. reflexivity.
  - intros m u E Hu. rewrite E.
    assert (Hm : invariante_mundo m = true)
      by (unfold invariante_mundo; rewrite E; exact Hu).
    destruct (activo u); simpl; [| exact Hm].
    destruct (esta_bloqueado u); [exact Hm |].
    apply conserva_llamar; auto using verificar_password_preserva.
    intros r _ Hr. destruct (fst r); simpl.
    + apply (conserva_llamar_sin_commit (generar_tokens_jwt ahora)).
      intros; apply conserva_responder.
    + apply (conserva_llamar registrar_intento_fallido);
        auto using registrar_intento_fallido_preserva, conserva_responder.
Qed.

Lemma invariante_de_mundo (m : Mundo) (u : Usuario) :
  usuario_bd m = Some u -> invariante_otp u = true -> invariante_mundo m = true.
Proof. intros E H. unfold invariante_mundo. rewrite E. exact H. Qed.

Lemma invariante_sin_usuario (m : Mundo) :
  usuario_bd m = None -> invariante_mundo m = true.
Proof. intros E. unfold invariante_mundo. rewrite E. reflexivity. Qed.

Ltac rama := cbn [negb]; cbv iota.

Lemma conserva_refrescar_token (p : Peticion) (ahora : Z) :
  conserva (refrescar_token p ahora).
Proof.
  unfold refrescar_token, registrar_auditoria.
  apply conserva_jwt_required, conserva_con_usuario.
  - intros m E. rewrite E. apply invariante_sin_usuario. exact E.
  - intros m u E Hu. rewrite E.
    pose proof (invariante_de_mundo m u E Hu) as Hm.
    destruct (activo u); rama; [| exact Hm].
    apply (conserva_llamar_sin_commit (generar_tokens_jwt ahora)); [| exact Hm].
    intros; apply conserva_responder.
Qed.

Lemma conserva_generar_otp_route (p : Peticion) (k : option string) :
  conserva (generar_otp_route p k).
Proof.
  unfold generar_otp_route, registrar_auditoria.
  apply conserva_requiere_autenticacion. intros _ _.
  apply conserva_con_usuario.
  - intros m E. rewrite E. apply invariante_sin_usuario. exact E.
  - intros m u E Hu. rewrite E.
    pose proof (invariante_de_mundo m u E Hu) as Hm.
    destruct (activo u); rama; [| exact Hm].
    apply (conserva_llamar_sin_commit (configurar_otp k)); [| exact Hm].
    intros r. destruct (fst r); apply conserva_responder.
Qed.

Lemma conserva_validar_otp_route (p : Peticion) (ahora : Z) :
  conserva (validar_otp_route p ahora).
Proof.
  unfold validar_otp_route, registrar_auditoria.
  apply conserva_jwt_required, conserva_limitar_frecuencia, conserva_con_usuario.
  - intros m E. rewrite E. apply invariante_sin_usuario. exact E.
  - intros m u E Hu. rewrite E.
    pose proof (invariante_de_mundo m u E Hu) as Hm.
    destruct (activo u); rama; [| exact Hm].
    destruct (es_json p); rama; [| exact Hm].
    destruct (json p); [exact Hm |].
    destruct (verdadero (clave_otp_base32 u)); rama; [| exact Hm].
    destruct (String.eqb _ ""); [exact Hm |].
    destruct (validar_codigo_otp _); rama; [| exact Hm].
    destruct (String.eqb (email u) ""); rama; [exact Hm |].
    apply (conserva_llamar (validar_otp _ ahora));
      auto using validar_otp_preserva.
    intros r _ _. apply conserva_responder.
Qed.

Lemma conserva_configurar_otp_inicial (p : Peticion) (k : option string) (ahora : Z) :
  conserva (configurar_otp_inicial p k ahora).
Proof.
  unfold configurar_otp_inicial, registrar_auditoria.
  apply conserva_jwt_required, conserva_con_usuario.
  - intros m E. rewrite E. apply invariante_sin_usuario. exact E.
  - intros m u E Hu. rewrite E.
    pose proof (invariante_de_mundo m u E Hu) as Hm.
    destruct (activo u); rama; [| exact Hm].
    destruct (verdadero (dict_find (json p) "codigo_validacion")); rama.
    + destruct (dict_find (json p) "codigo_validacion") as [cod |]; [| exact Hm].
      destruct (verdadero (clave_otp_base32 u)) eqn:Hv; rama; [| exact Hm].
      destruct (negb (isdigit cod) || negb (len cod =? 6)); [exact Hm |].
      apply (conserva_llamar (validar_otp_con_debug cod ahora));
        auto using validar_otp_con_debug_preserva.
      intros r Er _.
      destruct (fst r); [| apply conserva_responder].
      apply conserva_bind; [| intros; apply conserva_responder].
      apply conserva_asignar_usuario.
      unfold invariante_otp. simpl.
      rewrite Er, validar_otp_con_debug_clave. exact Hv.
    + apply (conserva_llamar (configurar_otp k));
        auto using configurar_otp_preserva.
      intros r _ _. destruct (fst r); [| apply conserva_responder].
      apply conserva_bind; [| intros; apply conserva_responder].
      apply conserva_asignar_usuario. reflexivity.
Qed.

Lemma conserva_resetear_configuracion_otp (p : Peticion) :
  conserva (resetear_configuracion_otp p).
Proof.
  unfold resetear_configuracion_otp, registrar_auditoria.
  apply conserva_jwt_required, conserva_con_usuario.
  - intros m E. rewrite E. apply invariante_sin_usuario. exact E.
  - intros m u E Hu. rewrite E.
    pose proof (invariante_de_mundo m u E Hu) as Hm.
    destruct (activo u); rama; [| exact Hm].
    apply conserva_bind;
      [apply conserva_asignar_usuario; reflexivity
      | intros; apply conserva_responder
      | exact Hm].
Qed.

Lemma conserva_obtener_documento (p : Peticion) (ahora : Z) :
  conserva (obtener_documento p ahora).
Proof.
  unfold obtener_documento.
  apply conserva_validar_acceso_documento. intros u d Hu.
  assert (Hc : conserva (asignar_documento (registrar_visualizacion ahora d) ;;;
                         responder 200 "documento")).
  { apply conserva_bind; [apply conserva_asignar_documento |].
    intros; apply conserva_responder. }
  destruct (requiere_otp_para_accion "ver" (nivel_seguridad d) (rol u)); [| exact Hc].
  destruct (negb (verdadero (x_otp_code p))); [apply conserva_responder |].
  destruct (x_otp_code p) as [cod |]; [| apply conserva_responder].
  apply (conserva_llamar (validar_otp cod ahora)); auto using validar_otp_preserva.
  intros r _ _. destruct (negb (fst r)); [apply conserva_responder | exact Hc].
Qed.

Lemma conserva_eliminar_documento (p : Peticion) (ahora : Z) :
  conserva (eliminar_documento p ahora).
Proof.
  unfold eliminar_documento, registrar_auditoria.
  apply conserva_validar_acceso_documento. intros u d Hu m Hm.
  destruct (verdadero (ruta_archivo d) && archivo_en_disco m); exact Hm.
Qed.

Lemma conserva_descargar_documento (p : Peticion) (ahora : Z) :
  conserva (descargar_documento p ahora).
Proof.
  unfold descargar_documento, registrar_auditoria.
  apply conserva_validar_acceso_documento. intros u d Hu m Hm.
  destruct (obtener_ruta_completa d (archivo_en_disco m)); exact Hm.
Qed.

Lemma conserva_sobre_usuario {A : Type} (met : Metodo A) (m : Mundo) :
  preserva_invariante met ->
  invariante_mundo m = true -> invariante_mundo (sobre_usuario met m) = true.
Proof.
  intros Hmet Hm. unfold sobre_usuario.
  destruct (usuario_bd m) as [u |] eqn:E; [| exact Hm].
  destruct (llamar_resultado met u m) as [_ [Hus _]].
  unfold invariante_mundo. rewrite Hus. apply Hmet.
  unfold invariante_mundo in Hm. rewrite E in Hm. exact Hm.
Qed.

Lemma ejecutar_conserva (op : Operacion) (m : Mundo) :
  invariante_mundo m = true -> invariante_mundo (ejecutar op m) = true.
Proof.
  intros Hm. destruct op; simpl.
  - unfold ruta_login, registrar_auditoria.
    apply conserva_validar_contenido_json; [| exact Hm].
    apply conserva_limitar_frecuencia, conserva_login.
  - apply conserva_refrescar_token; exact Hm.
  - apply conserva_generar_otp_route; exact Hm.
  - apply conserva_validar_otp_route; exact Hm.
  - apply conserva_configurar_otp_inicial; exact Hm.
  - apply conserva_resetear_configuracion_otp; exact Hm.
  - apply conserva_obtener_documento; exact Hm.
  - apply conserva_eliminar_documento; exact Hm.
  - apply conserva_descargar_documento; exact Hm.
  - apply conserva_sobre_usuario; [apply activar_otp_con_validacion_preserva | exact Hm].
  - apply conserva_sobre_usuario; [apply desbloquear_cuenta_preserva | exact Hm].
Qed.

Lemma ejecutar_todas_conserva (ops : list Operacion) (m : Mundo) :
  invariante_mundo m = true -> invariante_mundo (ejecutar_todas ops m) = true.
Proof.
  revert m. induction ops as [| op ops IH]; intros m Hm; simpl.
  - exact Hm.
  - apply IH. apply ejecutar_conserva. exact Hm.
Qed.

(** C8: every exposed operation keeps the invariant of the second-factor
    columns, so from an account whose second factor is disabled (the
    column default at creation) no sequence of operations reaches a state
    with [otp_habilitado] set and no key stored; a stored key with
    [otp_habilitado] unset is the pending state and is within the
    invariant. *)
Theorem invariante_otp_en_todo_estado :
  (forall op m, invariante_mundo m = true -> invariante_mundo (ejecutar op m) = true)
  /\ (forall ops m u0 u,
        usuario_bd m = Some u0 -> otp_habilitado u0 = false ->
        usuario_bd (ejecutar_todas ops m) = Some u ->
        otp_habilitado u = true -> clave_otp_base32 u <> None)
  /\ (forall u, estado_otp u = PendienteActivacion ->
                invariante_otp u = true /\ clave_otp_base32 u <> None).
Proof.
  split; [exact ejecutar_conserva |]. split.
  - intros ops m u0 u E0 H0 E Hh.
    assert (Hm : invariante_mundo m = true).
    { apply (invariante_de_mundo m u0 E0). unfold invariante_otp. rewrite H0.
      reflexivity. }
    pose proof (ejecutar_todas_conserva ops m Hm) as Hinv.
    unfold invariante_mundo in Hinv. rewrite E in Hinv.
    unfold invariante_otp in Hinv. rewrite Hh in Hinv.
    destruct (clave_otp_base32 u); [discriminate | discriminate Hinv].
  - intros u H. apply estado_otp_pendiente in H. destruct H as [He Hv].
    split.
    + unfold invariante_otp. rewrite He. reflexivity.
    + destruct (clave_otp_base32 u); [discriminate | discriminate Hv].
Qed.

(** ** Account lockout *)

Lemma verificar_password_con_intentos (pw : string) (u : Usuario) (n : Z) :
  verificar_password pw (con_intentos u n)
  = (fst (fst (verificar_password pw u)), con_intentos u n,
     snd (verificar_password pw u)).
Proof.
  unfold verificar_password. simpl.
  destruct (password_hash u) as [h |]; [| reflexivity].
  destruct (String.eqb pw "" || String.eqb h ""); reflexivity.
Qed.

(** A locked account: the body of [login] answers without touching the
    state. *)
Lemma login_bloqueado (p : Peticion) (ahora : Z) (m : Mundo) (u : Usuario) :
  usuario_bd m = Some u ->
  esta_bloqueado u = true ->
  snd (login p ahora m) = m
  /\ (fst (login p ahora m) = mkRespuesta 400 "DATOS_FALTANTES"
      \/ fst (login p ahora m) = mkRespuesta 401 "CUENTA_DESACTIVADA"
      \/ fst (login p ahora m) = mkRespuesta 423 "CUENTA_BLOQUEADA").
Proof.
  intros E Hb. unfold login.
  destruct (String.eqb _ "" || String.eqb _ ""); [simpl; auto |].
  rewrite E. destruct (activo u); rama; [| simpl; auto].
  rewrite Hb. simpl; auto.
Qed.

Lemma login_bloqueado_rechaza (p : Peticion) (ahora : Z) (m : Mundo) (u : Usuario) :
  usuario_bd m = Some u ->
  esta_bloqueado u = true ->
  rechaza_sin_efecto (login p ahora) m.
Proof.
  intros E Hb. destruct (login_bloqueado p ahora m u E Hb) as [Hs Hr].
  unfold rechaza_sin_efecto. rewrite Hs. repeat split.
  destruct Hr as [-> | [-> | ->]]; simpl; discriminate.
Qed.

(** The rate limiter and the body check only write the limiter's cache. *)
Lemma limitar_frecuencia_rechaza (maximo ventana : Z) (nombre : string)
    (p : Peticion) (ahora : Z) (f : Op Respuesta) (m : Mundo) :
  (forall c, rechaza_sin_efecto f
               (mkMundo (usuario_bd m) (documento_bd m) (archivo_en_disco m) c (traza m))) ->
  rechaza_sin_efecto (limitar_frecuencia maximo ventana nombre p ahora f) m.
Proof.
  intros Hf. unfold rechaza_sin_efecto, limitar_frecuencia.
  destruct (buscar_cache _ _) as [[intentos expira] |].
  - destruct (maximo <=? intentos).
    + simpl. repeat split. discriminate.
    + apply Hf.
  - apply Hf.
Qed.

Lemma validar_contenido_json_rechaza (campos : list string) (p : Peticion)
    (f : Op Respuesta) (m : Mundo) :
  rechaza_sin_efecto f m ->
  rechaza_sin_efecto (validar_contenido_json campos p f) m.
Proof.
  intros Hf. unfold validar_contenido_json.
  destruct (es_json p); rama;
    [| unfold rechaza_sin_efecto; simpl; repeat split; discriminate].
  destruct (json p);
    [unfold rechaza_sin_efecto; simpl; repeat split; discriminate |].
  destruct (filter _ campos);
    [exact Hf | unfold rechaza_sin_efecto; simpl; repeat split; discriminate].
Qed.

Lemma ruta_login_bloqueado (p : Peticion) (ahora : Z) (m : Mundo) (u : Usuario) :
  usuario_bd m = Some u ->
  esta_bloqueado u = true ->
  rechaza_sin_efecto (ruta_login p ahora) m.
Proof.
  intros E Hb. unfold ruta_login, registrar_auditoria.
  apply validar_contenido_json_rechaza, limitar_frecuencia_rechaza.
  intros c. apply (login_bloqueado_rechaza p ahora _ u); [exact E | exact Hb].
Qed.

(** A refused credential on an account that is not locked: the counter
    goes up by one. *)
Lemma login_fallido (p : Peticion) (ahora : Z) (m : Mundo) (u : Usuario) :
  usuario_bd m = Some u ->
  activo u = true ->
  esta_bloqueado u = false ->
  normalizar_email (dict_get (json p) "email" "") <> "" ->
  dict_get (json p) "password" "" <> "" ->
  fst (fst (verificar_password (dict_get (json p) "password" "") u)) = false ->
  fst (login p ahora m) = mkRespuesta 401 "CREDENCIALES_INVALIDAS"
  /\ usuario_bd (snd (login p ahora m))
     = Some (con_intentos u (intentos_login_fallidos u + 1)).
Proof.
  intros E Ha Hb He Hp Hv. unfold login.
  destruct (String.eqb_spec (normalizar_email (dict_get (json p) "email" "")) "")
    as [E1 | _]; [contradiction |].
  destruct (String.eqb_spec (dict_get (json p) "password" "") "")
    as [E2 | _]; [contradiction |].
  cbn [orb]. cbv iota. rewrite E, Ha, Hb. rama.
  unfold bind.
  pose proof (llamar_resultado (verificar_password (dict_get (json p) "password" ""))
                u m) as [Hr _].
  pose proof (verificar_password_no_modifica (dict_get (json p) "password" "") u) as Hn.
  destruct (llamar (verificar_password (dict_get (json p) "password" "")) u m)
    as [a m1].
  simpl in Hr. subst a. rewrite Hv, Hn. rama.
  unfold llamar, registrar_intento_fallido. simpl. split; reflexivity.
Qed.

Lemma intentos_de_login_fallidos (p : Peticion) (ahora : Z) (n : nat) :
  forall (m : Mundo) (u : Usuario),
    usuario_bd m = Some u ->
    activo u = true ->
    intentos_login_fallidos u + Z.of_nat n <= 5 ->
    normalizar_email (dict_get (json p) "email" "") <> "" ->
    dict_get (json p) "password" "" <> "" ->
    fst (fst (verificar_password (dict_get (json p) "password" "") u)) = false ->
    usuario_bd (intentos_de_login n p ahora m)
    = Some (con_intentos u (intentos_login_fallidos u + Z.of_nat n)).
Proof.
  induction n as [| n IH]; intros m u E Ha Hn He Hp Hv.
  - simpl. rewrite Z.add_0_r, E. f_equal. symmetry. apply usuario_eta.
  - assert (Hb : esta_bloqueado u = false).
    { unfold esta_bloqueado. apply Z.leb_gt. lia. }
    destruct (login_fallido p ahora m u E Ha Hb He Hp Hv) as [_ Hu].
    cbn [intentos_de_login].
    rewrite (IH _ _ Hu); try assumption.
    + f_equal. unfold con_intentos. simpl. f_equal. lia.
    + simpl. lia.
    + rewrite verificar_password_con_intentos. exact Hv.
Qed.

(** C4: a refused credential raises the counter by one; five refused
    credentials in a row from a clean counter leave the account locked;
    and while the counter is at five or more every login request, through
    the route with its decorators as through the body alone, is refused
    with the account and the record of calls unchanged: neither
    [verificar_password] nor bcrypt is called, whatever password the
    sixth request carries. *)
Theorem bloqueo_sin_verificar_credencial :
  (forall p ahora m u,
     usuario_bd m = Some u -> esta_bloqueado u = true ->
     rechaza_sin_efecto (ruta_login p ahora) m
     /\ snd (login p ahora m) = m
     /\ http (fst (login p ahora m)) <> 200)
  /\ (forall p ahora m u,
        usuario_bd m = Some u -> activo u = true ->
        intentos_login_fallidos u = 0 ->
        normalizar_email (dict_get (json p) "email" "") <> "" ->
        dict_get (json p) "password" "" <> "" ->
        fst (fst (verificar_password (dict_get (json p) "password" "") u)) = false ->
        exists u5,
          usuario_bd (intentos_de_login 5 p ahora m) = Some u5
          /\ intentos_login_fallidos u5 = 5
          /\ esta_bloqueado u5 = true
          /\ forall p6 t6,
               snd (login p6 t6 (intentos_de_login 5 p ahora m))
               = intentos_de_login 5 p ahora m
               /\ http (fst (login p6 t6 (intentos_de_login 5 p ahora m))) <> 200).
Proof.
  split.
  - intros p ahora m u E Hb. split; [apply (ruta_login_bloqueado p ahora m u E Hb) |].
    destruct (login_bloqueado_rechaza p ahora m u E Hb) as [Hr _].
    destruct (login_bloqueado p ahora m u E Hb) as [Hs _].
    split; assumption.
  - intros p ahora m u E Ha H0 He Hp Hv.
    exists (con_intentos u 5).
    assert (Hu : usuario_bd (intentos_de_login 5 p ahora m) = Some (con_intentos u 5)).
    { rewrite (intentos_de_login_fallidos p ahora 5 m u E Ha); try assumption.
      - rewrite H0. reflexivity.
      - rewrite H0. simpl. lia. }
    split; [exact Hu |]. split; [reflexivity |]. split; [reflexivity |].
    intros p6 t6.
    destruct (login_bloqueado_rechaza p6 t6 _ _ Hu eq_refl) as [Hr _].
    destruct (login_bloqueado p6 t6 _ _ Hu eq_refl) as [Hs _].
    split; assumption.
Qed.

(** ** Second-factor enforcement on the document routes *)

(** The decorator [requiere_otp_para_documento], once the matrix asks for
    a second factor. *)
Lemma decorador_otp_no_configurado (p : Peticion) (ahora : Z) (f : Op Respuesta)
    (m : Mundo) (u : Usuario) (d : Documento) :
  usuario_bd m = Some u -> activo u = true ->
  documento_id p <> 0 ->
  documento_bd m = Some d -> estado d = "activo" ->
  requiere_otp_para_accion (accion_de_peticion p) (nivel_seguridad d) (rol u) = true ->
  otp_habilitado u = false ->
  requiere_otp_para_documento p ahora f m = (mkRespuesta 428 "OTP no configurado", m).
Proof.
  intros Eu Ha Hid Ed He Hreq Hh. unfold requiere_otp_para_documento.
  rewrite Eu, Ha, Ed, He, Hreq, Hh.
  destruct (Z.eqb_spec (documento_id p) 0) as [E | _]; [contradiction | reflexivity].
Qed.

Lemma decorador_formato_invalido (p : Peticion) (ahora : Z) (f : Op Respuesta)
    (m : Mundo) (u : Usuario) (d : Documento) (cod : string) :
  usuario_bd m = Some u -> activo u = true ->
  documento_id p <> 0 ->
  documento_bd m = Some d -> estado d = "activo" ->
  requiere_otp_para_accion (accion_de_peticion p) (nivel_seguridad d) (rol u) = true ->
  otp_habilitado u = true ->
  x_otp_code p = Some cod -> cod <> "" ->
  isdigit cod && (len cod =? 6) = false ->
  requiere_otp_para_documento p ahora f m
  = (mkRespuesta 400 "Formato de codigo OTP invalido", m).
Proof.
  intros Eu Ha Hid Ed He Hreq Hh Hx Hne Hf. unfold requiere_otp_para_documento.
  rewrite Eu, Ha, Ed, He, Hreq, Hh, Hx.
  destruct (Z.eqb_spec (documento_id p) 0) as [E | _]; [contradiction |].
  simpl. destruct (String.eqb_spec cod "") as [E | _]; [contradiction |].
  simpl.
  destruct (isdigit cod), (len cod =? 6); try discriminate; reflexivity.
Qed.

Lemma todos_digitos_ascii (s : string) :
  todos es_digito_ascii s = true -> todos isdigit_car s = true.
Proof.
  induction s as [| c s IH]; [reflexivity |].
  cbn [todos]. intros H. apply andb_true_iff in H. destruct H as [Hc Hs].
  apply andb_true_iff. split; [| exact (IH Hs)].
  unfold isdigit_car. rewrite Hc. reflexivity.
Qed.

(** Six ASCII digits pass the decorator's shape test; the test is wider
    than that, since [isdigit] also holds for the superscript digits. *)
Lemma formato_acepta_seis_digitos (cod : string) :
  seis_digitos_ascii cod = true -> isdigit cod && (len cod =? 6) = true.
Proof.
  unfold seis_digitos_ascii, isdigit. intros H.
  apply andb_true_iff in H. destruct H as [Hl Hd].
  rewrite Hl, (todos_digitos_ascii cod Hd).
  destruct cod; [discriminate Hl | reflexivity].
Qed.

Lemma formato_acepta_superindices :
  let cod := String (ascii_of_nat 178) (String (ascii_of_nat 178)
             (String (ascii_of_nat 178) (String (ascii_of_nat 178)
             (String (ascii_of_nat 178) (String (ascii_of_nat 178) EmptyString))))) in
  isdigit cod && (len cod =? 6) = true /\ seis_digitos_ascii cod = false.
Proof. split; reflexivity. Qed.

(** The delete and download routes never call the OTP code and never read
    the [X-OTP-Code] header. *)
Lemma eliminar_documento_sin_validacion (p : Peticion) (ahora : Z) (m : Mundo) :
  traza (snd (eliminar_documento p ahora m)) = traza m.
Proof.
  unfold eliminar_documento, validar_acceso_documento, requiere_autenticacion,
    jwt_required, registrar_auditoria.
  destruct (jwt_error p); [reflexivity |].
  destruct (usuario_bd m) as [u |]; [| reflexivity].
  destruct (activo u); rama; [| reflexivity].
  destruct (documento_id p =? 0); [reflexivity |].
  destruct (documento_bd m) as [d |]; [| reflexivity].
  destruct (String.eqb (estado d) "activo"); rama; [| reflexivity].
  destruct (puede_realizar_accion "eliminar" u d); rama; [| reflexivity].
  destruct (verdadero (ruta_archivo d) && archivo_en_disco m); reflexivity.
Qed.

Lemma descargar_documento_sin_validacion (p : Peticion) (ahora : Z) (m : Mundo) :
  traza (snd (descargar_documento p ahora m)) = traza m.
Proof.
  unfold descargar_documento, validar_acceso_documento, requiere_autenticacion,
    jwt_required, registrar_auditoria.
  destruct (jwt_error p); [reflexivity |].
  destruct (usuario_bd m) as [u |]; [| reflexivity].
  destruct (activo u); rama; [| reflexivity].
  destruct (documento_id p =? 0); [reflexivity |].
  destruct (documento_bd m) as [d |]; [| reflexivity].
  destruct (String.eqb (estado d) "activo"); rama; [| reflexivity].
  destruct (puede_realizar_accion "descargar" u d); rama; [| reflexivity].
  destruct (obtener_ruta_completa d (archivo_en_disco m)); reflexivity.
Qed.

Lemma eliminar_documento_procede (p : Peticion) (ahora : Z) (m : Mundo)
    (u : Usuario) (d : Documento) :
  jwt_error p = None ->
  usuario_bd m = Some u -> activo u = true ->
  documento_id p <> 0 ->
  documento_bd m = Some d -> estado d = "activo" ->
  puede_eliminar_documento u d = true ->
  fst (eliminar_documento p ahora m) = mkRespuesta 200 "Documento eliminado exitosamente"
  /\ documento_bd (snd (eliminar_documento p ahora m)) = Some (con_estado d "eliminado").
Proof.
  intros Hj Eu Ha Hid Ed He Hp.
  unfold eliminar_documento, validar_acceso_documento, requiere_autenticacion,
    jwt_required, registrar_auditoria.
  rewrite Hj, Eu, Ha, Ed, He.
  destruct (Z.eqb_spec (documento_id p) 0) as [E | _]; [contradiction |].
  unfold puede_realizar_accion. simpl. rewrite Hp. simpl.
  destruct (verdadero (ruta_archivo d) && archivo_en_disco m); split; reflexivity.
Qed.

(** The view route passes whatever the header carries to [validar_otp]:
    with an active second factor the TOTP comparison runs on it. *)
Lemma ver_no_revisa_formato (p : Peticion) (ahora : Z) (m : Mundo)
    (u : Usuario) (d : Documento) (cod clave : string) :
  jwt_error p = None ->
  usuario_bd m = Some u -> activo u = true ->
  documento_id p <> 0 ->
  documento_bd m = Some d -> estado d = "activo" ->
  puede_acceder_documento u d = true ->
  requiere_otp_para_accion "ver" (nivel_seguridad d) (rol u) = true ->
  otp_habilitado u = true -> clave_otp_base32 u = Some clave -> clave <> "" ->
  x_otp_code p = Some cod -> cod <> "" ->
  traza (snd (obtener_documento p ahora m))
  = (traza m ++ [EvValidarOtp cod; EvTotp cod clave])%list.
Proof.
  intros Hj Eu Ha Hid Ed He Hp Hreq Hh Hk Hkne Hx Hcne.
  unfold obtener_documento, validar_acceso_documento, requiere_autenticacion,
    jwt_required.
  rewrite Hj, Eu, Ha, Ed, He.
  destruct (Z.eqb_spec (documento_id p) 0) as [E | _]; [contradiction |].
  unfold puede_realizar_accion. simpl. rewrite Hp, Hreq, Hx. simpl.
  destruct (String.eqb_spec cod "") as [E | _]; [contradiction |].
  simpl. unfold bind, llamar.
  rewrite (validar_otp_activo u cod clave ahora Hh Hk Hkne).
  destruct (validar_otp_codigo cod clave ahora); reflexivity.
Qed.

(** C1: the matrix asks for a second factor to delete or download the
    secret and the restricted document below for the standard role, the
    account has none configured and the requests carry no code; the
    delete route answers 200 and marks the documents [eliminado], and the
    download route answers 200 and sends the files, with no call to the
    OTP code on record. *)
Theorem eliminar_y_descargar_sin_otp :
  requiere_otp_para_accion "eliminar" "secreto" "usuario" = true
  /\ requiere_otp_para_accion "eliminar" "confidencial" "usuario" = true
  /\ requiere_otp_para_accion "descargar" "secreto" "usuario" = true
  /\ requiere_otp_para_accion "descargar" "confidencial" "usuario" = true
  /\ estado_otp usuario_estandar = NoConfigurado
  /\ eliminar_documento (peticion_eliminar None) 1700000000
       (mundo_de usuario_estandar documento_secreto)
     = (mkRespuesta 200 "Documento eliminado exitosamente",
        mkMundo (Some usuario_estandar)
                (Some (con_estado documento_secreto "eliminado")) false [] [])
  /\ eliminar_documento (peticion_eliminar None) 1700000000
       (mundo_de usuario_estandar documento_confidencial)
     = (mkRespuesta 200 "Documento eliminado exitosamente",
        mkMundo (Some usuario_estandar)
                (Some (con_estado documento_confidencial "eliminado")) false [] [])
  /\ descargar_documento (peticion_descargar None) 1700000000
       (mundo_de usuario_estandar documento_secreto)
     = (mkRespuesta 200 "send_file",
        mkMundo (Some usuario_estandar)
                (Some (registrar_descarga 1700000000 documento_secreto)) true [] [])
  /\ descargar_documento (peticion_descargar None) 1700000000
       (mundo_de usuario_estandar documento_confidencial)
     = (mkRespuesta 200 "send_file",
        mkMundo (Some usuario_estandar)
                (Some (registrar_descarga 1700000000 documento_confidencial)) true [] []).
Proof. repeat split. Qed.

(** C2: a standard account with no second factor configured views its
    secret document.  The matrix asks for a second factor, and the view
    route answers with the code challenge [OTP_REQUERIDO_VER] when the
    header is absent and with [OTP_INVALIDO] when a code is sent; the
    answer "OTP no configurado" is given only by the decorator
    [requiere_otp_para_documento], which the route does not carry. *)
Theorem ver_secreto_sin_otp_configurado :
  requiere_otp_para_accion "ver" "secreto" "usuario" = true
  /\ estado_otp usuario_estandar = NoConfigurado
  /\ puede_realizar_accion "ver" usuario_estandar documento_secreto = true
  /\ obtener_documento (peticion_ver None) 1700000000
       (mundo_de usuario_estandar documento_secreto)
     = (mkRespuesta 428 "OTP_REQUERIDO_VER", mundo_de usuario_estandar documento_secreto)
  /\ obtener_documento (peticion_ver (Some "123456")) 1700000000
       (mundo_de usuario_estandar documento_secreto)
     = (mkRespuesta 401 "OTP_INVALIDO",
        mkMundo (Some usuario_estandar) (Some documento_secreto) true []
                [EvValidarOtp "123456"])
  /\ requiere_otp_para_documento (peticion_ver None) 1700000000
       (responder 200 "documento") (mundo_de usuario_estandar documento_secreto)
     = (mkRespuesta 428 "OTP no configurado", mundo_de usuario_estandar documento_secreto).
Proof. repeat split. Qed.

(** The confirmation step of [configurar_otp_inicial]: a well-formed code
    that matches the pending key activates the second factor. *)
Lemma configurar_otp_inicial_confirma (p : Peticion) (k : option string) (ahora : Z)
    (m : Mundo) (u : Usuario) (cod clave : string) :
  jwt_error p = None ->
  usuario_bd m = Some u -> activo u = true ->
  dict_find (json p) "codigo_validacion" = Some cod ->
  seis_digitos_ascii cod = true ->
  clave_otp_base32 u = Some clave -> clave <> "" ->
  validar_otp_codigo cod clave ahora = true ->
  fst (configurar_otp_inicial p k ahora m) = mkRespuesta 200 "otp_activo"
  /\ usuario_bd (snd (configurar_otp_inicial p k ahora m))
     = Some (con_fecha_otp (con_otp_habilitado u true) (Some ahora)).
Proof.
  intros Hj Eu Ha Hc Hf Hk Hkne Hv.
  unfold configurar_otp_inicial, jwt_required, registrar_auditoria.
  rewrite Hj, Eu, Ha, Hc, Hk.
  pose proof (formato_acepta_seis_digitos cod Hf) as Hfmt.
  apply andb_true_iff in Hfmt. destruct Hfmt as [Hd Hl].
  assert (Hcne : String.eqb cod "" = false).
  { destruct cod; [discriminate Hf | reflexivity]. }
  simpl. rewrite Hcne. simpl.
  destruct (String.eqb_spec clave "") as [E | _]; [contradiction |].
  simpl. rewrite Hd, Hl. simpl.
  unfold bind, llamar.
  rewrite (validar_otp_con_debug_pendiente u cod clave ahora Hk Hkne), Hv.
  simpl. split; reflexivity.
Qed.

(** ** More on the OTP policy matrix *)

Ltac abrir_matriz :=
  unfold requiere_otp_para_accion, reglas_otp; rewrite !dict_get_cons.

(** X1: the matrix defaults to "not required": for a level outside
    secreto, confidencial and publico, and for an action outside ver,
    eliminar and descargar (editing, for one), no role is asked for a
    second factor. *)
Theorem matriz_sin_regla_no_exige (accion nivel rol_usuario : string) :
  (nivel <> "secreto" /\ nivel <> "confidencial" /\ nivel <> "publico")
  \/ (accion <> "ver" /\ accion <> "eliminar" /\ accion <> "descargar") ->
  requiere_otp_para_accion accion nivel rol_usuario = false.
Proof.
  intros H. abrir_matriz.
  destruct H as [[H1 [H2 H3]] | [H1 [H2 H3]]].
  - destruct (String.eqb_spec "secreto" nivel) as [E | _]; [congruence |].
    destruct (String.eqb_spec "confidencial" nivel) as [E | _]; [congruence |].
    destruct (String.eqb_spec "publico" nivel) as [E | _]; [congruence |].
    reflexivity.
  - assert (Ev : String.eqb "ver" accion = false)
      by (apply String.eqb_neq; congruence).
    assert (Ee : String.eqb "eliminar" accion = false)
      by (apply String.eqb_neq; congruence).
    assert (Ed : String.eqb "descargar" accion = false)
      by (apply String.eqb_neq; congruence).
    destruct (String.eqb "secreto" nivel);
      [| destruct (String.eqb "confidencial" nivel);
         [| destruct (String.eqb "publico" nivel)]];
      cbn [dict_get]; rewrite ?Ev, ?Ee, ?Ed; reflexivity.
Qed.

Lemma matriz_forma (accion nivel rol_usuario : string) :
  requiere_otp_para_accion accion nivel rol_usuario
  = if String.eqb "secreto" nivel then
      if String.eqb "ver" accion then true
      else if String.eqb "eliminar" accion then true
      else if String.eqb "descargar" accion then true else false
    else if String.eqb "confidencial" nivel then
      if String.eqb "ver" accion then false
      else if String.eqb "eliminar" accion then true
      else if String.eqb "descargar" accion then String.eqb rol_usuario "usuario"
      else false
    else if String.eqb "publico" nivel then
      if String.eqb "ver" accion then false
      else if String.eqb "eliminar" accion then negb (String.eqb rol_usuario "admin")
      else if String.eqb "descargar" accion then false else false
    else false.
Proof.
  abrir_matriz.
  destruct (String.eqb "secreto" nivel);
    [| destruct (String.eqb "confidencial" nivel);
       [| destruct (String.eqb "publico" nivel)]];
    reflexivity.
Qed.

(** X2: the requirement only relaxes with privilege: when a role is asked
    for a second factor for an action on a level, so is every role of
    equal or lower rank. *)
Theorem matriz_decrece_con_privilegio (accion nivel r1 r2 : string) (n1 n2 : nat) :
  privilegio r1 = Some n1 ->
  privilegio r2 = Some n2 ->
  (n1 <= n2)%nat ->
  requiere_otp_para_accion accion nivel r2 = true ->
  requiere_otp_para_accion accion nivel r1 = true.
Proof.
  intros H1 H2 Hle.
  apply privilegio_casos in H1. apply privilegio_casos in H2.
  rewrite !matriz_forma.
  destruct H1 as [[-> ->] | [[-> ->] | [-> ->]]];
  destruct H2 as [[-> ->] | [[-> ->] | [-> ->]]];
  try lia; try (intros H; exact H);
  destruct (String.eqb "secreto" nivel), (String.eqb "confidencial" nivel),
    (String.eqb "publico" nivel), (String.eqb "ver" accion),
    (String.eqb "eliminar" accion), (String.eqb "descargar" accion);
  vm_compute; intros H; try exact H; try reflexivity; discriminate H.
Qed.

(** X3: the role matters in two cells of the matrix only, downloading a
    confidential document and deleting a public one; everywhere else the
    answer is the same for any two roles. *)
Theorem matriz_independiente_del_rol (accion nivel r1 r2 : string) :
  ~ (accion = "descargar" /\ nivel = "confidencial") ->
  ~ (accion = "eliminar" /\ nivel = "publico") ->
  requiere_otp_para_accion accion nivel r1 = requiere_otp_para_accion accion nivel r2.
Proof.
  intros Hd He. abrir_matriz.
  destruct (String.eqb_spec "secreto" nivel) as [Es | _]; [reflexivity |].
  destruct (String.eqb_spec "confidencial" nivel) as [Ec | _].
  - cbn [dict_get].
    destruct (String.eqb "ver" accion); [reflexivity |].
    destruct (String.eqb "eliminar" accion); [reflexivity |].
    destruct (String.eqb_spec "descargar" accion) as [Ea | _]; [| reflexivity].
    exfalso. apply Hd. split; congruence.
  - destruct (String.eqb_spec "publico" nivel) as [Ep | _]; [| reflexivity].
    cbn [dict_get].
    destruct (String.eqb "ver" accion); [reflexivity |].
    destruct (String.eqb_spec "eliminar" accion) as [Ea | _]; [| reflexivity].
    exfalso. apply He. split; congruence.
Qed.

(** ** Listings and the permission check *)

Ltac bools := cbn [andb orb negb]; cbv iota.


(** X5: for each of the three levels, the per-level listing returns
    exactly the active documents of that level that
    [puede_acceder_documento] lets the user view. *)
Theorem listado_por_nivel_coincide_con_permiso (nivel : string) (usuario : Usuario)
    (tabla : list Documento) (d : Documento) :
  validar_nivel_seguridad nivel = true ->
  (In d (obtener_documentos_por_nivel_seguridad nivel usuario tabla) <->
   In d tabla /\ nivel_seguridad d = nivel /\ estado d = "activo"
   /\ puede_acceder_documento usuario d = true).
Proof.
  clear generate_otp check_password_hash normalizar_email.
  intros Hv. unfold obtener_documentos_por_nivel_seguridad. rewrite filter_In.
  unfold filtro_por_nivel, puede_acceder_documento.
  destruct (String.eqb_spec (nivel_seguridad d) nivel) as [En | En]; bools;
    [| split; [intros [_ H]; discriminate | intros [_ [H _]]; contradiction]].
  destruct (String.eqb_spec (estado d) "activo") as [Ee | Ee]; bools;
    [| split; [intros [_ H]; discriminate | intros [_ [_ [H _]]]; contradiction]].
  rewrite En.
  assert (Hn : nivel = "publico" \/ nivel = "confidencial" \/ nivel = "secreto").
  { unfold validar_nivel_seguridad, NIVELES_SEGURIDAD in Hv.
    destruct (String.eqb nivel ""); [discriminate |]. cbn [existsb] in Hv.
    destruct (String.eqb_spec nivel "publico"); [auto |].
    destruct (String.eqb_spec nivel "confidencial"); [auto |].
    destruct (String.eqb_spec nivel "secreto"); [auto | discriminate]. }
  destruct (es_admin usuario); bools; [intuition congruence |].
  destruct Hn as [Hn | [Hn | Hn]]; rewrite Hn;
    repeat match goal with
           | |- context [String.eqb ?a ?b] =>
               match a with
               | String _ _ => match b with String _ _ =>
                   let v := eval vm_compute in (String.eqb a b) in
                   change (String.eqb a b) with v end
               end
           end; bools;
    destruct (propietario_id d =? id usuario); bools; try (intuition congruence);
    destruct (es_supervisor usuario); bools; intuition congruence.
Qed.

(** ** Acceptance of a code *)






Lemma validar_otp_verdadero (u : Usuario) (cod : string) (ahora : Z) :
  fst (fst (validar_otp cod ahora u)) = true ->
  otp_habilitado u = true
  /\ exists clave, clave_otp_base32 u = Some clave
                   /\ validar_otp_codigo cod clave ahora = true.
Proof.
  unfold validar_otp.
  destruct (otp_habilitado u); [| discriminate].
  destruct (negb true || negb (verdadero (clave_otp_base32 u))); [discriminate |].
  destruct (clave_otp_base32 u) as [clave |]; [| discriminate].
  destruct (validar_otp_codigo cod clave ahora) eqn:E; [| discriminate].
  intros _. split; [reflexivity |]. exists clave. split; [reflexivity | exact E].
Qed.

(** ** The view route *)

(** X7: the view route answers 200 only to an accepted token of an active
    account, on an active document the account may view; and when the
    matrix asks for a second factor, only if the account's second factor
    is active and the header carries a code that [validar_otp_codigo]
    accepts for the account's key at that time. *)
Theorem obtener_documento_200 (p : Peticion) (ahora : Z) (m : Mundo) :
  http (fst (obtener_documento p ahora m)) = 200 ->
  exists u d,
    jwt_error p = None
    /\ usuario_bd m = Some u /\ activo u = true
    /\ documento_bd m = Some d /\ estado d = "activo"
    /\ puede_acceder_documento u d = true
    /\ (requiere_otp_para_accion "ver" (nivel_seguridad d) (rol u) = true ->
        otp_habilitado u = true
        /\ exists cod clave,
             x_otp_code p = Some cod
             /\ clave_otp_base32 u = Some clave
             /\ validar_otp_codigo cod clave ahora = true).
Proof.
  unfold obtener_documento, validar_acceso_documento, requiere_autenticacion,
    jwt_required.
  destruct (jwt_error p) as [cod |]; [intros H; cbn in H; discriminate H |].
  destruct (usuario_bd m) as [u |]; [| intros H; cbn in H; discriminate H].
  destruct (activo u) eqn:Ha; rama; [| intros H; cbn in H; discriminate H].
  destruct (documento_id p =? 0); [intros H; cbn in H; discriminate H |].
  destruct (documento_bd m) as [d |]; [| intros H; cbn in H; discriminate H].
  destruct (String.eqb_spec (estado d) "activo") as [Ee | _]; rama;
    [| intros H; cbn in H; discriminate H].
  unfold puede_realizar_accion.
  change (String.eqb "ver" "ver") with true. cbv iota.
  destruct (puede_acceder_documento u d) eqn:Hp; rama; [| intros H; cbn in H; discriminate H].
  intros H. exists u, d. repeat (split; [reflexivity || assumption |]).
  intros Hreq. rewrite Hreq in H. revert H.
  destruct (verdadero (x_otp_code p)); rama; [| intros H; cbn in H; discriminate H].
  destruct (x_otp_code p) as [cod |]; [| intros H; cbn in H; discriminate H].
  unfold bind.
  destruct (llamar_resultado (validar_otp cod ahora) u m) as [Hr _].
  destruct (llamar (validar_otp cod ahora) u m) as [r m1]. simpl in Hr. subst r.
  destruct (fst (fst (validar_otp cod ahora u))) eqn:Hv; rama;
    [| intros H; cbn in H; discriminate H].
  intros _.
  destruct (validar_otp_verdadero u cod ahora Hv) as [He [clave [Hk Hc]]].
  split; [exact He |]. exists cod, clave. repeat split; assumption.
Qed.

(** ** Soft delete *)

Lemma eliminar_documento_exito (p : Peticion) (ahora : Z) (m : Mundo)
    (u : Usuario) (d : Documento) :
  jwt_error p = None ->
  usuario_bd m = Some u -> activo u = true ->
  documento_id p <> 0 ->
  documento_bd m = Some d -> estado d = "activo" ->
  puede_eliminar_documento u d = true ->
  usuario_bd (snd (eliminar_documento p ahora m)) = Some u
  /\ documento_bd (snd (eliminar_documento p ahora m)) = Some (con_estado d "eliminado").
Proof.
  intros Hj Eu Ha Hid Ed He Hp.
  unfold eliminar_documento, validar_acceso_documento, requiere_autenticacion,
    jwt_required, registrar_auditoria.
  rewrite Hj, Eu, Ha, Ed, He.
  destruct (Z.eqb_spec (documento_id p) 0) as [E | _]; [contradiction |].
  unfold puede_realizar_accion. simpl. rewrite Hp. simpl.
  destruct (verdadero (ruta_archivo d) && archivo_en_disco m); simpl; split;
    assumption || reflexivity.
Qed.

Lemma acceso_a_documento_no_activo (accion : string) (q : Peticion)
    (f : Usuario -> Documento -> Op Respuesta) (m : Mundo) (u : Usuario) (d : Documento) :
  jwt_error q = None ->
  usuario_bd m = Some u -> activo u = true ->
  documento_id q <> 0 ->
  documento_bd m = Some d -> estado d <> "activo" ->
  validar_acceso_documento accion q f m
  = (mkRespuesta 410 "DOCUMENTO_NO_DISPONIBLE", m).
Proof.
  intros Hj Eu Ha Hid Ed He.
  unfold validar_acceso_documento, requiere_autenticacion, jwt_required.
  rewrite Hj, Eu, Ha, Ed.
  destruct (Z.eqb_spec (documento_id q) 0) as [E | _]; [contradiction |].
  destruct (String.eqb_spec (estado d) "activo") as [E | _]; [contradiction |].
  reflexivity.
Qed.

(** X8: deletion is a soft delete that closes the document: once
    [eliminar_documento] has succeeded, viewing, downloading and deleting
    the same document again are all answered 410
    [DOCUMENTO_NO_DISPONIBLE], for the account that deleted it too, and
    change nothing. *)
Theorem documento_eliminado_no_disponible (p : Peticion) (ahora : Z) (m : Mundo)
    (u : Usuario) (d : Documento) (q : Peticion) (t : Z) :
  jwt_error p = None ->
  usuario_bd m = Some u -> activo u = true ->
  documento_id p <> 0 ->
  documento_bd m = Some d -> estado d = "activo" ->
  puede_eliminar_documento u d = true ->
  jwt_error q = None -> documento_id q <> 0 ->
  let m1 := snd (eliminar_documento p ahora m) in
  obtener_documento q t m1 = (mkRespuesta 410 "DOCUMENTO_NO_DISPONIBLE", m1)
  /\ descargar_documento q t m1 = (mkRespuesta 410 "DOCUMENTO_NO_DISPONIBLE", m1)
  /\ eliminar_documento q t m1 = (mkRespuesta 410 "DOCUMENTO_NO_DISPONIBLE", m1).
Proof.
  intros Hj Eu Ha Hid Ed He Hp Hjq Hidq m1.
  destruct (eliminar_documento_exito p ahora m u d Hj Eu Ha Hid Ed He Hp) as [Hu Hd].
  fold m1 in Hu, Hd.
  assert (Hne : estado (con_estado d "eliminado") <> "activo") by (simpl; discriminate).
  repeat split;
    apply (acceso_a_documento_no_activo _ q _ m1 u (con_estado d "eliminado"));
    assumption.
Qed.

(** ** Properties of the account along the routes *)

Section Respeta.

Variable I : Usuario -> Prop.

Lemma respeta_responder (estado_http : Z) (cod : string) :
  respeta I (responder estado_http cod).
Proof. intros m H. exact H. Qed.

Lemma respeta_ret {A : Type} (a : A) : respeta I (ret a).
Proof. intros m H. exact H. Qed.

Lemma respeta_bind {A B : Type} (c : Op A) (k : A -> Op B) :
  respeta I c -> (forall a, respeta I (k a)) -> respeta I (bind c k).
Proof.
  intros Hc Hk m H. unfold bind.
  specialize (Hc m H). destruct (c m) as [a m']. simpl in Hc.
  apply Hk. exact Hc.
Qed.

Lemma respeta_asignar_usuario (u : Usuario) : I u -> respeta I (asignar_usuario u).
Proof. intros Hu m _ u' E. simpl in E. injection E as <-. exact Hu. Qed.

Lemma respeta_asignar_documento (d : Documento) : respeta I (asignar_documento d).
Proof. intros m H. exact H. Qed.

Lemma respeta_asignar_cache (c : list (string * (Z * Z))) : respeta I (asignar_cache c).
Proof. intros m H. exact H. Qed.

Lemma respeta_asignar_archivo (b : bool) : respeta I (asignar_archivo b).
Proof. intros m H. exact H. Qed.

Lemma respeta_llamar {A B : Type} (met : Metodo A) (u : Usuario)
    (k : A * Usuario -> Op B) :
  metodo_respeta I met ->
  I u ->
  (forall r, r = fst (met u) -> I (snd r) -> respeta I (k r)) ->
  respeta I (bind (llamar met u) k).
Proof.
  intros Hmet Hu Hk m _. unfold bind.
  destruct (llamar_resultado met u m) as [Hr [Hus _]].
  destruct (llamar met u m) as [r m'] eqn:E. simpl in *.
  apply Hk.
  - exact Hr.
  - rewrite Hr. apply Hmet. exact Hu.
  - intros u' E'. rewrite Hus in E'. injection E' as <-. apply Hmet. exact Hu.
Qed.

Lemma respeta_llamar_sin_commit {A B : Type} (met : Metodo A) (u : Usuario)
    (k : A * Usuario -> Op B) :
  (forall r, respeta I (k r)) ->
  respeta I (bind (llamar_sin_commit met u) k).
Proof.
  intros Hk m Hm. unfold bind.
  destruct (llamar_sin_commit_resultado met u m) as [_ [Hus _]].
  destruct (llamar_sin_commit met u m) as [r m']. simpl in *.
  apply Hk. rewrite Hus. exact Hm.
Qed.

Lemma respeta_con_usuario {A : Type} (f : Mundo -> A * Mundo) :
  (forall m, usuario_bd m = None -> sobre_cuenta I (usuario_bd (snd (f m)))) ->
  (forall m u, usuario_bd m = Some u -> I u ->
               sobre_cuenta I (usuario_bd (snd (f m)))) ->
  respeta I f.
Proof.
  intros Hn Hs m H.
  destruct (usuario_bd m) as [u |] eqn:E.
  - apply (Hs m u E). apply H. reflexivity.
  - apply (Hn m E).
Qed.

Lemma respeta_jwt_required (p : Peticion) (f : Op Respuesta) :
  respeta I f -> respeta I (jwt_required p f).
Proof.
  intros Hf. unfold jwt_required.
  destruct (jwt_error p); [apply respeta_responder | exact Hf].
Qed.

Lemma respeta_requiere_autenticacion (p : Peticion) (f : Usuario -> Op Respuesta) :
  (forall u, I u -> respeta I (f u)) ->
  respeta I (requiere_autenticacion p f).
Proof.
  intros Hf. unfold requiere_autenticacion.
  apply respeta_jwt_required. intros m H.
  destruct (usuario_bd m) as [u |] eqn:E; [| simpl; rewrite E; exact H].
  destruct (activo u); rama; [| simpl; rewrite E; exact H].
  apply Hf; [apply H; reflexivity | rewrite E; exact H].
Qed.

Lemma respeta_validar_acceso_documento (accion : string) (p : Peticion)
    (f : Usuario -> Documento -> Op Respuesta) :
  (forall u d, I u -> respeta I (f u d)) ->
  respeta I (validar_acceso_documento accion p f).
Proof.
  intros Hf. unfold validar_acceso_documento.
  apply respeta_requiere_autenticacion. intros u Hu m Hm.
  destruct (documento_id p =? 0); [exact Hm |].
  destruct (documento_bd m) as [d |]; [| exact Hm].
  destruct (String.eqb (estado d) "activo"); rama; [| exact Hm].
  destruct (puede_realizar_accion accion u d); rama; [| exact Hm].
  apply Hf; assumption.
Qed.

Lemma respeta_limitar_frecuencia (maximo ventana : Z) (nombre : string)
    (p : Peticion) (ahora : Z) (f : Op Respuesta) :
  respeta I f -> respeta I (limitar_frecuencia maximo ventana nombre p ahora f).
Proof.
  intros Hf m Hm. unfold limitar_frecuencia.
  destruct (buscar_cache _ _) as [[intentos expira] |].
  - destruct (maximo <=? intentos).
    + exact Hm.
    + apply (respeta_bind _ (fun _ => f)); auto using respeta_asignar_cache.
  - apply (respeta_bind _ (fun _ => f)); auto using respeta_asignar_cache.
Qed.

Lemma respeta_validar_contenido_json (campos : list string) (p : Peticion)
    (f : Op Respuesta) :
  respeta I f -> respeta I (validar_contenido_json campos p f).
Proof.
  intros Hf. unfold validar_contenido_json.
  destruct (es_json p); rama; [| apply respeta_responder].
  destruct (json p); [apply respeta_responder |].
  destruct (filter _ campos); [exact Hf | apply respeta_responder].
Qed.

Lemma respeta_sobre_usuario {A : Type} (met : Metodo A) (m : Mundo) :
  metodo_respeta I met ->
  sobre_cuenta I (usuario_bd m) -> sobre_cuenta I (usuario_bd (sobre_usuario met m)).
Proof.
  intros Hmet Hm. unfold sobre_usuario.
  destruct (usuario_bd m) as [u |] eqn:E; [| rewrite E; exact Hm].
  destruct (llamar_resultado met u m) as [_ [Hus _]].
  intros u' E'. rewrite Hus in E'. injection E' as <-.
  apply Hmet. apply Hm. reflexivity.
Qed.

End Respeta.

(** ** What can enable the second factor *)

Lemma no_habilita_verificar_password (pw : string) :
  metodo_respeta sin_habilitar (verificar_password pw).
Proof. intros self H. rewrite verificar_password_no_modifica. exact H. Qed.

Lemma no_habilita_registrar_intento_fallido :
  metodo_respeta sin_habilitar registrar_intento_fallido.
Proof. intros self H. exact H. Qed.

Lemma no_habilita_generar_tokens_jwt (ahora : Z) :
  metodo_respeta sin_habilitar (generar_tokens_jwt ahora).
Proof. intros self H. exact H. Qed.

Lemma no_habilita_desbloquear_cuenta : metodo_respeta sin_habilitar desbloquear_cuenta.
Proof. intros self H. exact H. Qed.

Lemma no_habilita_configurar_otp (k : option string) :
  metodo_respeta sin_habilitar (configurar_otp k).
Proof. intros self H. destruct k; [reflexivity | exact H]. Qed.

Lemma no_habilita_validar_otp (cod : string) (ahora : Z) :
  metodo_respeta sin_habilitar (validar_otp cod ahora).
Proof.
  intros self H. unfold sin_habilitar in *.
  rewrite (validar_otp_inactivo self cod ahora H). exact H.
Qed.

Lemma no_habilita_activar_otp_con_validacion (cod : string) (ahora : Z) :
  metodo_respeta sin_habilitar (activar_otp_con_validacion cod ahora).
Proof.
  intros self H. unfold sin_habilitar in *. unfold activar_otp_con_validacion.
  destruct (negb (verdadero (clave_otp_base32 self))); [exact H |].
  rewrite (validar_otp_inactivo self cod ahora H). exact H.
Qed.

Lemma no_habilita_login (p : Peticion) (ahora : Z) :
  respeta sin_habilitar (login p ahora).
Proof.
  unfold login.
  destruct (String.eqb _ "" || String.eqb _ ""); [apply respeta_responder |].
  apply respeta_con_usuario.
  - intros m E. rewrite E. simpl. rewrite E. discriminate.
  - intros m u E Hu. rewrite E.
    assert (Hm : sobre_cuenta sin_habilitar (usuario_bd m))
      by (intros u0 E0; rewrite E in E0; injection E0 as <-; exact Hu).
    destruct (activo u); rama; [| exact Hm].
    destruct (esta_bloqueado u); [exact Hm |].
    apply (respeta_llamar sin_habilitar (verificar_password _));
      auto using no_habilita_verificar_password.
    intros r _ Hr. destruct (fst r); rama.
    + apply (respeta_llamar_sin_commit sin_habilitar (generar_tokens_jwt ahora)).
      intros; apply respeta_responder.
    + apply (respeta_llamar sin_habilitar registrar_intento_fallido);
        auto using no_habilita_registrar_intento_fallido, respeta_responder.
Qed.

Ltac cuenta_de E Hu :=
  let u0 := fresh "u0" in let E0 := fresh "E0" in
  intros u0 E0; rewrite E in E0; injection E0 as <-; exact Hu.

Lemma no_habilita_refrescar_token (p : Peticion) (ahora : Z) :
  respeta sin_habilitar (refrescar_token p ahora).
Proof.
  unfold refrescar_token, registrar_auditoria.
  apply respeta_jwt_required, respeta_con_usuario.
  - intros m E. rewrite E. simpl. rewrite E. discriminate.
  - intros m u E Hu. rewrite E.
    assert (Hm : sobre_cuenta sin_habilitar (usuario_bd m)) by cuenta_de E Hu.
    destruct (activo u); rama; [| exact Hm].
    apply (respeta_llamar_sin_commit sin_habilitar (generar_tokens_jwt ahora));
      [| exact Hm].
    intros; apply respeta_responder.
Qed.

Lemma no_habilita_generar_otp_route (p : Peticion) (k : option string) :
  respeta sin_habilitar (generar_otp_route p k).
Proof.
  unfold generar_otp_route, registrar_auditoria.
  apply respeta_requiere_autenticacion. intros _ _.
  apply respeta_con_usuario.
  - intros m E. rewrite E. simpl. rewrite E. discriminate.
  - intros m u E Hu. rewrite E.
    assert (Hm : sobre_cuenta sin_habilitar (usuario_bd m)) by cuenta_de E Hu.
    destruct (activo u); rama; [| exact Hm].
    apply (respeta_llamar_sin_commit sin_habilitar (configurar_otp k)); [| exact Hm].
    intros r. destruct (fst r); apply respeta_responder.
Qed.

Lemma no_habilita_validar_otp_route (p : Peticion) (ahora : Z) :
  respeta sin_habilitar (validar_otp_route p ahora).
Proof.
  unfold validar_otp_route, registrar_auditoria.
  apply respeta_jwt_required, respeta_limitar_frecuencia, respeta_con_usuario.
  - intros m E. rewrite E. simpl. rewrite E. discriminate.
  - intros m u E Hu. rewrite E.
    assert (Hm : sobre_cuenta sin_habilitar (usuario_bd m)) by cuenta_de E Hu.
    destruct (activo u); rama; [| exact Hm].
    destruct (es_json p); rama; [| exact Hm].
    destruct (json p); [exact Hm |].
    destruct (verdadero (clave_otp_base32 u)); rama; [| exact Hm].
    destruct (String.eqb _ ""); [exact Hm |].
    destruct (validar_codigo_otp _); rama; [| exact Hm].
    destruct (String.eqb (email u) ""); rama; [exact Hm |].
    apply (respeta_llamar sin_habilitar (validar_otp _ ahora));
      auto using no_habilita_validar_otp.
    intros r _ _. apply respeta_responder.
Qed.

Lemma no_habilita_resetear_configuracion_otp (p : Peticion) :
  respeta sin_habilitar (resetear_configuracion_otp p).
Proof.
  unfold resetear_configuracion_otp, registrar_auditoria.
  apply respeta_jwt_required, respeta_con_usuario.
  - intros m E. rewrite E. simpl. rewrite E. discriminate.
  - intros m u E Hu. rewrite E.
    assert (Hm : sobre_cuenta sin_habilitar (usuario_bd m)) by cuenta_de E Hu.
    destruct (activo u); rama; [| exact Hm].
    apply respeta_bind;
      [apply respeta_asignar_usuario; reflexivity
      | intros; apply respeta_responder
      | exact Hm].
Qed.

Lemma no_habilita_obtener_documento (p : Peticion) (ahora : Z) :
  respeta sin_habilitar (obtener_documento p ahora).
Proof.
  unfold obtener_documento.
  apply respeta_validar_acceso_documento. intros u d Hu.
  assert (Hc : respeta sin_habilitar
                 (asignar_documento (registrar_visualizacion ahora d) ;;;
                  responder 200 "documento")).
  { apply respeta_bind; [apply respeta_asignar_documento |].
    intros; apply respeta_responder. }
  destruct (requiere_otp_para_accion "ver" (nivel_seguridad d) (rol u)); [| exact Hc].
  destruct (negb (verdadero (x_otp_code p))); [apply respeta_responder |].
  destruct (x_otp_code p) as [cod |]; [| apply respeta_responder].
  apply (respeta_llamar sin_habilitar (validar_otp cod ahora));
    auto using no_habilita_validar_otp.
  intros r _ _. destruct (negb (fst r)); [apply respeta_responder | exact Hc].
Qed.

Lemma no_habilita_eliminar_documento (p : Peticion) (ahora : Z) :
  respeta sin_habilitar (eliminar_documento p ahora).
Proof.
  unfold eliminar_documento, registrar_auditoria.
  apply respeta_validar_acceso_documento. intros u d Hu m Hm.
  destruct (verdadero (ruta_archivo d) && archivo_en_disco m); exact Hm.
Qed.

Lemma no_habilita_descargar_documento (p : Peticion) (ahora : Z) :
  respeta sin_habilitar (descargar_documento p ahora).
Proof.
  unfold descargar_documento, registrar_auditoria.
  apply respeta_validar_acceso_documento. intros u d Hu m Hm.
  destruct (obtener_ruta_completa d (archivo_en_disco m)); exact Hm.
Qed.

(** What the confirmation step needs in order to enable the second
    factor. *)
Lemma configurar_otp_inicial_habilita (p : Peticion) (k : option string) (ahora : Z)
    (m : Mundo) (u u' : Usuario) :
  usuario_bd m = Some u -> otp_habilitado u = false ->
  usuario_bd (snd (configurar_otp_inicial p k ahora m)) = Some u' ->
  otp_habilitado u' = true ->
  exists cod clave,
    dict_find (json p) "codigo_validacion" = Some cod
    /\ isdigit cod && (len cod =? 6) = true
    /\ clave_otp_base32 u = Some clave
    /\ validar_otp_codigo cod clave ahora = true.
Proof.
  intros Eu Hd.
  unfold configurar_otp_inicial, jwt_required, registrar_auditoria.
  destruct (jwt_error p);
    [simpl; rewrite Eu; intros [= <-] H; congruence |].
  rewrite Eu.
  destruct (activo u); rama;
    [| simpl; rewrite Eu; intros [= <-] H; congruence].
  destruct (verdadero (dict_find (json p) "codigo_validacion")); rama.
  - destruct (dict_find (json p) "codigo_validacion") as [cod |];
      [| simpl; rewrite Eu; intros [= <-] H; congruence].
    destruct (verdadero (clave_otp_base32 u)) eqn:Hv; rama;
      [| simpl; rewrite Eu; intros [= <-] H; congruence].
    destruct (isdigit cod && (len cod =? 6)) eqn:Hf.
    + apply andb_true_iff in Hf. destruct Hf as [Hf1 Hf2]. rewrite Hf1, Hf2. rama.
      destruct (clave_otp_base32 u) as [clave |] eqn:Hk; [| discriminate Hv].
      assert (Hkne : clave <> "").
      { intros ->. discriminate Hv. }
      unfold bind, llamar.
      rewrite (validar_otp_con_debug_pendiente u cod clave ahora Hk Hkne).
      destruct (validar_otp_codigo cod clave ahora) eqn:Hc.
      * intros _ _. exists cod, clave. rewrite Hf1, Hf2.
        repeat split; reflexivity || assumption.
      * simpl. intros [= <-] H. congruence.
    + assert (Hn : negb (isdigit cod) || negb (len cod =? 6) = true).
      { destruct (isdigit cod), (len cod =? 6); try discriminate; reflexivity. }
      rewrite Hn. simpl. rewrite Eu. intros [= <-] H. congruence.
  - unfold bind, llamar. destruct k as [clave |]; simpl.
    + intros [= <-] H. discriminate H.
    + intros [= <-] H. congruence.
Qed.

(** X9: from an account whose second factor is not enabled, the only
    operation that can enable it is the confirmation step of
    [configurar_otp_inicial], and only with a [codigo_validacion] of six
    digit characters that [validar_otp_codigo] accepts for the key stored
    on the account; no other route or method sets [otp_habilitado]. *)
Theorem habilitar_exige_confirmacion (op : Operacion) (m : Mundo) (u u' : Usuario) :
  usuario_bd m = Some u -> otp_habilitado u = false ->
  usuario_bd (ejecutar op m) = Some u' ->
  otp_habilitado u' = true ->
  exists p k ahora cod clave,
    op = OpConfigurarOtpInicial p k ahora
    /\ dict_find (json p) "codigo_validacion" = Some cod
    /\ isdigit cod && (len cod =? 6) = true
    /\ clave_otp_base32 u = Some clave
    /\ validar_otp_codigo cod clave ahora = true.
Proof.
  intros Eu Hd Eu' Hh.
  assert (Hm : sobre_cuenta sin_habilitar (usuario_bd m)).
  { intros u0 E0. rewrite Eu in E0. injection E0 as <-. exact Hd. }
  assert (Habs : sobre_cuenta sin_habilitar (usuario_bd (ejecutar op m)) -> False).
  { intros H. specialize (H u' Eu'). unfold sin_habilitar in H. congruence. }
  destruct op as [p t | p t | p k | p t | p k t | p | p t | p t | p t | c t |];
    cbn [ejecutar] in *.
  - exfalso. apply Habs. unfold ruta_login, registrar_auditoria.
    apply respeta_validar_contenido_json; [| exact Hm].
    apply respeta_limitar_frecuencia, no_habilita_login.
  - exfalso. apply Habs. apply no_habilita_refrescar_token; exact Hm.
  - exfalso. apply Habs. apply no_habilita_generar_otp_route; exact Hm.
  - exfalso. apply Habs. apply no_habilita_validar_otp_route; exact Hm.
  - destruct (configurar_otp_inicial_habilita p k t m u u' Eu Hd Eu' Hh)
      as [cod [clave [H1 [H2 [H3 H4]]]]].
    exists p, k, t, cod, clave. repeat split; assumption.
  - exfalso. apply Habs. apply no_habilita_resetear_configuracion_otp; exact Hm.
  - exfalso. apply Habs. apply no_habilita_obtener_documento; exact Hm.
  - exfalso. apply Habs. apply no_habilita_eliminar_documento; exact Hm.
  - exfalso. apply Habs. apply no_habilita_descargar_documento; exact Hm.
  - exfalso. apply Habs. apply respeta_sobre_usuario;
      [apply no_habilita_activar_otp_con_validacion | exact Hm].
  - exfalso. apply Habs. apply respeta_sobre_usuario;
      [apply no_habilita_desbloquear_cuenta | exact Hm].
Qed.

(** ** The failed-login counter *)

Lemma login_contador_acotado (p : Peticion) (ahora : Z) :
  respeta (fun u => intentos_login_fallidos u <= 5) (login p ahora).
Proof.
  unfold login.
  destruct (String.eqb _ "" || String.eqb _ ""); [apply respeta_responder |].
  apply respeta_con_usuario.
  - intros m E. rewrite E. simpl. rewrite E. discriminate.
  - intros m u E Hu. rewrite E.
    assert (Hm : sobre_cuenta (fun u => intentos_login_fallidos u <= 5) (usuario_bd m))
      by cuenta_de E Hu.
    destruct (activo u); rama; [| exact Hm].
    destruct (esta_bloqueado u) eqn:Hb; [exact Hm |].
    unfold esta_bloqueado in Hb. apply Z.leb_gt in Hb.
    unfold bind.
    destruct (llamar_resultado (verificar_password (dict_get (json p) "password" ""))
                u m) as [Hr [Hus _]].
    pose proof (verificar_password_no_modifica (dict_get (json p) "password" "") u)
      as Hn.
    destruct (llamar (verificar_password (dict_get (json p) "password" "")) u m)
      as [r m1].
    simpl in Hr, Hus. subst r. rewrite Hn in *.
    destruct (fst (fst (verificar_password (dict_get (json p) "password" "") u)));
      rama.
    + unfold llamar_sin_commit. simpl. rewrite Hus. intros u' [= <-]. exact Hu.
    + unfold llamar. simpl. intros u' [= <-]. simpl. lia.
Qed.

(** X10: the failed-login counter never goes past five through the login
    route: a locked account is refused before the counter is touched, so
    however many login requests follow one another, an account that
    starts at five or fewer failures stays at five or fewer. *)
Theorem contador_de_fallos_acotado (ps : list (Peticion * Z)) (m : Mundo) :
  sobre_cuenta (fun u => intentos_login_fallidos u <= 5) (usuario_bd m) ->
  sobre_cuenta (fun u => intentos_login_fallidos u <= 5)
    (usuario_bd (ejecutar_todas (map (fun pt => OpLogin (fst pt) (snd pt)) ps) m)).
Proof.
  revert m. induction ps as [| [p t] ps IH]; intros m Hm; [exact Hm |].
  cbn [map ejecutar_todas fold_left fst snd]. apply IH.
  cbn [ejecutar]. unfold ruta_login, registrar_auditoria.
  apply respeta_validar_contenido_json; [| exact Hm].
  apply respeta_limitar_frecuencia, login_contador_acotado.
Qed.

(** ** Provisioning again, and resetting *)





(** ** Validators *)

Lemma todos_alguno_falso (p q : ascii -> bool) (s : string) :
  (forall c, p c = true -> q c = false) ->
  todos p s = true -> alguno q s = false.
Proof.
  intros Hpq. induction s as [| c s IH]; [reflexivity |].
  cbn [todos alguno]. intros H. apply andb_true_iff in H. destruct H as [Hc Hs].
  rewrite (Hpq c Hc), (IH Hs). reflexivity.
Qed.

Lemma todos_alguno (p : ascii -> bool) (s : string) :
  s <> "" -> todos p s = true -> alguno p s = true.
Proof.
  destruct s as [| c s]; [contradiction |].
  cbn [todos alguno]. intros _ H. apply andb_true_iff in H. destruct H as [Hc _].
  rewrite Hc. reflexivity.
Qed.

Lemma minuscula_no_es_otra (c : ascii) :
  es_minuscula c = true ->
  es_mayuscula c = false /\ es_digito_ascii c = false /\ es_especial c = false.
Proof.
  unfold es_minuscula, es_mayuscula, es_digito_ascii, es_especial, codigos_especiales.
  cbv zeta. intros H. apply andb_true_iff in H. destruct H as [H1 H2].
  apply Nat.leb_le in H1. apply Nat.leb_le in H2.
  repeat split.
  - apply andb_false_iff. right. apply Nat.leb_gt. lia.
  - apply andb_false_iff. right. apply Nat.leb_gt. lia.
  - cbn [existsb].
    repeat match goal with
           | |- context [Nat.eqb ?a ?b] =>
               destruct (Nat.eqb_spec a b); [lia |]
           end.
    reflexivity.
Qed.

Lemma uno_si_cotas (b : bool) : 0 <= uno_si b <= 1.
Proof. destruct b; simpl; lia. Qed.

Lemma len_no_negativa (s : string) : 0 <= len s.
Proof. unfold len. lia. Qed.

(** X13: [validar_password] accepts only passwords of 6 to 128
    characters; within 8 to 128 characters one lower-case letter, one
    upper-case letter, one digit or one of the listed symbols is enough,
    so eight lower-case letters without any digit pass; a password of 6
    or 7 lower-case letters is refused. *)
Theorem validar_password_bordes (password : string) :
  (validar_password password = true -> 6 <= len password <= 128)
  /\ (8 <= len password <= 128 ->
      alguno es_minuscula password || alguno es_mayuscula password
      || alguno es_digito_ascii password || alguno es_especial password = true ->
      validar_password password = true)
  /\ (6 <= len password <= 7 -> todos es_minuscula password = true ->
      validar_password password = false).
Proof.
  unfold validar_password. split; [| split].
  - destruct (String.eqb password ""); [discriminate |].
    destruct (Z.ltb_spec (len password) 6); [discriminate |].
    destruct (Z.ltb_spec 128 (len password)); [discriminate | lia].
  - intros [Hl Hu] Hc.
    destruct (String.eqb_spec password "") as [-> | _];
      [unfold len in Hl; simpl in Hl; lia |].
    destruct (Z.ltb_spec (len password) 6); [lia |].
    destruct (Z.ltb_spec 128 (len password)); [lia |].
    unfold puntuacion_seguridad.
    destruct (Z.leb_spec 8 (len password)); [| lia].
    pose proof (uno_si_cotas (alguno es_minuscula password)).
    pose proof (uno_si_cotas (alguno es_mayuscula password)).
    pose proof (uno_si_cotas (alguno es_digito_ascii password)).
    pose proof (uno_si_cotas (alguno es_especial password)).
    assert (Hs : 1 <= uno_si (alguno es_minuscula password)
                      + uno_si (alguno es_mayuscula password)
                      + uno_si (alguno es_digito_ascii password)
                      + uno_si (alguno es_especial password)).
    { destruct (alguno es_minuscula password), (alguno es_mayuscula password),
        (alguno es_digito_ascii password), (alguno es_especial password);
        simpl in *; try lia; discriminate. }
    change (uno_si true) with 1.
    match goal with |- (if ?x <? 2 then _ else _) = _ =>
      destruct (Z.ltb_spec x 2); [lia | reflexivity] end.
  - intros [Hl Hu] Ht.
    destruct (String.eqb_spec password "") as [-> | Hne]; [reflexivity |].
    destruct (Z.ltb_spec (len password) 6); [reflexivity |].
    destruct (Z.ltb_spec 128 (len password)); [reflexivity |].
    unfold puntuacion_seguridad.
    rewrite (todos_alguno es_minuscula password Hne Ht).
    rewrite (todos_alguno_falso es_minuscula es_mayuscula password
               (fun c H => proj1 (minuscula_no_es_otra c H)) Ht).
    rewrite (todos_alguno_falso es_minuscula es_digito_ascii password
               (fun c H => proj1 (proj2 (minuscula_no_es_otra c H))) Ht).
    rewrite (todos_alguno_falso es_minuscula es_especial password
               (fun c H => proj2 (proj2 (minuscula_no_es_otra c H))) Ht).
    destruct (Z.leb_spec 8 (len password)); [lia |]. reflexivity.
Qed.

(** X14: [validar_paginacion] raises exactly when one of the two
    parameters is a value on which [int()] overflows.  When it returns,
    the page is at least 1; the page size is at least 1 when the maximum
    is, and at most the maximum except for a non-numeric page size, which
    gives 10 whatever the maximum. *)
Theorem validar_paginacion_cotas (pagina por_pagina : ValorPagina) (maximo : Z) :
  (validar_paginacion pagina por_pagina maximo = None <->
   pagina = PaginaDesbordada \/ por_pagina = PaginaDesbordada)
  /\ forall pagina_validada por_pagina_validada,
       validar_paginacion pagina por_pagina maximo
       = Some (pagina_validada, por_pagina_validada) ->
       1 <= pagina_validada
       /\ (1 <= maximo -> 1 <= por_pagina_validada)
       /\ (por_pagina <> PaginaInvalida -> por_pagina_validada <= maximo)
       /\ (por_pagina = PaginaInvalida -> por_pagina_validada = 10).
Proof.
  clear generate_otp check_password_hash normalizar_email.
  unfold validar_paginacion. split.
  - destruct pagina as [| n | |], por_pagina as [| k | |];
      split; try discriminate; try (intros [H | H]; discriminate H);
      try (intros _; auto).
  - intros pg pp E.
    assert (Hpg : 1 <= match pagina with
                       | PaginaNumero n => if n <? 1 then 1 else n
                       | _ => 1
                       end).
    { destruct pagina as [| n | |]; try lia. destruct (Z.ltb_spec n 1); lia. }
    destruct pagina as [| n | |]; try discriminate E;
      destruct por_pagina as [| k | |]; try discriminate E;
      cbv zeta in E; injection E as <- <-;
      (split; [exact Hpg |]);
      repeat split; try discriminate; try contradiction; try reflexivity;
      try (intros H; try contradiction;
           change (10 <? 1) with false; cbv iota;
           try destruct (Z.ltb_spec k 1);
           try destruct (Z.ltb_spec maximo 10);
           try destruct (Z.ltb_spec maximo k); lia).
Qed.

Lemma es_punto_punto (c : ascii) : es_punto c = true -> c = "."%char.
Proof.
  unfold es_punto. intros H. apply Nat.eqb_eq in H.
  rewrite <- (ascii_nat_embedding c), H. reflexivity.
Qed.

Lemma tras_ultimo_punto_none (s : string) :
  tras_ultimo_punto s = None <-> alguno es_punto s = false.
Proof.
  induction s as [| c s IH]; [split; reflexivity |].
  cbn [tras_ultimo_punto alguno].
  destruct (tras_ultimo_punto s) as [e |].
  - destruct (alguno es_punto s).
    + rewrite orb_true_r. split; discriminate.
    + destruct IH as [_ IH]. discriminate (IH eq_refl).
  - destruct IH as [IH _]. rewrite (IH eq_refl), orb_false_r.
    destruct (es_punto c); split; auto; discriminate.
Qed.

Lemma tras_ultimo_punto_some (s e : string) :
  tras_ultimo_punto s = Some e ->
  (exists base, s = base ++ String "."%char e) /\ alguno es_punto e = false.
Proof.
  revert e. induction s as [| c s IH]; [discriminate |].
  intros e. cbn [tras_ultimo_punto].
  destruct (tras_ultimo_punto s) as [e' |] eqn:E.
  - intros [= <-]. destruct (IH e' eq_refl) as [[base Hb] Hn].
    split; [| exact Hn]. exists (String c base). rewrite Hb. reflexivity.
  - destruct (es_punto c) eqn:Hc; [| discriminate].
    intros [= <-]. split.
    + exists "". rewrite (es_punto_punto c Hc). reflexivity.
    + apply tras_ultimo_punto_none. exact E.
Qed.

(** X15: [_obtener_extension] splits at the last dot: for a name with a
    dot, the name is a base, a dot and the extension, and the extension
    holds no dot; for a name without a dot the extension is empty. *)
Theorem obtener_extension_parte (nombre_archivo : string) :
  (alguno es_punto nombre_archivo = true ->
   (exists base,
      nombre_archivo = base ++ String "."%char (obtener_extension nombre_archivo))
   /\ alguno es_punto (obtener_extension nombre_archivo) = false)
  /\ (alguno es_punto nombre_archivo = false ->
      obtener_extension nombre_archivo = "").
Proof.
  unfold obtener_extension. split.
  - intros H. destruct (tras_ultimo_punto nombre_archivo) as [e |] eqn:E.
    + exact (tras_ultimo_punto_some nombre_archivo e E).
    + apply tras_ultimo_punto_none in E. congruence.
  - intros H. apply tras_ultimo_punto_none in H. rewrite H. reflexivity.
Qed.

Lemma quitar_comodines (s : string) :
  alguno es_comodin
    (quitar (fun c => (nat_of_ascii c =? 92)%nat)
       (quitar (fun c => (nat_of_ascii c =? 95)%nat)
          (quitar (fun c => (nat_of_ascii c =? 37)%nat) s))) = false.
Proof.
  induction s as [| c s IH]; [reflexivity |].
  cbn [quitar]. destruct (nat_of_ascii c =? 37)%nat eqn:E1; [exact IH |].
  cbn [quitar]. destruct (nat_of_ascii c =? 95)%nat eqn:E2; [exact IH |].
  cbn [quitar]. destruct (nat_of_ascii c =? 92)%nat eqn:E3; [exact IH |].
  cbn [alguno]. unfold es_comodin at 1. cbv zeta. rewrite E1, E2, E3, IH. reflexivity.
Qed.

Lemma quitar_acorta (p : ascii -> bool) (s : string) : len (quitar p s) <= len s.
Proof.
  unfold len. induction s as [| c s IH]; [simpl; lia |].
  cbn [quitar]. destruct (p c); cbn [String.length]; lia.
Qed.

(** X16: when [validar_busqueda] accepts a term, the cleaned term it
    returns holds no percent sign, underscore or backslash and has at
    most 100 characters; the length test comes before the removal, so the
    cleaned term may be shorter than the two characters the test asks
    for. *)
Theorem validar_busqueda_sin_comodines (termino : string) :
  fst (validar_busqueda termino) = true ->
  alguno es_comodin (snd (validar_busqueda termino)) = false
  /\ len (snd (validar_busqueda termino)) <= 100
  /\ len (snd (validar_busqueda termino)) <= len (strip termino).
Proof.
  unfold validar_busqueda.
  destruct (String.eqb termino ""); [intros _; cbn; repeat split; try lia;
                                     apply len_no_negativa |].
  destruct (Z.ltb_spec (len (strip termino)) 2); [discriminate |].
  destruct (Z.ltb_spec 100 (len (strip termino))); [discriminate |].
  intros _. cbn [fst snd].
  assert (Hl : len (quitar (fun c => (nat_of_ascii c =? 92)%nat)
                      (quitar (fun c => (nat_of_ascii c =? 95)%nat)
                         (quitar (fun c => (nat_of_ascii c =? 37)%nat) (strip termino))))
               <= len (strip termino)).
  { eapply Z.le_trans; [apply quitar_acorta |].
    eapply Z.le_trans; [apply quitar_acorta |]. apply quitar_acorta. }
  split; [apply quitar_comodines |]. split; lia.
Qed.

(** ** The in-memory cache *)

Lemma dict_buscar_poner {V : Type} (d : list (string * V)) (k : string) (v : V) :
  dict_buscar (dict_poner d k v) k = Some v.
Proof.
  induction d as [| [k' v'] d IH]; cbn [dict_poner dict_buscar].
  - rewrite String.eqb_refl. reflexivity.
  - destruct (String.eqb k' k) eqn:E; cbn [dict_buscar].
    + rewrite String.eqb_refl. reflexivity.
    + rewrite E. exact IH.
Qed.

Lemma dict_buscar_poner_otra {V : Type} (d : list (string * V)) (k k' : string) (v : V) :
  k <> k' -> dict_buscar (dict_poner d k v) k' = dict_buscar d k'.
Proof.
  intros Hne. induction d as [| [k0 v0] d IH]; cbn [dict_poner dict_buscar].
  - destruct (String.eqb_spec k k'); [contradiction | reflexivity].
  - destruct (String.eqb_spec k0 k) as [-> | Hk]; cbn [dict_buscar].
    + destruct (String.eqb_spec k k'); [contradiction | reflexivity].
    + destruct (String.eqb k0 k'); [reflexivity | exact IH].
Qed.

Lemma dict_buscar_quitar {V : Type} (d : list (string * V)) (k : string) :
  dict_buscar (dict_quitar d k) k = None.
Proof.
  unfold dict_quitar. induction d as [| [k' v'] d IH]; [reflexivity |].
  cbn [filter fst]. destruct (String.eqb k' k) eqn:E; cbn [negb].
  - exact IH.
  - cbn [dict_buscar]. rewrite E. exact IH.
Qed.

Lemma dict_buscar_quitar_otra {V : Type} (d : list (string * V)) (k k' : string) :
  k <> k' -> dict_buscar (dict_quitar d k) k' = dict_buscar d k'.
Proof.
  intros Hne. unfold dict_quitar.
  induction d as [| [k0 v0] d IH]; [reflexivity |].
  cbn [filter fst]. destruct (String.eqb_spec k0 k) as [-> | Hk]; cbn [negb].
  - cbn [dict_buscar]. destruct (String.eqb_spec k k'); [contradiction | exact IH].
  - cbn [dict_buscar]. destruct (String.eqb k0 k'); [reflexivity | exact IH].
Qed.

Lemma dict_quitar_claves {V : Type} (d : list (string * V)) (k : string) :
  ~ In k (map fst (dict_quitar d k)).
Proof.
  unfold dict_quitar. intros H. apply in_map_iff in H.
  destruct H as [[k' v] [Hk Hin]]. apply filter_In in Hin. destruct Hin as [_ Hf].
  simpl in Hk, Hf. subst k'. rewrite String.eqb_refl in Hf. discriminate.
Qed.

(** X17: a value stored with a timeout is returned as long as the clock
    has not passed the deadline, and the cache is left as it was; once
    the clock is past the deadline the read returns nothing and drops the
    key; after [delete] the key reads as absent. *)
Theorem cache_guardar_y_leer {V : Type} (c : CacheSimple V) (key : string) (value : V)
    (timeout t0 t : Z) :
  timeout <> 0 ->
  (t <= t0 + timeout ->
   cache_get key t (cache_set key value timeout t0 c)
   = (Some value, cache_set key value timeout t0 c))
  /\ (t0 + timeout < t ->
      fst (cache_get key t (cache_set key value timeout t0 c)) = None
      /\ ~ In key (cache_keys (snd (cache_get key t (cache_set key value timeout t0 c)))))
  /\ fst (cache_get key t (cache_delete key (cache_set key value timeout t0 c))) = None.
Proof.
  intros Ht.
  assert (E : (timeout =? 0) = false) by (apply Z.eqb_neq; exact Ht).
  unfold cache_get, cache_set, cache_delete. cbn [store expiration]. rewrite E.
  rewrite !dict_buscar_poner, dict_buscar_quitar.
  split; [| split].
  - intros Hle. destruct (Z.ltb_spec (t0 + timeout) t); [lia | reflexivity].
  - intros Hlt. destruct (Z.ltb_spec (t0 + timeout) t); [| lia].
    cbn [fst snd]. split; [reflexivity |].
    unfold cache_keys. cbn [store]. apply dict_quitar_claves.
  - reflexivity.
Qed.

(** X18: [set] with a falsy timeout writes the value but leaves the
    key's previous deadline in place: a value stored without timeout over
    one stored with a timeout is gone once that earlier deadline has
    passed, whereas on a key that has no deadline it is returned at any
    time. *)
Theorem cache_sin_timeout_hereda_vencimiento {V : Type} (c : CacheSimple V)
    (key : string) (v1 v2 : V) (timeout t0 t1 t : Z) :
  (timeout <> 0 -> t0 + timeout < t ->
   fst (cache_get key t (cache_set key v2 0 t1 (cache_set key v1 timeout t0 c))) = None)
  /\ (dict_buscar (expiration c) key = None ->
      fst (cache_get key t (cache_set key v2 0 t1 c)) = Some v2).
Proof.
  unfold cache_get, cache_set. cbn [store expiration].
  change (0 =? 0) with true. cbv iota. rewrite !dict_buscar_poner. split.
  - intros Ht Hlt.
    assert (E : (timeout =? 0) = false) by (apply Z.eqb_neq; exact Ht).
    rewrite E, dict_buscar_poner.
    destruct (Z.ltb_spec (t0 + timeout) t); [reflexivity | lia].
  - intros Hn. rewrite Hn. reflexivity.
Qed.

(** X19: writing or deleting one key leaves what the other keys read
    as. *)
Theorem cache_claves_independientes {V : Type} (c : CacheSimple V) (key otra : string)
    (value : V) (timeout t0 t : Z) :
  key <> otra ->
  fst (cache_get otra t (cache_set key value timeout t0 c)) = fst (cache_get otra t c)
  /\ fst (cache_get otra t (cache_delete key c)) = fst (cache_get otra t c).
Proof.
  intros Hne. unfold cache_get, cache_set, cache_delete. cbn [store expiration].
  rewrite (dict_buscar_poner_otra (store c) key otra value Hne).
  rewrite (dict_buscar_quitar_otra (store c) key otra Hne).
  rewrite (dict_buscar_quitar_otra (expiration c) key otra Hne).
  assert (He : dict_buscar (if timeout =? 0 then expiration c
                            else dict_poner (expiration c) key (t0 + timeout)) otra
               = dict_buscar (expiration c) otra).
  { destruct (timeout =? 0); [reflexivity |].
    apply dict_buscar_poner_otra. exact Hne. }
  rewrite He.
  split;
    destruct (dict_buscar (store c) otra) as [v |]; try reflexivity;
    destruct (dict_buscar (expiration c) otra) as [l |]; try reflexivity;
    destruct (l <? t); reflexivity.
Qed.

(** ** Role decorators *)

(** X20: [requiere_supervisor_o_admin] runs the view exactly for the
    accounts for which [es_supervisor] holds, and [requiere_admin]
    exactly for those for which [es_admin] holds; every other active
    account gets 403 [ROL_INSUFICIENTE] and the state is untouched. *)
Theorem decoradores_de_rol (p : Peticion) (f : Usuario -> Op Respuesta) (m : Mundo)
    (u : Usuario) :
  jwt_error p = None -> usuario_bd m = Some u -> activo u = true ->
  requiere_supervisor_o_admin p f m
  = (if es_supervisor u then f u m else (mkRespuesta 403 "ROL_INSUFICIENTE", m))
  /\ requiere_admin p f m
     = (if es_admin u then f u m else (mkRespuesta 403 "ROL_INSUFICIENTE", m)).
Proof.
  intros Hj Eu Ha.
  unfold requiere_supervisor_o_admin, requiere_admin, requiere_rol,
    requiere_autenticacion, jwt_required, rol_en, join_definido, es_supervisor, es_admin.
  rewrite Hj, Eu, Ha. cbn [negb existsb forallb andb]. cbv iota.
  rewrite !orb_false_r.
  split.
  - destruct (String.eqb (rol u) "supervisor" || String.eqb (rol u) "admin");
      reflexivity.
  - destruct (String.eqb (rol u) "admin"); reflexivity.
Qed.

(** X21: the monitoring routes pass their roles to [requiere_rol] as one
    list, and a role name is never equal to a list: behind that guard no
    view ever runs, whatever the role, and every answer is a 401.  For an
    active account with an accepted token, an admin included, the role
    test fails, the message of the 403 answer cannot be joined, and the
    answer is 401 [ERROR_AUTENTICACION]. *)
Theorem guardia_monitoreo_rechaza (roles : list string) (p : Peticion)
    (f : Usuario -> Op Respuesta) (m : Mundo) :
  snd (guardia_monitoreo roles p f m) = m
  /\ http (fst (guardia_monitoreo roles p f m)) = 401
  /\ (forall u, jwt_error p = None -> usuario_bd m = Some u -> activo u = true ->
                fst (guardia_monitoreo roles p f m)
                = mkRespuesta 401 "ERROR_AUTENTICACION").
Proof.
  unfold guardia_monitoreo, requiere_rol, requiere_autenticacion, jwt_required, rol_en,
    join_definido.
  cbn [existsb forallb orb andb negb]. cbv iota.
  destruct (jwt_error p) as [cod |].
  - split; [reflexivity |]. split; [reflexivity |]. intros u H. discriminate H.
  - destruct (usuario_bd m) as [u |].
    + destruct (activo u) eqn:Ha; rama.
      * split; [reflexivity |]. split; reflexivity.
      * split; [reflexivity |]. split; [reflexivity |].
        intros u0 _ [= <-] H. congruence.
    + split; [reflexivity |]. split; [reflexivity |].
      intros u0 _ H. discriminate H.
Qed.

(** ** The per-minute limiter *)

Lemma minuto_buscar_recientes (d : list (Z * Z)) (M defecto : Z) :
  minuto_buscar (filter (fun mn => negb (fst mn <? M - 1)) d) M defecto
  = minuto_buscar d M defecto.
Proof.
  induction d as [| [m' n] d IH]; [reflexivity |].
  cbn [filter fst]. destruct (Z.ltb_spec m' (M - 1)) as [Hlt | Hge]; cbn [negb].
  - cbn [minuto_buscar]. destruct (Z.eqb_spec m' M); [lia | exact IH].
  - cbn [minuto_buscar]. destruct (m' =? M); [reflexivity | exact IH].
Qed.

Lemma minuto_buscar_poner (d : list (Z * Z)) (M n defecto : Z) :
  minuto_buscar (minuto_poner d M n) M defecto = n.
Proof.
  induction d as [| [m' n'] d IH]; cbn [minuto_poner minuto_buscar].
  - rewrite Z.eqb_refl. reflexivity.
  - destruct (m' =? M) eqn:E; cbn [minuto_buscar].
    + rewrite Z.eqb_refl. reflexivity.
    + rewrite E. exact IH.
Qed.

Lemma verificar_limite_paso (clave : string) (limite ahora : Z)
    (requests_store : list (string * list (Z * Z))) :
  fst (verificar_limite clave limite ahora requests_store)
  = (conteo requests_store clave (ahora / 60) <? limite)
  /\ conteo (snd (verificar_limite clave limite ahora requests_store)) clave (ahora / 60)
     = if conteo requests_store clave (ahora / 60) <? limite
       then conteo requests_store clave (ahora / 60) + 1
       else conteo requests_store clave (ahora / 60).
Proof.
  unfold verificar_limite, conteo. cbv zeta.
  rewrite minuto_buscar_recientes.
  set (de_clave := match dict_buscar requests_store clave with
                   | Some d => d
                   | None => []
                   end).
  assert (Hc : match dict_buscar requests_store clave with
               | Some d => minuto_buscar d (ahora / 60) 0
               | None => 0
               end = minuto_buscar de_clave (ahora / 60) 0).
  { subst de_clave. destruct (dict_buscar requests_store clave); reflexivity. }
  rewrite Hc. rewrite Z.leb_antisym.
  destruct (minuto_buscar de_clave (ahora / 60) 0 <? limite); cbn [negb fst snd].
  - rewrite dict_buscar_poner, minuto_buscar_poner. split; reflexivity.
  - rewrite dict_buscar_poner, minuto_buscar_recientes. split; reflexivity.
Qed.

(** X22: within one minute [verificar_limite] admits a key until its
    count for that minute reaches the limit and refuses it from then on:
    of the calls made in a minute that starts at the count [c0], the
    [i]-th (from 0) is admitted exactly when [c0 + i] is below the
    limit, and the count ends at the limit, never above it. *)
Theorem limite_por_minuto_exacto (clave : string) (limite M : Z) (tiempos : list Z) :
  forall requests_store,
    Forall (fun t => t / 60 = M) tiempos ->
    fst (verificar_en_serie clave limite tiempos requests_store)
    = map (fun i => conteo requests_store clave M + Z.of_nat i <? limite)
          (seq 0 (List.length tiempos))
    /\ conteo (snd (verificar_en_serie clave limite tiempos requests_store)) clave M
       = if conteo requests_store clave M <? limite
         then Z.min limite (conteo requests_store clave M + Z.of_nat (List.length tiempos))
         else conteo requests_store clave M.
Proof.
  induction tiempos as [| t resto IH]; intros requests_store Hf.
  - cbn [verificar_en_serie fst snd List.length seq map]. split; [reflexivity |].
    destruct (Z.ltb_spec (conteo requests_store clave M) limite); [| reflexivity].
    cbn [Z.of_nat]. lia.
  - inversion Hf as [| t' resto' Ht Hr]; subst.
    destruct (verificar_limite_paso clave limite t requests_store) as [Hv Hc].
    cbn [verificar_en_serie].
    destruct (verificar_limite clave limite t requests_store) as [b s1].
    cbn [fst snd] in Hv, Hc.
    destruct (IH s1 Hr) as [IH1 IH2].
    destruct (verificar_en_serie clave limite resto s1) as [bs s2].
    cbn [fst snd] in *. subst b bs.
    set (c0 := conteo requests_store clave (t / 60)) in *.
    split.
    + cbn [List.length seq map]. rewrite Z.add_0_r. f_equal.
      rewrite <- seq_shift, map_map. apply map_ext. intros i.
      rewrite Hc. destruct (Z.ltb_spec c0 limite).
      * f_equal. lia.
      * destruct (Z.ltb_spec (c0 + Z.of_nat i) limite); [lia |].
        destruct (Z.ltb_spec (c0 + Z.of_nat (S i)) limite); [lia | reflexivity].
    + rewrite IH2, Hc. cbn [List.length].
      destruct (Z.ltb_spec c0 limite).
      * destruct (Z.ltb_spec (c0 + 1) limite); lia.
      * destruct (Z.ltb_spec c0 limite); [lia | reflexivity].
Qed.

(** ** What a successful login needs *)

Ltac otra_respuesta :=
  let H := fresh "H" in intros H; cbn in H; discriminate H.

Lemma login_200_exige (p : Peticion) (ahora : Z) (m : Mundo) :
  http (fst (login p ahora m)) = 200 ->
  exists u h,
    normalizar_email (dict_get (json p) "email" "") <> ""
    /\ dict_get (json p) "password" "" <> ""
    /\ usuario_bd m = Some u /\ activo u = true
    /\ intentos_login_fallidos u < 5
    /\ password_hash u = Some h /\ h <> ""
    /\ check_password_hash h (dict_get (json p) "password" "") = true.
Proof.
  unfold login.
  destruct (String.eqb_spec (normalizar_email (dict_get (json p) "email" "")) "")
    as [| He]; [otra_respuesta |].
  destruct (String.eqb_spec (dict_get (json p) "password" "") "") as [| Hp];
    [otra_respuesta |].
  bools.
  destruct (usuario_bd m) as [u |] eqn:Eu; [| otra_respuesta].
  destruct (activo u) eqn:Ea; rama; [| otra_respuesta].
  unfold esta_bloqueado.
  destruct (Z.leb_spec 5 (intentos_login_fallidos u)) as [| Hi];
    [otra_respuesta |].
  unfold bind, llamar, verificar_password.
  destruct (password_hash u) as [h |] eqn:Eh; [| otra_respuesta].
  destruct (String.eqb_spec (dict_get (json p) "password" "") "") as [| _];
    [contradiction |].
  destruct (String.eqb_spec h "") as [| Hh]; bools;
    [otra_respuesta |].
  destruct (check_password_hash h (dict_get (json p) "password" "")) eqn:Ec;
    [| otra_respuesta].
  intros _. exists u, h. repeat split; assumption || reflexivity.
Qed.

Lemma login_200_basta (p : Peticion) (ahora : Z) (m : Mundo) (u : Usuario) (h : string) :
  normalizar_email (dict_get (json p) "email" "") <> "" ->
  dict_get (json p) "password" "" <> "" ->
  usuario_bd m = Some u -> activo u = true ->
  intentos_login_fallidos u < 5 ->
  password_hash u = Some h -> h <> "" ->
  check_password_hash h (dict_get (json p) "password" "") = true ->
  fst (login p ahora m) = mkRespuesta 200 "Login exitoso".
Proof.
  intros He Hp Eu Ea Hi Eh Hh Ec. unfold login.
  destruct (String.eqb_spec (normalizar_email (dict_get (json p) "email" "")) "");
    [contradiction |].
  destruct (String.eqb_spec (dict_get (json p) "password" "") ""); [contradiction |].
  bools. rewrite Eu, Ea. rama. unfold esta_bloqueado.
  destruct (Z.leb_spec 5 (intentos_login_fallidos u)); [lia |].
  unfold bind, llamar, verificar_password. rewrite Eh.
  destruct (String.eqb_spec (dict_get (json p) "password" "") ""); [contradiction |].
  destruct (String.eqb_spec h ""); [contradiction |].
  bools. rewrite Ec. reflexivity.
Qed.

(** X23: the login view answers 200 exactly when the request names an
    email and a password, the account found is active, has fewer than
    five failed attempts and a non-empty stored hash that
    [check_password_hash] accepts for the password; the account's second
    factor plays no part, so an account with [otp_habilitado] set logs in
    on the password alone.  Behind its decorators the route answers 200
    under these conditions only. *)
Theorem login_200_exactamente (p : Peticion) (ahora : Z) (m : Mundo) :
  (http (fst (login p ahora m)) = 200 <->
   exists u h,
     normalizar_email (dict_get (json p) "email" "") <> ""
     /\ dict_get (json p) "password" "" <> ""
     /\ usuario_bd m = Some u /\ activo u = true
     /\ intentos_login_fallidos u < 5
     /\ password_hash u = Some h /\ h <> ""
     /\ check_password_hash h (dict_get (json p) "password" "") = true)
  /\ (http (fst (ruta_login p ahora m)) = 200 ->
      exists u h,
        usuario_bd m = Some u /\ activo u = true
        /\ intentos_login_fallidos u < 5
        /\ password_hash u = Some h
        /\ check_password_hash h (dict_get (json p) "password" "") = true).
Proof.
  split; [split |].
  - apply login_200_exige.
  - intros [u [h [He [Hp [Eu [Ea [Hi [Eh [Hh Ec]]]]]]]]].
    rewrite (login_200_basta p ahora m u h); trivial.
  - unfold ruta_login, validar_contenido_json, registrar_auditoria.
    destruct (es_json p); rama; [| otra_respuesta].
    destruct (json p) as [| par resto] eqn:Ej; [otra_respuesta |].
    rewrite <- Ej.
    destruct (filter (fun campo => String.eqb (dict_get (json p) campo "") "")
                     ["email"; "password"]);
      [| otra_respuesta].
    unfold limitar_frecuencia. cbv zeta.
    destruct (buscar_cache _ _) as [[intentos expira] |].
    + destruct (5 <=? intentos);
        [otra_respuesta |].
      unfold bind, asignar_cache. intros H.
      destruct (login_200_exige _ _ _ H) as [u [h [_ [_ [Eu [Ea [Hi [Eh [_ Ec]]]]]]]]].
      exists u, h. repeat split; assumption.
    + unfold bind, asignar_cache. intros H.
      destruct (login_200_exige _ _ _ H) as [u [h [_ [_ [Eu [Ea [Hi [Eh [_ Ec]]]]]]]]].
      exists u, h. repeat split; assumption.
Qed.

(** ** The three permissions compared *)

(** X24: whoever may delete a document may also modify it and view it;
    whoever may modify a document of one of the three levels may view
    it.  For a level outside the three the second step fails: a
    supervisor who does not own such a document may modify it and may
    not view it. *)
Theorem permisos_por_accion_encajan (u : Usuario) (d : Documento) :
  (puede_eliminar_documento u d = true ->
   puede_modificar_documento u d = true /\ puede_acceder_documento u d = true)
  /\ (validar_nivel_seguridad (nivel_seguridad d) = true ->
      puede_modificar_documento u d = true -> puede_acceder_documento u d = true)
  /\ (rol u = "supervisor" -> propietario_id d <> id u ->
      validar_nivel_seguridad (nivel_seguridad d) = false ->
      puede_modificar_documento u d = true /\ puede_acceder_documento u d = false).
Proof.
  clear generate_otp check_password_hash normalizar_email.
  unfold puede_eliminar_documento, puede_modificar_documento, puede_acceder_documento,
    validar_nivel_seguridad, NIVELES_SEGURIDAD, es_supervisor, es_admin.
  split; [| split].
  - destruct (String.eqb (rol u) "admin"); [intros _; split; reflexivity |].
    destruct (propietario_id d =? id u); [intros _; split; reflexivity |].
    intros H. discriminate H.
  - destruct (String.eqb (rol u) "admin"); [reflexivity |].
    destruct (propietario_id d =? id u); [reflexivity |].
    destruct (String.eqb (nivel_seguridad d) ""); [intros H; discriminate H |].
    cbn [existsb].
    destruct (String.eqb_spec (nivel_seguridad d) "publico") as [-> | _];
      [reflexivity |].
    destruct (String.eqb_spec (nivel_seguridad d) "confidencial") as [-> | _].
    + intros _. change (String.eqb "confidencial" "secreto") with false.
      bools. rewrite Bool.andb_true_r.
      destruct (String.eqb (rol u) "supervisor"); bools;
        [reflexivity | intros H; discriminate H].
    + destruct (String.eqb_spec (nivel_seguridad d) "secreto") as [_ | _];
        [| intros H; discriminate H].
      intros _. bools. rewrite Bool.andb_false_r. intros H. discriminate H.
  - intros Hr Hp. rewrite Hr.
    change (String.eqb "supervisor" "admin") with false. cbv iota.
    destruct (Z.eqb_spec (propietario_id d) (id u)); [contradiction |].
    destruct (String.eqb_spec (nivel_seguridad d) "") as [-> | _].
    + intros _. split; reflexivity.
    + cbn [existsb].
      destruct (String.eqb_spec (nivel_seguridad d) "publico");
        [intros H; discriminate H |].
      destruct (String.eqb_spec (nivel_seguridad d) "confidencial");
        [intros H; discriminate H |].
      destruct (String.eqb_spec (nivel_seguridad d) "secreto");
        [intros H; discriminate H |].
      intros _. split; vm_compute; reflexivity.
Qed.

(** ** The code check of [/api/auth/otp/validar] *)

(** X25: [validar_otp_route] answers "OTP valido" only for an accepted
    token of an active account whose second factor is enabled, and a
    [codigo] that passes [validar_codigo_otp] and that
    [validar_otp_codigo] accepts, as sent, for the account's key. *)
Theorem validar_otp_route_valido (p : Peticion) (ahora : Z) (m : Mundo) :
  fst (validar_otp_route p ahora m) = mkRespuesta 200 "OTP valido" ->
  exists u clave,
    jwt_error p = None
    /\ usuario_bd m = Some u /\ activo u = true
    /\ otp_habilitado u = true
    /\ clave_otp_base32 u = Some clave
    /\ validar_codigo_otp (dict_get (json p) "codigo" "") = true
    /\ validar_otp_codigo (dict_get (json p) "codigo" "") clave ahora = true.
Proof.
  unfold validar_otp_route, jwt_required, registrar_auditoria.
  destruct (jwt_error p); [otra_respuesta |].
  assert (Hc : forall m',
             usuario_bd m' = usuario_bd m ->
             fst (match usuario_bd m' with
                  | None => responder 401 "Usuario invalido" m'
                  | Some usuario =>
                      if negb (activo usuario) then responder 401 "Usuario invalido" m'
                      else if negb (es_json p) then responder 500 "ERROR_INTERNO" m'
                      else
                        match json p with
                        | [] => responder 400 "JSON_REQUERIDO" m'
                        | _ =>
                            if negb (verdadero (clave_otp_base32 usuario)) then
                              responder 400 "NO_HAY_CONFIGURACION_PENDIENTE" m'
                            else
                              let codigo_otp := dict_get (json p) "codigo" "" in
                              if String.eqb codigo_otp "" then
                                responder 400 "CODIGO_OTP_REQUERIDO" m'
                              else if negb (validar_codigo_otp codigo_otp) then
                                responder 400 "OTP_FORMATO_INVALIDO" m'
                              else if negb (String.eqb (email usuario) "") then
                                (r <- llamar (validar_otp codigo_otp ahora) usuario ;;
                                 responder 200 (if fst r then "OTP valido"
                                                else "OTP invalido")) m'
                              else responder 400 "USUARIO_REQUERIDO" m'
                        end
                  end) = mkRespuesta 200 "OTP valido" ->
             exists u clave,
               None = (None : option string)
               /\ usuario_bd m = Some u /\ activo u = true
               /\ otp_habilitado u = true
               /\ clave_otp_base32 u = Some clave
               /\ validar_codigo_otp (dict_get (json p) "codigo" "") = true
               /\ validar_otp_codigo (dict_get (json p) "codigo" "") clave ahora = true).
  { intros m' Em. rewrite Em.
    destruct (usuario_bd m) as [u |]; [| otra_respuesta].
    destruct (activo u) eqn:Ea; rama; [| otra_respuesta].
    destruct (es_json p); rama; [| otra_respuesta].
    destruct (json p) as [| par resto] eqn:Ej; [otra_respuesta |].
    rewrite <- Ej.
    destruct (verdadero (clave_otp_base32 u)); rama;
      [| otra_respuesta].
    cbv zeta.
    destruct (String.eqb (dict_get (json p) "codigo" "") "");
      [otra_respuesta |].
    destruct (validar_codigo_otp (dict_get (json p) "codigo" "")) eqn:Ef; rama;
      [| otra_respuesta].
    destruct (String.eqb (email u) ""); rama; [otra_respuesta |].
    unfold bind, llamar.
    destruct (validar_otp (dict_get (json p) "codigo" "") ahora u) as [[b u'] evs] eqn:Ev.
    cbn [fst snd responder ret].
    destruct b; [| intros H; discriminate H].
    intros _.
    destruct (validar_otp_verdadero u (dict_get (json p) "codigo" "") ahora)
      as [Ho [clave [Ek Hv]]]; [rewrite Ev; reflexivity |].
    exists u, clave. repeat split; assumption. }
  unfold limitar_frecuencia. cbv zeta.
  destruct (buscar_cache _ _) as [[intentos expira] |].
  - destruct (10 <=? intentos); [otra_respuesta |].
    unfold bind, asignar_cache. apply Hc. reflexivity.
  - unfold bind, asignar_cache. apply Hc. reflexivity.
Qed.

(** ** The request limiter of the routes *)

Lemma buscar_cache_filter_none (g : string * (Z * Z) -> bool)
    (c : list (string * (Z * Z))) (k : string) :
  buscar_cache c k = None -> buscar_cache (filter g c) k = None.
Proof.
  unfold buscar_cache. induction c as [| [k' v'] c IH]; [reflexivity |].
  cbn [find fst]. destruct (String.eqb k' k) eqn:E; [discriminate |].
  intros H. cbn [filter]. destruct (g (k', v')); [| exact (IH H)].
  cbn [find fst]. rewrite E. exact (IH H).
Qed.

Lemma buscar_cache_filter_some (g : string * (Z * Z) -> bool)
    (c : list (string * (Z * Z))) (k : string) (v : Z * Z) :
  buscar_cache c k = Some v -> g (k, v) = true ->
  buscar_cache (filter g c) k = Some v.
Proof.
  unfold buscar_cache. intros H Hg. induction c as [| [k' v'] c IH]; [discriminate |].
  cbn [find fst] in H. cbn [filter].
  destruct (String.eqb_spec k' k) as [-> | Hk].
  - cbn [snd] in H. injection H as ->. rewrite Hg.
    cbn [find fst]. rewrite String.eqb_refl. reflexivity.
  - destruct (g (k', v')); [| exact (IH H)].
    cbn [find fst]. destruct (String.eqb_spec k' k); [contradiction | exact (IH H)].
Qed.

Lemma buscar_cache_poner (c : list (string * (Z * Z))) (k : string) (v : Z * Z) :
  buscar_cache (poner_cache c k v) k = Some v.
Proof.
  unfold buscar_cache. induction c as [| [k' v'] c IH]; cbn [poner_cache].
  - cbn [find fst]. rewrite String.eqb_refl. reflexivity.
  - destruct (String.eqb k' k) eqn:E; cbn [find fst].
    + rewrite String.eqb_refl. reflexivity.
    + rewrite E. exact IH.
Qed.

Lemma limitar_frecuencia_sin_entrada (maximo ventana : Z) (nombre : string)
    (p : Peticion) (t : Z) (f : Op Respuesta) (m : Mundo) :
  (forall m', cache_limite (snd (f m')) = cache_limite m') ->
  (forall m', http (fst (f m')) <> 429) ->
  buscar_cache (cache_limite m) (clave_intento nombre p) = None ->
  (http (fst (limitar_frecuencia maximo ventana nombre p t f m)) =? 429) = false
  /\ buscar_cache (cache_limite (snd (limitar_frecuencia maximo ventana nombre p t f m)))
       (clave_intento nombre p) = Some (1, t + ventana).
Proof.
  intros Hc Hr E. unfold limitar_frecuencia. cbv zeta.
  fold (clave_intento nombre p).
  rewrite (buscar_cache_filter_none _ _ _ E).
  unfold bind, asignar_cache. split.
  - apply Z.eqb_neq, Hr.
  - rewrite Hc. cbn [cache_limite]. apply buscar_cache_poner.
Qed.

Lemma limitar_frecuencia_con_entrada (maximo ventana : Z) (nombre : string)
    (p : Peticion) (t : Z) (f : Op Respuesta) (m : Mundo) (n e : Z) :
  (forall m', cache_limite (snd (f m')) = cache_limite m') ->
  (forall m', http (fst (f m')) <> 429) ->
  buscar_cache (cache_limite m) (clave_intento nombre p) = Some (n, e) ->
  t <= e ->
  (http (fst (limitar_frecuencia maximo ventana nombre p t f m)) =? 429)
  = (maximo <=? n)
  /\ buscar_cache (cache_limite (snd (limitar_frecuencia maximo ventana nombre p t f m)))
       (clave_intento nombre p)
     = Some (if maximo <=? n then n else n + 1, e).
Proof.
  intros Hc Hr E Ht. unfold limitar_frecuencia. cbv zeta.
  fold (clave_intento nombre p).
  assert (Ef : buscar_cache
                 (filter (fun kv => negb (String.prefix "rate_limit_" (fst kv)
                                          && (snd (snd kv) <? t)))
                         (cache_limite m))
                 (clave_intento nombre p) = Some (n, e)).
  { apply buscar_cache_filter_some; [exact E |].
    cbn [fst snd]. destruct (Z.ltb_spec e t); [lia |].
    rewrite Bool.andb_false_r. reflexivity. }
  rewrite Ef. destruct (maximo <=? n).
  - unfold bind, asignar_cache, responder, ret. cbn [fst snd http cache_limite].
    split; [reflexivity | exact Ef].
  - unfold bind, asignar_cache. split.
    + apply Z.eqb_neq, Hr.
    + rewrite Hc. cbn [cache_limite]. apply buscar_cache_poner.
Qed.

Lemma limitar_en_serie_con_entrada (maximo ventana : Z) (nombre : string)
    (p : Peticion) (f : Op Respuesta) :
  (forall m', cache_limite (snd (f m')) = cache_limite m') ->
  (forall m', http (fst (f m')) <> 429) ->
  forall (tiempos : list Z) (m : Mundo) (n e : Z),
    buscar_cache (cache_limite m) (clave_intento nombre p) = Some (n, e) ->
    Forall (fun t => t <= e) tiempos ->
    map (fun r => http r =? 429)
        (fst (limitar_en_serie maximo ventana nombre p tiempos f m))
    = map (fun i => maximo <=? n + Z.of_nat i) (seq 0 (List.length tiempos)).
Proof.
  intros Hc Hr. induction tiempos as [| t resto IH]; intros m n e E Hf.
  - reflexivity.
  - inversion Hf as [| t' resto' Ht Hresto]; subst.
    destruct (limitar_frecuencia_con_entrada maximo ventana nombre p t f m n e
                Hc Hr E Ht) as [H1 H2].
    cbn [limitar_en_serie]. unfold bind at 1.
    destruct (limitar_frecuencia maximo ventana nombre p t f m) as [r m1].
    cbn [fst snd] in H1, H2. unfold bind at 1.
    specialize (IH m1 _ e H2 Hresto).
    destruct (limitar_en_serie maximo ventana nombre p resto f m1) as [rs m2].
    cbn [fst snd ret] in *. cbn [List.length seq map]. rewrite H1, Z.add_0_r.
    f_equal. rewrite IH, <- seq_shift, map_map. apply map_ext. intros i.
    destruct (Z.leb_spec maximo n).
    + destruct (Z.leb_spec maximo (n + Z.of_nat i)); [| lia].
      destruct (Z.leb_spec maximo (n + Z.of_nat (S i))); [reflexivity | lia].
    + f_equal. lia.
Qed.

(** X26: [limitar_frecuencia] opens a window at the first request of an
    address and does not move it: among the requests that follow up to
    the window's end, the one that has [i] requests before it is answered
    429 exactly when [i] is at least the limit, whether the view accepted
    the earlier ones or not; the first request is never refused, whatever
    the limit. *)
Theorem limitar_frecuencia_ventana_fija (maximo ventana : Z) (nombre : string)
    (p : Peticion) (f : Op Respuesta) (t0 : Z) (resto : list Z) (m : Mundo) :
  (forall m', cache_limite (snd (f m')) = cache_limite m') ->
  (forall m', http (fst (f m')) <> 429) ->
  buscar_cache (cache_limite m) (clave_intento nombre p) = None ->
  Forall (fun t => t <= t0 + ventana) resto ->
  map (fun r => http r =? 429)
      (fst (limitar_en_serie maximo ventana nombre p (t0 :: resto) f m))
  = false :: map (fun i => maximo <=? Z.of_nat i) (seq 1 (List.length resto)).
Proof.
  intros Hc Hr E Hf.
  destruct (limitar_frecuencia_sin_entrada maximo ventana nombre p t0 f m Hc Hr E)
    as [H1 H2].
  cbn [limitar_en_serie]. unfold bind at 1.
  destruct (limitar_frecuencia maximo ventana nombre p t0 f m) as [r m1].
  cbn [fst snd] in H1, H2. unfold bind at 1.
  pose proof (limitar_en_serie_con_entrada maximo ventana nombre p f Hc Hr
                resto m1 1 (t0 + ventana) H2 Hf) as IH.
  destruct (limitar_en_serie maximo ventana nombre p resto f m1) as [rs m2].
  cbn [fst snd ret] in *. cbn [map]. rewrite H1. f_equal.
  rewrite IH, <- seq_shift, map_map. apply map_ext. intros i. f_equal. lia.
Qed.

(** ** What [requiere_otp_para_documento] leaves uncovered *)

Lemma matriz_editar_o_crear (accion nivel rol_usuario : string) :
  accion = "editar" \/ accion = "crear" ->
  requiere_otp_para_accion accion nivel rol_usuario = false.
Proof.
  intros H. rewrite matriz_forma.
  destruct H as [-> | ->];
    destruct (String.eqb "secreto" nivel), (String.eqb "confidencial" nivel),
      (String.eqb "publico" nivel); reflexivity.
Qed.

(** X27: for a request that writes (PUT, PATCH or POST) and is not a
    download, [requiere_otp_para_documento] infers the action editar or
    crear, for which the matrix has no rule: the decorated view runs
    without any code being asked, on a secret document too and whatever
    the role. *)
Theorem decorador_otp_no_cubre_escritura (p : Peticion) (ahora : Z) (f : Op Respuesta)
    (m : Mundo) (u : Usuario) (d : Documento) :
  usuario_bd m = Some u -> activo u = true ->
  documento_id p <> 0 ->
  documento_bd m = Some d -> estado d = "activo" ->
  metodo p = "PUT" \/ metodo p = "PATCH" \/ metodo p = "POST" ->
  contiene "descargar" (endpoint p) = false ->
  contiene "/descargar" (path p) = false ->
  requiere_otp_para_documento p ahora f m = f m.
Proof.
  intros Eu Ea Hid Ed Ee Hm Hd1 Hd2.
  assert (Hacc : accion_de_peticion p = "editar" \/ accion_de_peticion p = "crear").
  { unfold accion_de_peticion. cbv zeta. rewrite Hd1, Hd2. bools.
    destruct (contiene "actualizar" (endpoint p)); [left; reflexivity |].
    destruct Hm as [-> | [-> | ->]]; [left | left | right]; reflexivity. }
  unfold requiere_otp_para_documento. rewrite Eu, Ea. rama.
  destruct (Z.eqb_spec (documento_id p) 0); [contradiction |].
  rewrite Ed, Ee. change (String.eqb "activo" "activo") with true. rama. cbv zeta.
  rewrite (matriz_editar_o_crear _ _ _ Hacc). reflexivity.
Qed.

End Sistema.

(** ** Runs on the sample data *)

(** C5: the account is in the pending state and "666666" is the code of
    the current step for its pending key, yet
    [Usuario.activar_otp_con_validacion] returns [False] and leaves the
    account pending, because it checks the code through [validar_otp],
    which refuses every code while [otp_habilitado] is unset.  The
    confirmation step of the route [configurar_otp_inicial], which checks
    through [validar_otp_con_debug], activates the account on the same
    input. *)
Theorem activar_otp_con_validacion_rechaza_codigo_valido :
  estado_otp usuario_pendiente = PendienteActivacion
  /\ codigo_totp hotp_de_prueba "JBSWY3DPEHPK3PXP" 1700000000 = Some "666666"
  /\ validar_otp_codigo hotp_de_prueba "666666" "JBSWY3DPEHPK3PXP" 1700000000 = true
  /\ activar_otp_con_validacion hotp_de_prueba "666666" 1700000000 usuario_pendiente
     = (false, usuario_pendiente, [EvValidarOtp "666666"])
  /\ configurar_otp_inicial hotp_de_prueba (peticion_confirmar "666666") None 1700000000
       (mundo_de usuario_pendiente documento_secreto)
     = (mkRespuesta 200 "otp_activo",
        mkMundo (Some usuario_activado) (Some documento_secreto) true []
                [EvValidarOtpDebug "666666"; EvTotp "666666" "JBSWY3DPEHPK3PXP"]).
Proof. repeat split; vm_compute; reflexivity. Qed.

(** C7: the account has an active second factor and the view request
    carries the code "abc", which is not six digits.  The view route
    hands it to [validar_otp], the TOTP comparison runs on it and the
    answer is the mismatch [OTP_INVALIDO]; the decorator
    [requiere_otp_para_documento] answers the same request with the
    format error before any comparison. *)
Theorem ver_con_codigo_malformado :
  seis_digitos_ascii "abc" = false
  /\ estado_otp usuario_con_otp = Activo
  /\ obtener_documento hotp_de_prueba (peticion_ver (Some "abc")) 1700000000
       (mundo_de usuario_con_otp documento_secreto)
     = (mkRespuesta 401 "OTP_INVALIDO",
        mkMundo (Some usuario_con_otp) (Some documento_secreto) true []
                [EvValidarOtp "abc"; EvTotp "abc" "JBSWY3DPEHPK3PXP"])
  /\ requiere_otp_para_documento hotp_de_prueba (peticion_ver (Some "abc")) 1700000000
       (responder 200 "documento") (mundo_de usuario_con_otp documento_secreto)
     = (mkRespuesta 400 "Formato de codigo OTP invalido",
        mundo_de usuario_con_otp documento_secreto).
Proof. repeat split; vm_compute; reflexivity. Qed.


(** The whole lifecycle on the sample account: provisioning, then
    confirmation with the code of the current step. *)
Lemma ciclo_de_activacion :
  usuario_bd
    (ejecutar_todas hotp_de_prueba bcrypt_de_prueba (fun s => s)
       [OpConfigurarOtpInicial peticion_provisionar (Some "JBSWY3DPEHPK3PXP") 1700000000;
        OpConfigurarOtpInicial (peticion_confirmar "666666") None 1700000000]
       (mundo_de usuario_estandar documento_secreto))
  = Some usuario_activado.
Proof. vm_compute. reflexivity. Qed.

Lemma bloqueo_sin_verificar_credencial_witness :
  rechaza_sin_efecto
    (ruta_login bcrypt_de_prueba (fun s => s) (peticion_login "hash-usuario") 1700000000)
    (mundo_de (con_intentos usuario_estandar 5) documento_publico)
  /\ exists u5,
       usuario_bd (intentos_de_login bcrypt_de_prueba (fun s => s) 5
                     (peticion_login "mala") 1700000000
                     (mundo_de usuario_estandar documento_publico)) = Some u5
       /\ intentos_login_fallidos u5 = 5
       /\ esta_bloqueado u5 = true
       /\ forall p6 t6,
            snd (login bcrypt_de_prueba (fun s => s) p6 t6
                   (intentos_de_login bcrypt_de_prueba (fun s => s) 5
                      (peticion_login "mala") 1700000000
                      (mundo_de usuario_estandar documento_publico)))
            = intentos_de_login bcrypt_de_prueba (fun s => s) 5
                (peticion_login "mala") 1700000000
                (mundo_de usuario_estandar documento_publico)
            /\ http (fst (login bcrypt_de_prueba (fun s => s) p6 t6
                            (intentos_de_login bcrypt_de_prueba (fun s => s) 5
                               (peticion_login "mala") 1700000000
                               (mundo_de usuario_estandar documento_publico)))) <> 200.
Proof.
  split.
  - apply (proj1 (bloqueo_sin_verificar_credencial bcrypt_de_prueba (fun s => s))
             (peticion_login "hash-usuario") 1700000000
             (mundo_de (con_intentos usuario_estandar 5) documento_publico)
             (con_intentos usuario_estandar 5)); reflexivity.
  - apply (proj2 (bloqueo_sin_verificar_credencial bcrypt_de_prueba (fun s => s))
             (peticion_login "mala") 1700000000
             (mundo_de usuario_estandar documento_publico) usuario_estandar);
      try reflexivity; simpl; discriminate.
Defined.


Lemma invariante_otp_en_todo_estado_witness :
  (invariante_mundo (mundo_de usuario_pendiente documento_secreto) = true
   /\ invariante_mundo
        (ejecutar hotp_de_prueba bcrypt_de_prueba (fun s => s)
           (OpConfigurarOtpInicial (peticion_confirmar "666666") None 1700000000)
           (mundo_de usuario_pendiente documento_secreto)) = true)
  /\ (otp_habilitado usuario_activado = true
      /\ clave_otp_base32 usuario_activado <> None)
  /\ (estado_otp usuario_pendiente = PendienteActivacion
      /\ invariante_otp usuario_pendiente = true
      /\ clave_otp_base32 usuario_pendiente <> None).
Proof.
  split; [| split].
  - split; [reflexivity |].
    apply (proj1 (invariante_otp_en_todo_estado hotp_de_prueba bcrypt_de_prueba
                    (fun s => s))).
    reflexivity.
  - split; [reflexivity |].
    apply (proj1 (proj2 (invariante_otp_en_todo_estado hotp_de_prueba bcrypt_de_prueba
                           (fun s => s)))
             [OpConfigurarOtpInicial peticion_provisionar (Some "JBSWY3DPEHPK3PXP")
                1700000000;
              OpConfigurarOtpInicial (peticion_confirmar "666666") None 1700000000]
             (mundo_de usuario_estandar documento_secreto)
             usuario_estandar usuario_activado);
      reflexivity.
  - split; [reflexivity |].
    apply (proj2 (proj2 (invariante_otp_en_todo_estado hotp_de_prueba bcrypt_de_prueba
                           (fun s => s)))).
    reflexivity.
Defined.

Lemma validar_otp_fallido_no_modifica_witness :
  (fst (fst (validar_otp hotp_de_prueba "000000" 1700000000 usuario_con_otp)) = false
   /\ snd (fst (validar_otp hotp_de_prueba "000000" 1700000000 usuario_con_otp))
      = usuario_con_otp)
  /\ (estado_otp usuario_pendiente <> Activo
      /\ fst (fst (validar_otp hotp_de_prueba "666666" 1700000000 usuario_pendiente))
         = false)
  /\ (fst (fst (validar_otp hotp_de_prueba "666666" 1700000000 usuario_con_otp)) = true
      /\ snd (fst (validar_otp hotp_de_prueba "666666" 1700000000 usuario_con_otp))
         = con_fecha_otp usuario_con_otp (Some 1700000000)).
Proof.
  split; [| split].
  - split; [vm_compute; reflexivity |].
    apply (proj1 (validar_otp_fallido_no_modifica hotp_de_prueba usuario_con_otp
                    "000000" 1700000000)).
    vm_compute. reflexivity.
  - assert (H : estado_otp usuario_pendiente <> Activo) by (vm_compute; discriminate).
    split; [exact H |].
    apply (proj1 (proj2 (validar_otp_fallido_no_modifica hotp_de_prueba
                           usuario_pendiente "666666" 1700000000))).
    exact H.
  - split; [vm_compute; reflexivity |].
    apply (proj1 (proj2 (proj2 (validar_otp_fallido_no_modifica hotp_de_prueba
                                  usuario_con_otp "666666" 1700000000)))).
    vm_compute. reflexivity.
Defined.


(** ** The further properties on the sample data *)

Lemma matriz_sin_regla_no_exige_witness :
  requiere_otp_para_accion "editar" "secreto" "usuario" = false
  /\ requiere_otp_para_accion "ver" "restringido" "usuario" = false.
Proof.
  split.
  - apply (matriz_sin_regla_no_exige "editar" "secreto" "usuario").
    right. repeat split; discriminate.
  - apply (matriz_sin_regla_no_exige "ver" "restringido" "usuario").
    left. repeat split; discriminate.
Defined.

Lemma matriz_decrece_con_privilegio_witness :
  requiere_otp_para_accion "eliminar" "publico" "supervisor" = true
  /\ requiere_otp_para_accion "eliminar" "publico" "usuario" = true.
Proof.
  split; [reflexivity |].
  apply (matriz_decrece_con_privilegio "eliminar" "publico" "usuario" "supervisor"
           0%nat 1%nat); try reflexivity.
  lia.
Defined.

Lemma matriz_independiente_del_rol_witness :
  requiere_otp_para_accion "ver" "secreto" "usuario"
  = requiere_otp_para_accion "ver" "secreto" "admin".
Proof.
  apply (matriz_independiente_del_rol "ver" "secreto" "usuario" "admin").
  - intros [H _]. discriminate H.
  - intros [H _]. discriminate H.
Defined.


Lemma listado_por_nivel_coincide_con_permiso_witness :
  validar_nivel_seguridad "secreto" = true
  /\ In documento_secreto
        (obtener_documentos_por_nivel_seguridad "secreto" usuario_estandar
           [documento_publico; documento_confidencial; documento_secreto]).
Proof.
  split; [reflexivity |].
  apply (proj2 (listado_por_nivel_coincide_con_permiso "secreto" usuario_estandar
                  [documento_publico; documento_confidencial; documento_secreto]
                  documento_secreto eq_refl)).
  split; [simpl; tauto | repeat split; reflexivity].
Defined.


Lemma obtener_documento_200_witness :
  http (fst (obtener_documento hotp_de_prueba (peticion_ver (Some "666666")) 1700000000
               (mundo_de usuario_con_otp documento_secreto))) = 200
  /\ exists u d,
       jwt_error (peticion_ver (Some "666666")) = None
       /\ usuario_bd (mundo_de usuario_con_otp documento_secreto) = Some u
       /\ activo u = true
       /\ documento_bd (mundo_de usuario_con_otp documento_secreto) = Some d
       /\ estado d = "activo"
       /\ puede_acceder_documento u d = true
       /\ (requiere_otp_para_accion "ver" (nivel_seguridad d) (rol u) = true ->
           otp_habilitado u = true
           /\ exists cod clave,
                x_otp_code (peticion_ver (Some "666666")) = Some cod
                /\ clave_otp_base32 u = Some clave
                /\ validar_otp_codigo hotp_de_prueba cod clave 1700000000 = true).
Proof.
  split; [vm_compute; reflexivity |].
  apply (obtener_documento_200 hotp_de_prueba (peticion_ver (Some "666666")) 1700000000
           (mundo_de usuario_con_otp documento_secreto)).
  vm_compute. reflexivity.
Defined.

Lemma documento_eliminado_no_disponible_witness :
  puede_eliminar_documento usuario_estandar documento_secreto = true
  /\ obtener_documento hotp_de_prueba (peticion_ver None) 1700000100
       (snd (eliminar_documento (peticion_eliminar None) 1700000000
               (mundo_de usuario_estandar documento_secreto)))
     = (mkRespuesta 410 "DOCUMENTO_NO_DISPONIBLE",
        snd (eliminar_documento (peticion_eliminar None) 1700000000
               (mundo_de usuario_estandar documento_secreto))).
Proof.
  split; [reflexivity |].
  apply (proj1 (documento_eliminado_no_disponible hotp_de_prueba
                  (peticion_eliminar None) 1700000000
                  (mundo_de usuario_estandar documento_secreto)
                  usuario_estandar documento_secreto (peticion_ver None) 1700000100
                  eq_refl eq_refl eq_refl
                  ltac:(simpl; discriminate) eq_refl eq_refl eq_refl eq_refl
                  ltac:(simpl; discriminate))).
Defined.

Lemma habilitar_exige_confirmacion_witness :
  otp_habilitado usuario_pendiente = false
  /\ usuario_bd (ejecutar hotp_de_prueba bcrypt_de_prueba (fun s => s)
                   (OpConfigurarOtpInicial (peticion_confirmar "666666") None 1700000000)
                   (mundo_de usuario_pendiente documento_secreto))
     = Some usuario_activado
  /\ exists p k ahora cod clave,
       OpConfigurarOtpInicial (peticion_confirmar "666666") None 1700000000
       = OpConfigurarOtpInicial p k ahora
       /\ dict_find (json p) "codigo_validacion" = Some cod
       /\ isdigit cod && (len cod =? 6) = true
       /\ clave_otp_base32 usuario_pendiente = Some clave
       /\ validar_otp_codigo hotp_de_prueba cod clave ahora = true.
Proof.
  split; [reflexivity |]. split; [vm_compute; reflexivity |].
  apply (habilitar_exige_confirmacion hotp_de_prueba bcrypt_de_prueba (fun s => s)
           (OpConfigurarOtpInicial (peticion_confirmar "666666") None 1700000000)
           (mundo_de usuario_pendiente documento_secreto)
           usuario_pendiente usuario_activado).
  - reflexivity.
  - reflexivity.
  - vm_compute. reflexivity.
  - reflexivity.
Defined.

Lemma contador_de_fallos_acotado_witness :
  sobre_cuenta (fun u => intentos_login_fallidos u <= 5)
    (usuario_bd
       (ejecutar_todas hotp_de_prueba bcrypt_de_prueba (fun s => s)
          (map (fun pt => OpLogin (fst pt) (snd pt))
               [(peticion_login "mala", 1700000000); (peticion_login "mala", 1700000001);
                (peticion_login "mala", 1700000002); (peticion_login "mala", 1700000003);
                (peticion_login "mala", 1700000004); (peticion_login "mala", 1700000005);
                (peticion_login "mala", 1700000006)])
          (mundo_de usuario_estandar documento_publico))).
Proof.
  apply (contador_de_fallos_acotado hotp_de_prueba bcrypt_de_prueba (fun s => s)).
  intros u E. injection E as <-. simpl. lia.
Defined.



Lemma validar_password_bordes_witness :
  validar_password "abcdefgh" = true
  /\ 6 <= len "abcdefgh" <= 128
  /\ validar_password "abcdefg" = false.
Proof.
  assert (H : validar_password "abcdefgh" = true).
  { apply (proj1 (proj2 (validar_password_bordes "abcdefgh"))).
    - vm_compute. split; discriminate.
    - vm_compute. reflexivity. }
  split; [exact H |]. split.
  - exact (proj1 (validar_password_bordes "abcdefgh") H).
  - apply (proj2 (proj2 (validar_password_bordes "abcdefg"))).
    + vm_compute. split; discriminate.
    + vm_compute. reflexivity.
Defined.

Lemma validar_paginacion_cotas_witness :
  validar_paginacion (PaginaNumero 0) (PaginaNumero 500) 100 = Some (1, 100)
  /\ (1 <= 1 /\ 1 <= 100 /\ 100 <= 100)
  /\ validar_paginacion (PaginaNumero 2) PaginaDesbordada 100 = None.
Proof.
  split; [reflexivity |]. split.
  - destruct (proj2 (validar_paginacion_cotas (PaginaNumero 0) (PaginaNumero 500) 100)
                1 100 eq_refl) as [H1 [H2 [H3 _]]].
    split; [exact H1 |]. split; [apply H2; lia | apply H3; discriminate].
  - apply (proj1 (validar_paginacion_cotas (PaginaNumero 2) PaginaDesbordada 100)).
    right. reflexivity.
Defined.

Lemma obtener_extension_parte_witness :
  ((exists base,
      "informe.final.pdf" = base ++ String "."%char (obtener_extension "informe.final.pdf"))
   /\ alguno es_punto (obtener_extension "informe.final.pdf") = false)
  /\ obtener_extension "LEEME" = "".
Proof.
  split.
  - apply (proj1 (obtener_extension_parte "informe.final.pdf")).
    vm_compute. reflexivity.
  - apply (proj2 (obtener_extension_parte "LEEME")).
    vm_compute. reflexivity.
Defined.

Lemma validar_busqueda_sin_comodines_witness :
  fst (validar_busqueda "  100%_real  ") = true
  /\ alguno es_comodin (snd (validar_busqueda "  100%_real  ")) = false
  /\ len (snd (validar_busqueda "  100%_real  ")) <= 100
  /\ len (snd (validar_busqueda "  100%_real  ")) <= len (strip "  100%_real  ").
Proof.
  split; [vm_compute; reflexivity |].
  apply (validar_busqueda_sin_comodines "  100%_real  ").
  vm_compute. reflexivity.
Defined.

Lemma cache_guardar_y_leer_witness :
  cache_get "docs_7" 1700000200 (cache_set "docs_7" 3 300 1700000000 (mkCache Z [] []))
  = (Some 3, cache_set "docs_7" 3 300 1700000000 (mkCache Z [] []))
  /\ fst (cache_get "docs_7" 1700000301
            (cache_set "docs_7" 3 300 1700000000 (mkCache Z [] []))) = None.
Proof.
  assert (H : 300 <> 0) by lia.
  split.
  - apply (proj1 (cache_guardar_y_leer (mkCache Z [] []) "docs_7" 3 300 1700000000
                    1700000200 H)).
    lia.
  - apply (proj1 (proj2 (cache_guardar_y_leer (mkCache Z [] []) "docs_7" 3 300
                           1700000000 1700000301 H))).
    lia.
Defined.

Lemma cache_sin_timeout_hereda_vencimiento_witness :
  fst (cache_get "docs_7" 1700000400
         (cache_set "docs_7" 4 0 1700000350
            (cache_set "docs_7" 3 300 1700000000 (mkCache Z [] [])))) = None
  /\ fst (cache_get "docs_7" 1700000400
            (cache_set "docs_7" 4 0 1700000350 (mkCache Z [] []))) = Some 4.
Proof.
  split.
  - apply (proj1 (cache_sin_timeout_hereda_vencimiento (mkCache Z [] []) "docs_7" 3 4
                    300 1700000000 1700000350 1700000400)); lia.
  - apply (proj2 (cache_sin_timeout_hereda_vencimiento (mkCache Z [] []) "docs_7" 3 4
                    300 1700000000 1700000350 1700000400)).
    reflexivity.
Defined.

Lemma cache_claves_independientes_witness :
  fst (cache_get "docs_8" 1700000100
         (cache_set "docs_7" 3 300 1700000000
            (cache_set "docs_8" 5 300 1700000000 (mkCache Z [] []))))
  = fst (cache_get "docs_8" 1700000100
           (cache_set "docs_8" 5 300 1700000000 (mkCache Z [] [])))
  /\ fst (cache_get "docs_8" 1700000100
            (cache_delete "docs_7"
               (cache_set "docs_8" 5 300 1700000000 (mkCache Z [] []))))
     = fst (cache_get "docs_8" 1700000100
              (cache_set "docs_8" 5 300 1700000000 (mkCache Z [] []))).
Proof.
  apply (cache_claves_independientes
           (cache_set "docs_8" 5 300 1700000000 (mkCache Z [] []))
           "docs_7" "docs_8" 3 300 1700000000 1700000100).
  discriminate.
Defined.

Lemma decoradores_de_rol_witness :
  requiere_supervisor_o_admin (peticion_ver None) (fun _ => responder 200 "ok")
    (mundo_de supervisor_ajeno documento_publico)
  = (mkRespuesta 200 "ok", mundo_de supervisor_ajeno documento_publico)
  /\ requiere_admin (peticion_ver None) (fun _ => responder 200 "ok")
       (mundo_de supervisor_ajeno documento_publico)
     = (mkRespuesta 403 "ROL_INSUFICIENTE", mundo_de supervisor_ajeno documento_publico).
Proof.
  exact (decoradores_de_rol (peticion_ver None) (fun _ => responder 200 "ok")
           (mundo_de supervisor_ajeno documento_publico) supervisor_ajeno
           eq_refl eq_refl eq_refl).
Defined.

Lemma guardia_monitoreo_rechaza_witness :
  es_admin (con_rol usuario_estandar "admin") = true
  /\ fst (guardia_monitoreo ["supervisor"; "admin"] (peticion_ver None)
            (fun _ => responder 200 "ok")
            (mundo_de (con_rol usuario_estandar "admin") documento_publico))
     = mkRespuesta 401 "ERROR_AUTENTICACION".
Proof.
  split; [reflexivity |].
  apply (proj2 (proj2 (guardia_monitoreo_rechaza ["supervisor"; "admin"]
                         (peticion_ver None) (fun _ => responder 200 "ok")
                         (mundo_de (con_rol usuario_estandar "admin") documento_publico)))
           (con_rol usuario_estandar "admin"));
    reflexivity.
Defined.

Lemma limite_por_minuto_exacto_witness :
  fst (verificar_en_serie "10.0.0.1" 3
         [1700000000; 1700000001; 1700000002; 1700000003; 1700000004] [])
  = [true; true; true; false; false]
  /\ conteo (snd (verificar_en_serie "10.0.0.1" 3
                    [1700000000; 1700000001; 1700000002; 1700000003; 1700000004] []))
       "10.0.0.1" 28333333 = 3.
Proof.
  apply (limite_por_minuto_exacto "10.0.0.1" 3 28333333
           [1700000000; 1700000001; 1700000002; 1700000003; 1700000004] []).
  repeat constructor.
Defined.

Lemma login_200_exactamente_witness :
  otp_habilitado usuario_con_otp = true
  /\ http (fst (login bcrypt_de_prueba (fun s => s) (peticion_login "hash-usuario")
                  1700000000 (mundo_de usuario_con_otp documento_publico))) = 200
  /\ exists u h,
       usuario_bd (mundo_de usuario_con_otp documento_publico) = Some u
       /\ activo u = true
       /\ intentos_login_fallidos u < 5
       /\ password_hash u = Some h
       /\ bcrypt_de_prueba h (dict_get (json (peticion_login "hash-usuario")) "password" "")
          = true.
Proof.
  split; [reflexivity |]. split.
  - apply (proj2 (proj1 (login_200_exactamente bcrypt_de_prueba (fun s => s)
                           (peticion_login "hash-usuario") 1700000000
                           (mundo_de usuario_con_otp documento_publico)))).
    exists usuario_con_otp, "hash-usuario".
    repeat split; try discriminate; try reflexivity.
  - apply (proj2 (login_200_exactamente bcrypt_de_prueba (fun s => s)
                    (peticion_login "hash-usuario") 1700000000
                    (mundo_de usuario_con_otp documento_publico))).
    vm_compute. reflexivity.
Defined.

Lemma permisos_por_accion_encajan_witness :
  (puede_modificar_documento usuario_estandar documento_secreto = true
   /\ puede_acceder_documento usuario_estandar documento_secreto = true)
  /\ (puede_modificar_documento supervisor_ajeno
        (mkDocumento 13 "restringido" 7 "activo" None 0 0 None) = true
      /\ puede_acceder_documento supervisor_ajeno
           (mkDocumento 13 "restringido" 7 "activo" None 0 0 None) = false).
Proof.
  split.
  - apply (proj1 (permisos_por_accion_encajan usuario_estandar documento_secreto)).
    reflexivity.
  - apply (proj2 (proj2 (permisos_por_accion_encajan supervisor_ajeno
                           (mkDocumento 13 "restringido" 7 "activo" None 0 0 None)))).
    + reflexivity.
    + simpl. discriminate.
    + reflexivity.
Defined.

Lemma validar_otp_route_valido_witness :
  fst (validar_otp_route hotp_de_prueba
         (mkPeticion None "POST" "auth.validar_otp_route" "/api/auth/otp/validar" 0
                     None true [("codigo", "666666")] "10.0.0.1")
         1700000000 (mundo_de usuario_con_otp documento_secreto))
  = mkRespuesta 200 "OTP valido"
  /\ exists u clave,
       usuario_bd (mundo_de usuario_con_otp documento_secreto) = Some u
       /\ otp_habilitado u = true
       /\ clave_otp_base32 u = Some clave
       /\ validar_otp_codigo hotp_de_prueba "666666" clave 1700000000 = true.
Proof.
  assert (H : fst (validar_otp_route hotp_de_prueba
                     (mkPeticion None "POST" "auth.validar_otp_route"
                                 "/api/auth/otp/validar" 0 None true
                                 [("codigo", "666666")] "10.0.0.1")
                     1700000000 (mundo_de usuario_con_otp documento_secreto))
              = mkRespuesta 200 "OTP valido") by (vm_compute; reflexivity).
  split; [exact H |].
  destruct (validar_otp_route_valido hotp_de_prueba _ _ _ H)
    as [u [clave [_ [Eu [_ [Ho [Ek [_ Hv]]]]]]]].
  exists u, clave. repeat split; assumption.
Defined.

Lemma limitar_frecuencia_ventana_fija_witness :
  map (fun r => http r =? 429)
      (fst (limitar_en_serie 2 900 "login" (peticion_login "mala")
              [1700000000; 1700000010; 1700000020; 1700000900]
              (responder 200 "ok") (mundo_de usuario_estandar documento_publico)))
  = [false; false; true; true].
Proof.
  apply (limitar_frecuencia_ventana_fija 2 900 "login" (peticion_login "mala")
           (responder 200 "ok") 1700000000 [1700000010; 1700000020; 1700000900]
           (mundo_de usuario_estandar documento_publico)).
  - intros m'. reflexivity.
  - intros m'. simpl. discriminate.
  - reflexivity.
  - repeat constructor; lia.
Defined.

Lemma decorador_otp_no_cubre_escritura_witness :
  requiere_otp_para_accion "ver" "secreto" "usuario" = true
  /\ requiere_otp_para_documento hotp_de_prueba
       (mkPeticion None "PUT" "documentos.actualizar_documento" "/api/documentos/12" 12
                   None true [] "10.0.0.1")
       1700000000 (responder 200 "actualizado")
       (mundo_de usuario_estandar documento_secreto)
     = (mkRespuesta 200 "actualizado", mundo_de usuario_estandar documento_secreto).
Proof.
  split; [reflexivity |].
  apply (decorador_otp_no_cubre_escritura hotp_de_prueba
           (mkPeticion None "PUT" "documentos.actualizar_documento" "/api/documentos/12"
                       12 None true [] "10.0.0.1")
           1700000000 (responder 200 "actualizado")
           (mundo_de usuario_estandar documento_secreto)
           usuario_estandar documento_secreto);
    try reflexivity.
  - simpl. discriminate.
  - left. reflexivity.
Defined.
